(** * A shallow embedding of [util.py], the tabular data-quality profiler.

    The profiler runs thirteen checks over a pandas DataFrame; every check
    appends text to a shared dictionary [context] (keys [body] and
    [action_items]) and one of them rewrites date columns of the frame in
    place.  The embedding below keeps that shape: a small state-and-exception
    monad threads the frame and the dictionary through the checks, the
    dictionary is a finite map from keys to text, and a frame is a list of
    labelled columns of Python values. *)

From Stdlib Require Import ZArith QArith Qround Qabs Qpower Lqa List String Ascii Bool Lia Sorted Permutation OrdersEx.
From stdpp Require Import base gmap strings list pretty.

Local Open Scope string_scope.
Local Open Scope list_scope.

(** ** Text helpers *)

Definition nl : string := String (ascii_of_nat 10) EmptyString.

(** [sep.join(parts)] *)
Definition join (sep : string) (parts : list string) : string :=
  String.concat sep parts.

(** [" " in col] and, more generally, [c in s] for a one-character [c]. *)
Fixpoint contains_char (c : ascii) (s : string) : bool :=
  match s with
  | EmptyString => false
  | String a rest => if Ascii.eqb a c then true else contains_char c rest
  end.

(** ** Python values held in the cells of a frame *)

(** The three missing markers pandas treats alike ([isna] is true of each). *)
Inductive missing : Type := PyNone | NaN | NaT.

Inductive value : Type :=
| VNull (m : missing)
| VBool (b : bool)
| VInt (n : Z)
| VFloat (x : Q)                  (* a finite float, by its exact value *)
| VStr (s : string)
| VTime (t : Z)                   (* UTC instant, nanoseconds since the epoch *)
| VObj (tyname : string) (tag : nat).
    (* any other object, by its type name: hashable, equal to itself only,
       and without an ordering ([<] on it raises [TypeError]) *)

Definition isna (v : value) : bool :=
  match v with VNull _ => true | _ => false end.

(** [type(x).__name__] *)
Definition type_name (v : value) : string :=
  match v with
  | VNull PyNone => "NoneType"
  | VNull NaN => "float"
  | VNull NaT => "NaTType"
  | VBool _ => "bool"
  | VInt _ => "int"
  | VFloat _ => "float"
  | VStr _ => "str"
  | VTime _ => "Timestamp"
  | VObj ty _ => ty
  end.

(** [isinstance(x, (int, float))]; [bool] is a subclass of [int] and the
    missing marker [NaN] is a [float]. *)
Definition isinstance_int_float (v : value) : bool :=
  match v with
  | VBool _ | VInt _ | VFloat _ | VNull NaN => true
  | _ => false
  end.

(** The number a numeric value stands for ([True == 1], [1 == 1.0]). *)
Definition num_of (v : value) : option Q :=
  match v with
  | VBool b => Some (if b then 1%Q else 0%Q)
  | VInt n => Some (inject_Z n)
  | VFloat x => Some x
  | _ => None
  end.

(** The kinds of values, in the order a sorted key shows them: what is not
    text first, then text, missing values last. *)
Definition kind_rank (v : value) : nat :=
  match v with
  | VBool _ | VInt _ | VFloat _ => 0
  | VTime _ => 1
  | VObj _ _ => 2
  | VStr _ => 3
  | VNull _ => 4
  end.

(** Lexicographic combination: the second comparison decides ties of the
    first. *)
Definition lex (c d : comparison) : comparison :=
  match c with Eq => d | _ => c end.

(** Three-way comparison of two cell values, as used when pandas factorises
    and sorts a key: numbers by value ([True] is [1], [1] is [1.0]), text by
    its characters, instants by time, objects by type name, and values of
    different kinds by their kind. *)
Definition value_compare (a b : value) : comparison :=
  match a, b with
  | VStr s, VStr t => String_as_OT.compare s t
  | VTime s, VTime t => Z.compare s t
  | VObj s i, VObj t j => lex (String_as_OT.compare s t) (Nat.compare i j)
  | _, _ =>
      match num_of a, num_of b with
      | Some x, Some y => Qcompare x y
      | _, _ => Nat.compare (kind_rank a) (kind_rank b)
      end
  end.

(** Equality of cell values once a column is factorised: numbers by value,
    and a missing value is one code whatever its marker. *)
Definition value_eqb (a b : value) : bool :=
  match value_compare a b with Eq => true | _ => false end.

Definition missing_eqb (m m' : missing) : bool :=
  match m, m' with
  | PyNone, PyNone | NaN, NaN | NaT, NaT => true
  | _, _ => false
  end.

(** Equality as the hash table behind [Series.duplicated] and
    [Series.unique] sees it: as above, but the three missing markers are
    kept apart ([None] is not [nan]). *)
Definition series_eqb (a b : value) : bool :=
  match a, b with
  | VNull m, VNull m' => missing_eqb m m'
  | _, _ => value_eqb a b
  end.

(** [a < b] is defined: between numbers, between texts and between
    instants; between any other two values it raises [TypeError]. *)
Definition lt_defined (a b : value) : bool :=
  match a, b with
  | VStr _, VStr _ | VTime _, VTime _ => true
  | _, _ =>
      match num_of a, num_of b with
      | Some _, Some _ => true
      | _, _ => false
      end
  end.

(** Sorting [vs] compares its entries with one another, so it raises unless
    [<] is defined on them; nothing is compared when there is one entry or
    none. *)
Definition sortable (vs : list value) : bool :=
  match vs with
  | [] | [_] => true
  | _ => forallb (fun a => forallb (lt_defined a) vs) vs
  end.

Definition is_text (v : value) : bool :=
  match v with VStr _ => true | _ => false end.

(** ** Exceptions *)

Inductive exn : Type :=
| KeyError (key : string)
| ValueError
| TypeError
| AttributeError.

(** A computation without side effects that may raise. *)
Inductive result (A : Type) : Type :=
| Ok (a : A)
| Err (e : exn).
Arguments Ok {A} a.
Arguments Err {A} e.

Fixpoint map_result {A B : Type} (f : A -> result B) (l : list A)
  : result (list B) :=
  match l with
  | [] => Ok []
  | x :: rest =>
      match f x with
      | Err e => Err e
      | Ok y =>
          match map_result f rest with
          | Err e => Err e
          | Ok ys => Ok (y :: ys)
          end
      end
  end.

(** [[x for x in l if f(x)]] where the test may raise. *)
Fixpoint filter_result {A : Type} (f : A -> result bool) (l : list A)
  : result (list A) :=
  match l with
  | [] => Ok []
  | x :: rest =>
      match f x with
      | Err e => Err e
      | Ok keep =>
          match filter_result f rest with
          | Err e => Err e
          | Ok kept => Ok (if keep then x :: kept else kept)
          end
      end
  end.

(** ** Frames *)

Inductive dtype : Type := int64 | float64 | bool_ | object | datetime64_utc.

Record column : Type := Column {
  label : string;
  col_dtype : dtype;
  cells : list value
}.

(** A frame: its [name] attribute, the length of its index and its columns
    in order.  Labels may repeat. *)
Record DataFrame : Type := Frame {
  df_name : string;
  nrows : nat;
  cols : list column
}.

(** [df.columns] *)
Definition columns (df : DataFrame) : list string := map label (cols df).

(** [col in df.columns] *)
Definition has_column (c : string) (df : DataFrame) : bool :=
  existsb (String.eqb c) (columns df).

(** [df.shape] *)
Definition shape (df : DataFrame) : nat * nat := (nrows df, length (cols df)).

(** The columns carrying a label. *)
Definition labelled (df : DataFrame) (c : string) : list column :=
  List.filter (fun k => String.eqb (label k) c) (cols df).

(** What [df[col]] gives: a Series when one column carries the label, a
    frame of the columns carrying it when several do. *)
Inductive selection : Type :=
| Series (k : column)
| SubFrame (ks : list column).

(** [df[col]] *)
Definition getitem (df : DataFrame) (c : string) : result selection :=
  match labelled df c with
  | [] => Err (KeyError c)
  | [k] => Ok (Series k)
  | ks => Ok (SubFrame ks)
  end.

(** [l] has no entry twice. *)
Fixpoint distinct (l : list string) : bool :=
  match l with
  | [] => true
  | x :: rest => negb (existsb (String.eqb x) rest) && distinct rest
  end.

(** [df[col] = series]: the labelled column is replaced where it stands. *)
Definition setitem (df : DataFrame) (c : string) (dt : dtype) (vs : list value)
  : DataFrame :=
  Frame (df_name df) (nrows df)
        (map (fun k => if String.eqb (label k) c then Column (label k) dt vs else k)
             (cols df)).

(** Row [i] of the frame, read across the columns. *)
Definition row_at (df : DataFrame) (i : nat) : list value :=
  map (fun k => nth i (cells k) (VNull NaN)) (cols df).

Definition rows (df : DataFrame) : list (list value) :=
  map (row_at df) (seq 0 (nrows df)).

(** ** Series operations *)

(** [s.isna().sum()] / [df.isnull().sum()] for one column *)
Definition null_count (vs : list value) : nat :=
  length (List.filter isna vs).

(** [s.dropna()] *)
Definition dropna (vs : list value) : list value :=
  List.filter (fun v => negb (isna v)) vs.

Section Duplicated.
Context {A : Type} (eqb : A -> A -> bool).

(** [x.duplicated()], with the default [keep='first']: entry [i] is marked
    when an equal entry stands before it. *)
Fixpoint duplicated_from (seen : list A) (l : list A) : list bool :=
  match l with
  | [] => []
  | x :: rest => existsb (eqb x) seen :: duplicated_from (seen ++ [x]) rest
  end.

Definition duplicated (l : list A) : list bool := duplicated_from [] l.

(** [x.duplicated(keep=False)]: entry [i] is marked when an equal entry
    stands anywhere else. *)
Fixpoint others_before_after (before after : list A) : list bool :=
  match after with
  | [] => []
  | x :: rest =>
      (existsb (eqb x) before || existsb (eqb x) rest)
        :: others_before_after (before ++ [x]) rest
  end.

Definition duplicated_keep_false (l : list A) : list bool :=
  others_before_after [] l.

(** [x.unique()]: distinct entries in order of first appearance. *)
Fixpoint unique_from (seen : list A) (l : list A) : list A :=
  match l with
  | [] => []
  | x :: rest =>
      if existsb (eqb x) seen then unique_from seen rest
      else x :: unique_from (seen ++ [x]) rest
  end.

Definition unique (l : list A) : list A := unique_from [] l.
End Duplicated.

(** [mask.sum()] *)
Definition sum_true (mask : list bool) : nat := length (List.filter id mask).

(** [x[mask]] *)
Fixpoint select {A : Type} (l : list A) (mask : list bool) : list A :=
  match l, mask with
  | x :: l', b :: mask' => if b then x :: select l' mask' else select l' mask'
  | _, _ => []
  end.

(** [s.nunique()]: number of distinct non-missing values. *)
Definition nunique (vs : list value) : nat :=
  length (unique value_eqb (dropna vs)).

(** Rows are equal when they agree cell by cell. *)
Fixpoint row_eqb (r s : list value) : bool :=
  match r, s with
  | [], [] => true
  | a :: r', b :: s' => value_eqb a b && row_eqb r' s'
  | _, _ => false
  end.

(** Rows ordered by their cells from the first column on, which is what
    [sort_values(by=df.columns.tolist())] orders by. *)
Fixpoint row_compare (r s : list value) : comparison :=
  match r, s with
  | [], [] => Eq
  | [], _ :: _ => Lt
  | _ :: _, [] => Gt
  | a :: r', b :: s' => lex (value_compare a b) (row_compare r' s')
  end.

Definition row_leb (r s : list value) : bool :=
  match row_compare r s with Gt => false | _ => true end.

Section Sorting.
Context {A : Type} (leb : A -> A -> bool).

Fixpoint insert_sorted (x : A) (l : list A) : list A :=
  match l with
  | [] => [x]
  | y :: l' => if leb x y then x :: y :: l' else y :: insert_sorted x l'
  end.

(** A stable sort: equal keys keep their relative order. *)
Definition sort_by (l : list A) : list A :=
  fold_right insert_sorted [] l.
End Sorting.

(** ** The report context and the monad of the checks *)

(** What a check sees and may change: the frame it was handed and the
    dictionary [context].  Both are shared by reference among the checks, so
    changes made before an exception stay made. *)
Record state : Type := State {
  frame : DataFrame;
  context : gmap string string
}.

Inductive outcome (A : Type) : Type :=
| Returns (a : A) (s : state)
| Raises (e : exn) (s : state).
Arguments Returns {A} a s.
Arguments Raises {A} e s.

Definition M (A : Type) : Type := state -> outcome A.

Definition ret {A : Type} (a : A) : M A := fun s => Returns a s.

Definition bind {A B : Type} (m : M A) (k : A -> M B) : M B :=
  fun s =>
    match m s with
    | Returns a s' => k a s'
    | Raises e s' => Raises e s'
    end.

Definition raise {A : Type} (e : exn) : M A := fun s => Raises e s.

Definition lift {A : Type} (r : result A) : M A :=
  match r with Ok a => ret a | Err e => raise e end.

Declare Scope check_scope.
Delimit Scope check_scope with check.
Notation "x <- c ;; k" := (bind c (fun x => k))
  (at level 100, c at next level, right associativity) : check_scope.
Notation "c ;;; k" := (bind c (fun _ => k))
  (at level 100, right associativity) : check_scope.
Local Open Scope check_scope.

Definition get_frame : M DataFrame := fun s => Returns (frame s) s.

Definition put_frame (df : DataFrame) : M unit :=
  fun s => Returns tt (State df (context s)).

(** [context[key] += text]: the old text is read first, so a key that is not
    in the dictionary raises [KeyError]. *)
Definition iadd (key text : string) : M unit :=
  fun s =>
    match context s !! key with
    | Some old => Returns tt (State (frame s) (<[key := old +:+ text]> (context s)))
    | None => Raises (KeyError key) s
    end.

(** The final state of a computation, however it ended. *)
Definition final_state {A : Type} (o : outcome A) : state :=
  match o with Returns _ s => s | Raises _ s => s end.

(** ** What the checks take from Python and pandas as given *)

(** One line of the per-column summary built by [_get_column_data_types]. *)
Record dtype_row : Type := DtypeRow {
  row_column : string;
  row_dtype : dtype;
  row_nulls : nat;
  row_unique : nat
}.

(** Text rendering, the reading of text and the clock are the library's
    business; the checks only pass their results along. *)
Record runtime : Type := Runtime {
  (** [str(labels)] for a list of column labels, as an f-string prints it *)
  repr_labels : list string -> string;
  (** [str(x)] for a cell value *)
  str_value : value -> string;
  (** a float as an f-string prints it *)
  str_float : Q -> string;
  (** [dtype_info.to_string(index=False)] *)
  dtype_info_to_string : list dtype_row -> string;
  (** [frame.to_string(index=False)] for the given labels and rows *)
  rows_to_string : list string -> list (list value) -> string;
  (** [df.describe(include=[np.number]).to_string(index=True)] *)
  describe_to_string : DataFrame -> string;
  (** [float(s)] for text: [None] stands for [ValueError] *)
  parse_float : string -> option value;
  (** the instant a text denotes when it is read on its own, without a
      format; [None] stands for [ValueError] *)
  parse_datetime : string -> option Z;
  (** the format guessed from a text, if one is *)
  guess_datetime_format : string -> option string;
  (** the instant a text denotes when read with a format; [None] stands for
      [ValueError] *)
  strptime : string -> string -> option Z;
  (** [pd.Timestamp.now(tz='UTC')] as read while the named column is checked *)
  now_utc : string -> Z
}.

Section Checks.
Variable rt : runtime.

(** *** 1. [get_dataframe_shape] *)
Definition get_dataframe_shape : M unit :=
  df <- get_frame ;;
  let '(df_rows, df_cols) := shape df in
  iadd "body"
    (nl +:+ "    1. Basic Table Information:" +:+ nl +:+
     "       - DataFrame has " +:+ pretty df_rows +:+ " rows and " +:+
     pretty df_cols +:+ " columns." +:+ nl +:+
     "    ").

(** *** 2. [check_column_spaces] *)
Definition check_column_spaces : M unit :=
  df <- get_frame ;;
  let col_with_spaces := List.filter (contains_char " "%char) (columns df) in
  space_issue <-
    match col_with_spaces with
    | _ :: _ =>
        iadd "action_items"
          ("    - Column name cleanup: Remove leading/trailing spaces in columns, or replace inner spaces with underscores (`_`) in the column "
           +:+ repr_labels rt col_with_spaces +:+ "." +:+ nl) ;;;
        ret ("Columns with spaces: " +:+ repr_labels rt col_with_spaces)
    | [] => ret "No column names have extra spaces."
    end ;;
  iadd "body"
    (nl +:+ "    2. Column Name Issues:" +:+ nl +:+
     "       - " +:+ space_issue +:+ nl +:+
     "    ").

(** *** [check_duplicate_columns] *)
Definition check_duplicate_columns : M unit :=
  df <- get_frame ;;
  let duplicated_columns :=
    select (columns df) (duplicated String.eqb (columns df)) in
  duplicate_issue <-
    match duplicated_columns with
    | _ :: _ =>
        iadd "action"
          ("    - Resolve duplicate columns: Consider to rename or remove duplicate column names "
           +:+ repr_labels rt duplicated_columns +:+ " to maintain data integrity." +:+ nl) ;;;
        ret ("Duplicate column names found: " +:+ repr_labels rt duplicated_columns)
    | [] => ret "No duplicate column names."
    end ;;
  iadd "body" ("   - " +:+ duplicate_issue +:+ nl).

(** *** [_get_column_data_types]

    One line per column, by position, sorted by the count of missing values,
    largest first.  Lines with equal counts keep the order of the columns
    here; pandas leaves their order to the sorting routine. *)
Definition _get_column_data_types (df : DataFrame) : list dtype_row :=
  sort_by (fun a b => row_nulls b <=? row_nulls a)%nat
    (map (fun k => DtypeRow (label k) (col_dtype k)
                            (null_count (cells k)) (nunique (cells k)))
         (cols df)).

(** *** 3. [get_column_data_types] *)
Definition get_column_data_types : M unit :=
  df <- get_frame ;;
  let dtype_info := _get_column_data_types df in
  iadd "body"
    (nl +:+ "    3. Data Type Overview:" +:+ nl +:+
     "       " +:+ dtype_info_to_string rt dtype_info +:+ nl +:+
     "    ").

(** *** 4. [find_potential_primary_key] *)

(** The branch taken by the opening [if]/[elif] chain: the identifier
    columns to check and the table name, or [None] for the early return. *)
Definition identifier_heuristic (df : DataFrame)
  : option (list string * string) :=
  if has_column "BARCODE" df && negb (has_column "RECEIPT_ID" df) then
    Some (["BARCODE"], "product")
  else if has_column "RECEIPT_ID" df then
    Some (["RECEIPT_ID"], "transaction")
  else if has_column "ID" df then
    Some (["ID"], "user")
  else None.

(** [df[col].dropna().duplicated().sum()]: for a Series the repeats among
    its non-missing values; for several columns under one label the repeats
    among the rows that have no missing value in any of them. *)
Definition duplicate_count (df : DataFrame) (col : string) : result nat :=
  match getitem df col with
  | Err e => Err e
  | Ok (Series k) => Ok (sum_true (duplicated value_eqb (dropna (cells k))))
  | Ok (SubFrame ks) =>
      Ok (sum_true
            (duplicated row_eqb
               (List.filter (fun r => negb (existsb isna r))
                            (rows (Frame (df_name df) (nrows df) ks)))))
  end.

(** One turn of the loop over [identifier_columns].  When several columns
    carry the label, [nan_count] is a Series of counts and
    [if nan_count > 0] has no truth value. *)
Definition identifier_issues (df : DataFrame) (table_name col : string)
  : result (list string) :=
  if has_column col df then
    match getitem df col with
    | Err e => Err e
    | Ok (SubFrame _) => Err ValueError
    | Ok (Series k) =>
        let nan_count := null_count (cells k) in
        let duplicate_count := sum_true (duplicated value_eqb (dropna (cells k))) in
        Ok ((if (0 <? nan_count)%nat then
               [col +:+ " in " +:+ table_name +:+ " table has " +:+ pretty nan_count
                    +:+ " missing values (NaN)."]
             else []) ++
            (if (0 <? duplicate_count)%nat then
               [col +:+ " in " +:+ table_name +:+ " table has " +:+ pretty duplicate_count
                    +:+ " duplicate values (excluding NaN)."]
             else []))
    end
  else Ok [].

(** [[col for col in df.columns if df[col].dropna().duplicated().sum() == 0]] *)
Definition unique_identifiers (df : DataFrame) : result (list string) :=
  filter_result
    (fun col => match duplicate_count df col with
                | Ok n => Ok (n =? 0)%nat
                | Err e => Err e
                end)
    (columns df).

Definition find_potential_primary_key : M unit :=
  df <- get_frame ;;
  match identifier_heuristic df with
  | None =>
      iadd "body"
        (nl +:+ "        4. Potential Unique Identifiers:" +:+ nl +:+
         "           - No unique identifier columns found in this table." +:+ nl +:+
         "        ")
  | Some (identifier_columns, table_name) =>
      issues <- lift (map_result (identifier_issues df table_name) identifier_columns) ;;
      let invalid_identifiers := List.concat issues in
      unique_identifiers <- lift (unique_identifiers df) ;;
      let primary_key_check :=
        match unique_identifiers with
        | _ :: _ =>
            "Potential unique identifier(s): " +:+ repr_labels rt unique_identifiers +:+ "."
        | [] => "No unique and non-null identifier detected."
        end in
      primary_key_check <-
        match invalid_identifiers with
        | _ :: _ =>
            iadd "action_items"
              ("    - Resolve issues with unique identifiers: "
               +:+ join ", " invalid_identifiers +:+ nl) ;;;
            ret (primary_key_check +:+ nl +:+ "       - Invalid unique identifiers: "
                 +:+ join ", " invalid_identifiers)
        | [] => ret primary_key_check
        end ;;
      iadd "body"
        (nl +:+ "    4. Potential Unique Identifiers in " +:+ table_name +:+ " table:" +:+ nl +:+
         "       - " +:+ primary_key_check +:+ nl +:+
         "    ")
  end.

(** *** 5. [check_null_columns] *)

(** Rounding to the nearest integer, ties to even. *)
Definition round_half_even (x : Q) : Z :=
  let f := Qfloor x in
  match Qcompare (x - inject_Z f) (1 # 2) with
  | Lt => f
  | Gt => (f + 1)%Z
  | Eq => if Z.even f then f else (f + 1)%Z
  end.

(** [2^e] as a fraction. *)
Definition pow2 (e : Z) : Q := Qpower 2 e.

(** The [e] with [2^e <= x < 2^(e+1)], for a positive fraction [x]. *)
Definition binade (x : Q) : Z :=
  let e := (Z.log2 (Qnum x) - Z.log2 (Z.pos (Qden x)))%Z in
  if Qle_bool (pow2 e) x then e else (e - 1)%Z.

(** The double nearest to a positive [x], ties to even: 53 significant
    bits.  The range of the exponent is not modelled. *)
Definition nearest_double (x : Q) : Q :=
  let e := (binade x - 52)%Z in
  (inject_Z (round_half_even (x / pow2 e)) * pow2 e)%Q.

(** The result of a double-precision operation whose exact result is [x]. *)
Definition fl (x : Q) : Q :=
  let r := Qred x in
  match Qcompare r 0 with
  | Eq => 0%Q
  | Gt => nearest_double r
  | Lt => (- nearest_double (Qred (- r)))%Q
  end.

(** [(nulls / rows * 100).round(2)] on doubles.  The counts become doubles,
    the quotient and the product are rounded, and [round(2)] multiplies by
    100, rounds to the nearest whole number (ties to even) and divides by
    100.  The double this leaves is the one nearest to so many hundredths,
    and Python prints it as that decimal, which is the fraction given
    here. *)
Definition null_percentage (nulls rows : nat) : Q :=
  let ratio :=
    fl (fl (inject_Z (Z.of_nat nulls)) / fl (inject_Z (Z.of_nat rows))) in
  let percent := fl (ratio * 100) in
  let hundredths := round_half_even (fl (percent * 100)) in
  (inject_Z hundredths / 100)%Q.

Definition partial_null_detail (rows : nat) (r : dtype_row) : string :=
  row_column r +:+ ": " +:+ pretty (row_nulls r) +:+ " missing ("
    +:+ str_float rt (null_percentage (row_nulls r) rows) +:+ "%)".

Definition check_null_columns : M unit :=
  df <- get_frame ;;
  let dtype_info := _get_column_data_types df in
  let check_col_null := map row_nulls dtype_info in
  let rows := fst (shape df) in
  null_columns_check <-
    (if forallb (fun n => n =? rows)%nat check_col_null then
       let full_null_cols :=
         map row_column (List.filter (fun r => row_nulls r =? rows)%nat dtype_info) in
       iadd "action_items"
         ("    - Handle fully NULL columns: Remove columns "
          +:+ join ", " full_null_cols +:+ " that contain only null values." +:+ nl) ;;;
       ret ("Fully NULL columns: " +:+ join ", " full_null_cols +:+ ".")
     else if existsb (fun n => 0 <? n)%nat check_col_null then
       let partial_null_df :=
         List.filter (fun r => 0 <? row_nulls r)%nat dtype_info in
       let partial_null_details := map (partial_null_detail rows) partial_null_df in
       let partial_null_message :=
         nl +:+ "          - " +:+ join (nl +:+ "          - ") partial_null_details in
       iadd "action_items"
         ("    - Handle missing data: The following columns contain missing values:"
          +:+ partial_null_message +:+ nl) ;;;
       ret ("Partially NULL columns: " +:+ partial_null_message)
     else
       ret "No NULL columns detected. All columns are fully populated.") ;;
  iadd "body"
    (nl +:+ "    5. Null Column Analysis:" +:+ nl +:+
     "       - " +:+ null_columns_check +:+ nl +:+
     "    ").

(** *** 6. [check_fully_duplicate_rows] *)

(** [df.empty]: some axis has length zero. *)
Definition empty (df : DataFrame) : bool :=
  match nrows df, cols df with
  | O, _ | _, [] => true
  | _, _ => false
  end.

(** How [df.duplicated] compares two rows of [df].  A frame with a single
    column is handed to [Series.duplicated], which keeps the missing markers
    apart; with more columns every column is factorised, and a missing value
    is one code whatever its marker. *)
Definition same_row (df : DataFrame) (r s : list value) : bool :=
  match cols df, r, s with
  | [_], [a], [b] => series_eqb a b
  | [_], _, _ => false
  | _, _, _ => row_eqb r s
  end.

(** [df.duplicated()]: an empty frame has no duplicates to mark. *)
Definition df_duplicated (df : DataFrame) : list bool :=
  if empty df then [] else duplicated (same_row df) (rows df).

(** [df.duplicated(keep=False)] *)
Definition df_duplicated_keep_false (df : DataFrame) : list bool :=
  if empty df then [] else duplicated_keep_false (same_row df) (rows df).

(** Entry [j] of each of the rows: a column of the selection. *)
Definition column_of (j : nat) (rs : list (list value)) : list value :=
  map (fun r => nth j r (VNull NaN)) rs.

(** Whether [sort_values] can order the rows by all the columns of [df].
    With one column the non-missing entries are sorted as they are.  With
    more, each column is factorised and its distinct non-missing entries are
    sorted, text apart from the rest (the rest first). *)
Definition sort_keys_ok (df : DataFrame) (rs : list (list value)) : bool :=
  match cols df with
  | [_] => sortable (dropna (column_of 0 rs))
  | ks =>
      forallb
        (fun j =>
           sortable (List.filter (fun v => negb (is_text v))
                                 (unique value_eqb (dropna (column_of j rs)))))
        (seq 0 (length ks))
  end.

(** [df[df.duplicated(keep=False)].sort_values(by=df.columns.tolist()).head(5)]:
    [sort_values] refuses a label that is not unique ([ValueError]) and keys
    it cannot compare ([TypeError]). *)
Definition duplicate_examples (df : DataFrame) : result (list (list value)) :=
  if distinct (columns df) then
    let selected := select (rows df) (df_duplicated_keep_false df) in
    if sort_keys_ok df selected then Ok (firstn 5 (sort_by row_leb selected))
    else Err TypeError
  else Err ValueError.

Definition check_fully_duplicate_rows : M unit :=
  df <- get_frame ;;
  let fully_duplicate := sum_true (df_duplicated df) in
  duplicate_rows_check <-
    (if (fully_duplicate =? 0)%nat then ret "No fully duplicate rows."
     else
       duplicate_examples <- lift (duplicate_examples df) ;;
       iadd "action_items"
         ("    - Remove duplicate rows: Consider to remove " +:+ pretty fully_duplicate
          +:+ " duplicate entries. Example rows: " +:+ nl
          +:+ rows_to_string rt (columns df) duplicate_examples +:+ nl) ;;;
       ret ("There are " +:+ pretty fully_duplicate
            +:+ " duplicate rows. Here are a few examples:" +:+ nl
            +:+ rows_to_string rt (columns df) duplicate_examples)) ;;
  iadd "body"
    (nl +:+ "    6. Duplicate Row Analysis:" +:+ nl +:+
     "       - " +:+ duplicate_rows_check +:+ nl +:+
     "    ").

(** *** 7. [check_mixed_data_types] *)

(** [float(x)] for text *)
Definition py_float (s : string) : result value :=
  match parse_float rt s with
  | Some v => Ok v
  | None => Err ValueError
  end.

(** The nested classifier [check_column_type]. *)
Definition check_column_type (x : value) : result string :=
  if isinstance_int_float x then Ok "numeric"
  else
    match x with
    | VStr s =>
        match py_float s with              (* try *)
        | Ok _ => Ok "numeric"
        | Err ValueError => Ok "string"    (* except ValueError *)
        | Err e => Err e
        end
    | _ => Ok (type_name x)
    end.

(** [df[col].dropna().apply(check_column_type).unique()] *)
Definition types_in_col (df : DataFrame) (col : string) : result (list string) :=
  match getitem df col with
  | Err e => Err e
  | Ok (Series k) =>
      match map_result check_column_type (dropna (cells k)) with
      | Ok ts => Ok (unique String.eqb ts)
      | Err e => Err e
      end
  | Ok (SubFrame _) =>
      (* [apply] hands whole columns to the classifier, which names their type *)
      Ok ["Series"]
  end.

(** The loop over [df.columns], carrying [mixed_type_cols] and
    [column_types]. *)
Fixpoint scan_mixed (df : DataFrame) (todo : list string)
         (mixed_type_cols : list string) (column_types : gmap string (list string))
  : result (list string * gmap string (list string)) :=
  match todo with
  | [] => Ok (mixed_type_cols, column_types)
  | col :: rest =>
      match types_in_col df col with
      | Err e => Err e
      | Ok types =>
          if (1 <? length types)%nat then
            scan_mixed df rest (mixed_type_cols ++ [col]) (<[col := types]> column_types)
          else scan_mixed df rest mixed_type_cols column_types
      end
  end.

Definition check_mixed_data_types : M unit :=
  df <- get_frame ;;
  scanned <- lift (scan_mixed df (columns df) [] ∅) ;;
  let '(mixed_type_cols, column_types) := scanned in
  mixed_data_types_check <-
    match mixed_type_cols with
    | _ :: _ =>
        iadd "action_items"
          ("    - Resolve mixed data type issues: Standardize data types in the following columns: "
           +:+ repr_labels rt mixed_type_cols +:+ " to ensure consistency." +:+ nl) ;;;
        let type_details :=
          join (nl +:+ "          - ")
               (map (fun col => col +:+ ": " +:+ join ", " (default [] (column_types !! col)))
                    mixed_type_cols) in
        ret ("Columns with mixed data types: " +:+ repr_labels rt mixed_type_cols +:+ "."
             +:+ nl +:+ "       - Different types in these columns:" +:+ nl
             +:+ "          - " +:+ type_details)
    | [] => ret "No columns have mixed data types."
    end ;;
  iadd "body"
    (nl +:+ "    7. Mixed Data Type Check (e.g., numbers mixed with text): " +:+ nl +:+
     "       - " +:+ mixed_data_types_check +:+ nl +:+
     "    ").

(** *** 8. [check_date_validity] *)

Definition date_columns : list string :=
  ["PURCHASE_DATE"; "SCAN_DATE"; "CREATED_DATE"; "BIRTH_DATE"].

(** The bounds of a 64-bit integer.  The least one is the code of [NaT]. *)
Definition int64_min : Z := (- 9223372036854775808)%Z.
Definition int64_max : Z := 9223372036854775807%Z.

(** A count of nanoseconds since the epoch as an instant: the code of [NaT]
    is [NaT], and a count that does not fit is out of bounds
    ([OutOfBoundsDatetime], a [ValueError]). *)
Definition instant_of_ns (n : Z) : result value :=
  if (n =? int64_min)%Z then Ok (VNull NaT)
  else if (int64_min <? n)%Z && (n <=? int64_max)%Z then Ok (VTime n)
  else Err ValueError.

(** A float is cut to a whole number towards zero. *)
Definition truncate (x : Q) : Z :=
  if Qle_bool 0 x then Qfloor x else Qceiling x.

(** The texts that stand for [NaT]. *)
Definition nat_strings : list string :=
  [""; "NaT"; "nat"; "NAT"; "nan"; "NaN"; "NAN"].

Definition is_nat_text (s : string) : bool :=
  existsb (String.eqb s) nat_strings.

(** What reading a text gave, as a cell of a datetime column. *)
Definition datetime_of_text (s : string) (read : option Z) : result value :=
  if is_nat_text s then Ok (VNull NaT)
  else
    match read with
    | Some t => Ok (VTime t)
    | None => Err ValueError
    end.

(** [pd.to_datetime] on one value read on its own: instants stay, missing
    values become [NaT], numbers count nanoseconds since the epoch, text is
    parsed, anything else is refused. *)
Definition to_datetime_value (v : value) : result value :=
  match v with
  | VNull _ => Ok (VNull NaT)
  | VTime t => Ok (VTime t)
  | VInt n => instant_of_ns n
  | VFloat x => instant_of_ns (truncate x)
  | VStr s => datetime_of_text s (parse_datetime rt s)
  | VBool _ | VObj _ _ => Err TypeError
  end.

(** [pd.to_datetime] on one value of a column read with the format [fmt]:
    instants stay, missing values and the code of [NaT] become [NaT], and
    whatever else is there is turned into text and must match the format. *)
Definition strptime_value (fmt : string) (v : value) : result value :=
  match v with
  | VNull _ => Ok (VNull NaT)
  | VTime t => Ok (VTime t)
  | VStr s => datetime_of_text s (strptime rt fmt s)
  | VInt n =>
      if (n =? int64_min)%Z then Ok (VNull NaT)
      else datetime_of_text (str_value rt v) (strptime rt fmt (str_value rt v))
  | VFloat x =>
      if Qeq_bool x (inject_Z int64_min) then Ok (VNull NaT)
      else datetime_of_text (str_value rt v) (strptime rt fmt (str_value rt v))
  | VBool _ | VObj _ _ =>
      datetime_of_text (str_value rt v) (strptime rt fmt (str_value rt v))
  end.

(** The first entry that is neither missing nor a text for [NaT]. *)
Definition first_non_null (vs : list value) : option value :=
  head (List.filter
          (fun v => match v with
                    | VNull _ => false
                    | VStr s => negb (is_nat_text s)
                    | _ => true
                    end) vs).

(** [pd.to_datetime(df[col], utc=True)].  When the first entry to read is a
    text whose format can be guessed, that format is imposed on the whole
    column; otherwise every entry is read on its own.  A frame is refused
    unless it spells out year, month and day. *)
Definition to_datetime (selected : selection) : result (list value) :=
  match selected with
  | Series k =>
      match first_non_null (cells k) with
      | Some (VStr s) =>
          match guess_datetime_format rt s with
          | Some fmt => map_result (strptime_value fmt) (cells k)
          | None => map_result to_datetime_value (cells k)
          end
      | _ => map_result to_datetime_value (cells k)
      end
  | SubFrame _ => Err ValueError
  end.

(** [v > now] for an instant [now]; [NaT] compares false. *)
Definition later_than (now : Z) (v : value) : bool :=
  match v with
  | VTime t => (now <? t)%Z
  | _ => false
  end.

(** [df[df[col] > pd.Timestamp.now(tz='UTC')][col]] *)
Definition future_dates (now : Z) (vs : list value) : list value :=
  List.filter (later_than now) vs.

(** One turn of the loop over [found_date_columns]. *)
Definition check_date_column (col : string) (invalid_dates : list string)
  : M (list string) :=
  df <- get_frame ;;
  selected <- lift (getitem df col) ;;
  converted <- lift (to_datetime selected) ;;
  put_frame (setitem df col datetime64_utc converted) ;;;
  (* [df[col]] is now the converted column *)
  let future_dates := future_dates (now_utc rt col) converted in
  match future_dates with
  | _ :: _ =>
      ret (invalid_dates ++
           [col +:+ " has future dates: "
                +:+ join ", " (map (str_value rt) (unique series_eqb future_dates))
                +:+ "."])
  | [] => ret invalid_dates
  end.

(** [for x in l: acc = f(x, acc)] *)
Fixpoint for_each {A B : Type} (f : A -> B -> M B) (l : list A) (acc : B)
  : M B :=
  match l with
  | [] => ret acc
  | x :: rest => acc' <- f x acc ;; for_each f rest acc'
  end.

Definition check_date_validity : M unit :=
  df <- get_frame ;;
  let found_date_columns :=
    List.filter (fun col => has_column col df) date_columns in
  date_validity_check <-
    match found_date_columns with
    | [] => ret "No date columns in this table."
    | _ :: _ =>
        invalid_dates <- for_each check_date_column found_date_columns [] ;;
        match invalid_dates with
        | _ :: _ =>
            let date_validity_check := join (nl +:+ "       - ") invalid_dates in
            iadd "action_items"
              ("    - Correct invalid dates: Update or remove the following dates to ensure accuracy:"
               +:+ nl +:+ "       - " +:+ date_validity_check +:+ nl) ;;;
            ret date_validity_check
        | [] => ret "All date columns are valid."
        end
    end ;;
  iadd "body"
    (nl +:+ "    8. Date Validity Check (timestamps are valid): " +:+ nl +:+
     "       - " +:+ date_validity_check +:+ nl +:+
     "    ").

(** *** 9 and 10. The date-order checks *)

Definition ns_per_day : Z := 86400000000000.

(** [df[col].dt.date]: the accessor exists on Series of datetimes only; the
    date of [NaT] is [NaT], here [None]. *)
Definition dt_date (df : DataFrame) (col : string) : result (list (option Z)) :=
  match getitem df col with
  | Err e => Err e
  | Ok (SubFrame _) => Err AttributeError
  | Ok (Series k) =>
      match col_dtype k with
      | datetime64_utc =>
          Ok (map (fun v => match v with
                            | VTime t => Some (t / ns_per_day)%Z
                            | _ => None
                            end) (cells k))
      | _ => Err AttributeError
      end
  end.

(** [a < b], row by row; a comparison with [NaT] is false. *)
Fixpoint dates_lt (a b : list (option Z)) : list bool :=
  match a, b with
  | x :: a', y :: b' =>
      match x, y with
      | Some d, Some e => (d <? e)%Z
      | _, _ => false
      end :: dates_lt a' b'
  | _, _ => []
  end.

Definition check_transaction_date_order : M unit :=
  df <- get_frame ;;
  if has_column "SCAN_DATE" df && has_column "PURCHASE_DATE" df then
    scan <- lift (dt_date df "SCAN_DATE") ;;
    purchase <- lift (dt_date df "PURCHASE_DATE") ;;
    let invalid_dates := sum_true (dates_lt scan purchase) in
    if (0 <? invalid_dates)%nat then
      iadd "action_items"
        ("    - Correct date order: 'scan_date' should be after 'purchase_date'. Found invalid entries in "
         +:+ pretty invalid_dates +:+ " rows." +:+ nl) ;;;
      iadd "body"
        (nl +:+ "    9. Date Order Check (check if receipt scan date is after purchase date):" +:+ nl +:+
         "       - There are " +:+ pretty invalid_dates
         +:+ " rows where 'scan_date' is before 'purchase_date'." +:+ nl +:+
         "    ")
    else
      iadd "body"
        (nl +:+ "    9. Date Order Check (check if receipt scan date is after purchase date):" +:+ nl +:+
         "       - All 'scan_date' entries are after 'purchase_date'." +:+ nl +:+
         "    ")
  else
    iadd "body"
      (nl +:+ "    9. Date Order Check (check if receipt scan date is after purchase date):" +:+ nl +:+
       "       - No related columns found." +:+ nl +:+
       "    ").

Definition check_customer_date_order : M unit :=
  df <- get_frame ;;
  if has_column "BIRTH_DATE" df && has_column "CREATED_DATE" df then
    created <- lift (dt_date df "CREATED_DATE") ;;
    birth <- lift (dt_date df "BIRTH_DATE") ;;
    let invalid_dates := sum_true (dates_lt created birth) in
    if (0 <? invalid_dates)%nat then
      iadd "action_items"
        ("    - Correct date order: 'created_date' should be after 'birth_date'. Found invalid entries in "
         +:+ pretty invalid_dates +:+ " rows." +:+ nl) ;;;
      iadd "body"
        (nl +:+ "    10. Date Order Check (check if customers account created date is after birth date):" +:+ nl +:+
         "       - There are " +:+ pretty invalid_dates
         +:+ " rows where 'created_date' is before 'birth_date'." +:+ nl +:+
         "    ")
    else
      iadd "body"
        (nl +:+ "    10. Date Order Check (check if customers account created date is after birth date):" +:+ nl +:+
         "       - All 'created_date' entries are after 'birth_date'." +:+ nl +:+
         "    ")
  else
    iadd "body"
      (nl +:+ "    10. Date Order Check (check if customers account created date is after birth date):" +:+ nl +:+
       "       - No related columns found." +:+ nl +:+
       "    ").

(** *** 11. [check_data_consistency] *)

Definition valid_states : list string :=
  ["AL"; "AK"; "AZ"; "AR"; "CA"; "CO"; "CT"; "DC"; "DE"; "FL"; "GA"; "HI";
   "ID"; "IL"; "IN"; "IA"; "KS"; "KY"; "LA"; "ME"; "MD"; "MA"; "MI"; "MN";
   "MS"; "MO"; "MT"; "NE"; "NV"; "NH"; "NJ"; "NM"; "NY"; "NC"; "ND"; "OH";
   "OK"; "OR"; "PA"; "PR"; "RI"; "SC"; "SD"; "TN"; "TX"; "UT"; "VT"; "VA";
   "WA"; "WV"; "WI"; "WY"].

Definition valid_languages : list string :=
  ["en"; "es-419"; "fr"; "de"; "it"; "pt"; "zh"; "ja"; "ko"; "ar"; "ru";
   "hi"; "en-US"; "en-GB"].

Definition valid_genders : list string :=
  ["female"; "male"; "non_binary"; "transgender"; "prefer_not_to_say";
   "not_listed"; "unknown"].

(** [x in allowed] as [Series.isin] decides it for a list of text. *)
Definition isin (allowed : list string) (v : value) : bool :=
  match v with
  | VStr s => existsb (String.eqb s) allowed
  | _ => false
  end.

(** [df[~df[col].isin(allowed)][col].unique()], each entry then turned
    into text with missing values written [NaN]. *)
Definition invalid_values (df : DataFrame) (col : string) (allowed : list string)
  : result (list string) :=
  match getitem df col with
  | Err e => Err e
  | Ok (SubFrame _) =>
      (* the frame of booleans does not line up with [df] *)
      Err ValueError
  | Ok (Series k) =>
      Ok (map (fun v => if isna v then "NaN" else str_value rt v)
              (unique series_eqb
                      (List.filter (fun v => negb (isin allowed v)) (cells k))))
  end.

Definition check_data_consistency : M unit :=
  df <- get_frame ;;
  if has_column "STATE" df && has_column "LANGUAGE" df && has_column "GENDER" df then
    invalid_states <- lift (invalid_values df "STATE" valid_states) ;;
    invalid_languages <- lift (invalid_values df "LANGUAGE" valid_languages) ;;
    invalid_genders <- lift (invalid_values df "GENDER" valid_genders) ;;
    iadd "body"
      (nl +:+ "    11. Data Consistency Check (check if STATE, LANGUAGE, and GENDER are consistent):" +:+ nl +:+
       "    ") ;;;
    (if (0 <? length invalid_states)%nat then
       iadd "body" ("     - Invalid states detected: " +:+ join ", " invalid_states +:+ nl) ;;;
       iadd "action_items"
         ("    - Resolve invalid states: Correct the following invalid states: "
          +:+ join ", " invalid_states +:+ "." +:+ nl)
     else ret tt) ;;;
    (if (0 <? length invalid_languages)%nat then
       iadd "body" ("         - Invalid languages detected: " +:+ join ", " invalid_languages +:+ nl) ;;;
       iadd "action_items"
         ("    - Resolve invalid languages: Correct the following invalid languages: "
          +:+ join ", " invalid_languages +:+ "." +:+ nl)
     else ret tt) ;;;
    (if (0 <? length invalid_genders)%nat then
       iadd "body" ("         - Invalid gender values detected: " +:+ join ", " invalid_genders +:+ nl) ;;;
       iadd "action_items"
         ("    - Resolve invalid gender values: Address the following invalid gender values: "
          +:+ join ", " invalid_genders +:+ "." +:+ nl)
     else ret tt)
  else
    iadd "body"
      (nl +:+ "    11. Data Consistency Check (check if STATE, LANGUAGE, and GENDER are consistent):" +:+ nl +:+
       "       - No related columns found." +:+ nl +:+
       "    ").

(** *** 12. [describe_data] *)

(** A dtype counted by [np.number]. *)
Definition is_number_dtype (d : dtype) : bool :=
  match d with int64 | float64 => true | _ => false end.

(** [df.select_dtypes(include=[np.number])] *)
Definition select_number_dtypes (df : DataFrame) : DataFrame :=
  Frame (df_name df) (nrows df)
        (List.filter (fun k => is_number_dtype (col_dtype k)) (cols df)).

Definition describe_data : M unit :=
  df <- get_frame ;;
  if empty (select_number_dtypes df) then
    iadd "body"
      (nl +:+ "    12. Summary Statistics:" +:+ nl +:+
       "       - No numeric columns found." +:+ nl +:+
       "        ")
  else
    let summary := describe_to_string rt df in
    iadd "body"
      (nl +:+ "    12. Summary Statistics:" +:+ nl +:+
       "       " +:+ summary +:+ nl +:+
       "    ").

(** *** The driver, [print_summary] *)

Definition TABLE_CHECK_STEPS : list (M unit) :=
  [ get_dataframe_shape;
    check_column_spaces;
    check_duplicate_columns;
    get_column_data_types;
    find_potential_primary_key;
    check_null_columns;
    check_fully_duplicate_rows;
    check_mixed_data_types;
    check_date_validity;
    check_transaction_date_order;
    check_customer_date_order;
    check_data_consistency;
    describe_data ].

Definition initial_context (df : DataFrame) : gmap string string :=
  {[ "body" :=
       "Here is the result of the initial data check for of table '"
         +:+ df_name df +:+ "':" +:+ nl;
     "action_items" := "Action required:" +:+ nl ]}.

(** [for step in steps: step(df, context)] *)
Fixpoint run_steps (steps : list (M unit)) : M unit :=
  match steps with
  | [] => ret tt
  | step :: rest => step ;;; run_steps rest
  end.

(** [context[key]] *)
Definition lookup_context (key : string) : M string :=
  fun s =>
    match context s !! key with
    | Some text => Returns text s
    | None => Raises (KeyError key) s
    end.

(** The text returned at the end of [print_summary]. *)
Definition render_report (body action_items : string) : string :=
  nl +:+ "    " +:+ body +:+ nl +:+
  "    " +:+ nl +:+ nl +:+
  "    " +:+ action_items +:+ nl +:+
  "    ".

Definition print_summary (df : DataFrame) : outcome string :=
  (run_steps TABLE_CHECK_STEPS ;;;
   body <- lookup_context "body" ;;
   action_items <- lookup_context "action_items" ;;
   ret (render_report body action_items))
    (State df (initial_context df)).
End Checks.

(** ** A runtime to run the model on examples

    Plain renderings: labels and values are written out one after another,
    text is read as a number when it is a run of decimal digits, and two
    dates are known to the parser. *)
Module Sample.
Definition quote (s : string) : string := "'" +:+ s +:+ "'".

Definition repr_labels (l : list string) : string :=
  "[" +:+ join ", " (map quote l) +:+ "]".

Definition str_float (x : Q) : string :=
  let c := Qfloor (x * 100) in
  pretty (c / 100)%Z +:+ "." +:+ pretty ((c mod 100) / 10)%Z
    +:+ (if (c mod 10 =? 0)%Z then "" else pretty (c mod 10)%Z).

Definition str_value (v : value) : string :=
  match v with
  | VNull PyNone => "None"
  | VNull NaN => "nan"
  | VNull NaT => "NaT"
  | VBool true => "True"
  | VBool false => "False"
  | VInt n => pretty n
  | VFloat x => str_float x
  | VStr s => s
  | VTime t => "Timestamp(" +:+ pretty t +:+ ")"
  | VObj ty _ => "<" +:+ ty +:+ ">"
  end.

Definition str_dtype (d : dtype) : string :=
  match d with
  | int64 => "int64"
  | float64 => "float64"
  | bool_ => "bool"
  | object => "object"
  | datetime64_utc => "datetime64[ns, UTC]"
  end.

Definition dtype_info_to_string (info : list dtype_row) : string :=
  join nl
    ("Column Data Type Null Values Unique Values" ::
     map (fun r => row_column r +:+ " " +:+ str_dtype (row_dtype r) +:+ " "
                     +:+ pretty (row_nulls r) +:+ " " +:+ pretty (row_unique r))
         info).

Definition rows_to_string (labels : list string) (rs : list (list value)) : string :=
  join nl (join " " labels :: map (fun r => join " " (map str_value r)) rs).

Definition describe_to_string (df : DataFrame) : string :=
  join " "
    (map label (List.filter (fun k => match col_dtype k with
                                      | int64 | float64 => true
                                      | _ => false
                                      end) (cols df)))
    +:+ nl +:+ "count " +:+ pretty (nrows df).

Fixpoint all_digits (s : string) : bool :=
  match s with
  | EmptyString => true
  | String c rest =>
      (48 <=? nat_of_ascii c)%nat && (nat_of_ascii c <=? 57)%nat && all_digits rest
  end.

Fixpoint digits_value (acc : Z) (s : string) : Z :=
  match s with
  | EmptyString => acc
  | String c rest => digits_value (10 * acc + Z.of_nat (nat_of_ascii c - 48)) rest
  end.

Definition parse_float (s : string) : option value :=
  match s with
  | EmptyString => None
  | _ => if all_digits s then Some (VFloat (inject_Z (digits_value 0 s))) else None
  end.

Definition parse_datetime (s : string) : option Z :=
  if String.eqb s "1970-01-01" then Some 0%Z
  else if String.eqb s "2100-01-01" then Some 4102444800000000000%Z
  else None.

(** The two texts above are of the format year-month-day. *)
Definition guess_datetime_format (s : string) : option string :=
  match parse_datetime s with
  | Some _ => Some "%Y-%m-%d"
  | None => None
  end.

Definition strptime (fmt s : string) : option Z :=
  if String.eqb fmt "%Y-%m-%d" then parse_datetime s else None.

(** Every reading of the clock gives 2024-01-01T00:00:00Z. *)
Definition now_utc (_ : string) : Z := 1704067200000000000%Z.

Definition rt : runtime :=
  Runtime repr_labels str_value str_float dtype_info_to_string rows_to_string
          describe_to_string parse_float parse_datetime guess_datetime_format
          strptime now_utc.
End Sample.

(** * Notions used to state the properties *)

(** ** The text of three sections of the body *)

Definition section4 (table_name finding : string) : string :=
  nl +:+ "    4. Potential Unique Identifiers in " +:+ table_name +:+ " table:" +:+ nl +:+
  "       - " +:+ finding +:+ nl +:+
  "    ".

Definition section5 (finding : string) : string :=
  nl +:+ "    5. Null Column Analysis:" +:+ nl +:+
  "       - " +:+ finding +:+ nl +:+
  "    ".

Definition section6 (finding : string) : string :=
  nl +:+ "    6. Duplicate Row Analysis:" +:+ nl +:+
  "       - " +:+ finding +:+ nl +:+
  "    ".

(** ** The primary-key check *)

(** The precedence order in the words of the specification: [RECEIPT_ID]
    first, then [BARCODE], then [ID]. *)
Definition heuristic_by_precedence (df : DataFrame)
  : option (list string * string) :=
  if has_column "RECEIPT_ID" df then Some (["RECEIPT_ID"], "transaction")
  else if has_column "BARCODE" df then Some (["BARCODE"], "product")
  else if has_column "ID" df then Some (["ID"], "user")
  else None.

(** The finding on the labels listed by the scan over all columns. *)
Definition listed_identifiers (rt : runtime) (listed : list string) : string :=
  match listed with
  | _ :: _ => "Potential unique identifier(s): " +:+ repr_labels rt listed +:+ "."
  | [] => "No unique and non-null identifier detected."
  end.

(** The context the check leaves once the heuristic has picked a table, for
    the issues found on the identifier and the labels listed. *)
Definition primary_key_context (rt : runtime) (ctx : gmap string string)
           (b a table : string) (invalid listed : list string)
  : gmap string string :=
  match invalid with
  | [] => <["body" := b +:+ section4 table (listed_identifiers rt listed)]> ctx
  | _ :: _ =>
      <["body" :=
          b +:+ section4 table
            (listed_identifiers rt listed +:+ nl
               +:+ "       - Invalid unique identifiers: " +:+ join ", " invalid)]>
        (<["action_items" :=
             a +:+ "    - Resolve issues with unique identifiers: "
               +:+ join ", " invalid +:+ nl]> ctx)
  end.


(** ** The classifier *)

(** The classification in the words of the specification. *)
Definition classification (rt : runtime) (x : value) : string :=
  match x with
  | VBool _ | VInt _ | VFloat _ | VNull NaN => "numeric"
  | VStr s =>
      match parse_float rt s with
      | Some _ => "numeric"
      | None => "string"
      end
  | _ => type_name x
  end.

(** ** Duplicate rows *)



(** A three-way comparison that behaves as a total preorder. *)
Record lawful {A : Type} (cmp : A -> A -> comparison) : Prop := Lawful {
  lawful_refl : forall a, cmp a a = Eq;
  lawful_antisym : forall a b, cmp b a = CompOpp (cmp a b);
  lawful_eq : forall a b c, cmp a b = Eq -> cmp a c = cmp b c;
  lawful_lt : forall a b c, cmp a b = Lt -> cmp b c = Lt -> cmp a c = Lt
}.

(** ** The null-column analysis *)

(** The summary line of one column. *)
Definition summary_row (k : column) : dtype_row :=
  DtypeRow (label k) (col_dtype k) (null_count (cells k)) (nunique (cells k)).

(** A number rounded to two decimals, exactly: the nearest whole number of
    hundredths, ties to even. *)
Definition rounded_to_two_decimals (x : Q) : Q :=
  (inject_Z (round_half_even (x * 100)) / 100)%Q.

(** Half a unit in the last place of a double, relative to the number. *)
Definition half_ulp : Q := pow2 (-53).

(** ** Section numbers in the body *)

Definition is_digit (c : ascii) : bool :=
  (48 <=? nat_of_ascii c)%nat && (nat_of_ascii c <=? 57)%nat.

Fixpoint skip_spaces (s : string) : string :=
  match s with
  | String c rest => if Ascii.eqb c " " then skip_spaces rest else s
  | EmptyString => s
  end.

(** A run of digits closed by a full stop and a space. *)
Fixpoint read_number (acc : option nat) (s : string) : option nat :=
  match s with
  | String c rest =>
      if is_digit c then
        read_number (Some (10 * default 0 acc + (nat_of_ascii c - 48))) rest
      else if Ascii.eqb c "." then
        match rest with
        | String c' _ => if Ascii.eqb c' " " then acc else None
        | EmptyString => None
        end
      else None
  | EmptyString => None
  end.

(** The number a line opens with, as in ["    4. Potential ..."]. *)
Definition line_number (line : string) : option nat :=
  read_number None (skip_spaces line).

(** The section number a fragment opens with, if its first line (after the
    line break it starts with) is numbered. *)
Definition heading (frag : string) : option nat :=
  match frag with
  | String c rest => if Ascii.eqb c (ascii_of_nat 10) then line_number rest else None
  | EmptyString => None
  end.

(** The numbers of all numbered lines of a text. *)
Fixpoint numbered_findings (text : string) : list nat :=
  match text with
  | EmptyString => []
  | String c rest =>
      if Ascii.eqb c (ascii_of_nat 10) then
        match line_number rest with
        | Some n => n :: numbered_findings rest
        | None => numbered_findings rest
        end
      else numbered_findings rest
  end.

(** The section numbers the thirteen checks open their fragments with: the
    duplicate-columns check adds a line to section 2 and opens none. *)
Definition section_numbers : list (option nat) :=
  [Some 1; Some 2; None; Some 3; Some 4; Some 5; Some 6; Some 7; Some 8;
   Some 9; Some 10; Some 11; Some 12].

Definition concat_fragments (frags : list string) : string :=
  fold_right String.append "" frags.

(** ** What every check leaves behind *)

(** The frame [df'] differs from [df] in date-bearing columns at most. *)
Definition same_outside_dates (df df' : DataFrame) : Prop :=
  df_name df' = df_name df /\
  nrows df' = nrows df /\
  Forall2 (fun k k' => label k' = label k /\
                       (~ In (label k) date_columns -> k' = k))
          (cols df) (cols df').

(** What is known once a check has run from a context holding [b] under
    [body] and [a] under [action_items]: the frame changed in date columns
    at most, and if the check returned, it appended one fragment to the body,
    opening with section number [num] if any, and possibly text to the
    action items. *)
Definition outcome_ok (num : option nat) (df : DataFrame) (b a : string)
           (o : outcome unit) : Prop :=
  same_outside_dates df (frame (final_state o)) /\
  forall u s', o = Returns u s' ->
    exists frag acts,
      context s' !! "body" = Some (b +:+ frag) /\
      context s' !! "action_items" = Some (a +:+ acts) /\
      heading frag = num.

Definition check_spec (num : option nat) (m : M unit) : Prop :=
  forall df ctx b a,
    ctx !! "body" = Some b ->
    ctx !! "action_items" = Some a ->
    outcome_ok num df b a (m (State df ctx)).

(** ** Future dates *)

(** The entries of the column labelled [c], when one column carries the
    label. *)
Definition cells_at (df : DataFrame) (c : string) : list value :=
  match getitem df c with
  | Ok (Series k) => cells k
  | _ => []
  end.

(** The instants of [vs] strictly after [now], each once, in the order in
    which they first appear; [seen] holds those already met. *)
Fixpoint later_instants_from (seen : list Z) (now : Z) (vs : list value)
  : list Z :=
  match vs with
  | [] => []
  | VTime t :: rest =>
      if (now <? t)%Z then
        if existsb (Z.eqb t) seen then later_instants_from seen now rest
        else t :: later_instants_from (seen ++ [t]) now rest
      else later_instants_from seen now rest
  | _ :: rest => later_instants_from seen now rest
  end.

Definition later_instants (now : Z) (vs : list value) : list Z :=
  later_instants_from [] now vs.

(** What the check has to say about the column [col] once it holds
    [converted]: nothing, or one line naming the instants after the clock
    reading. *)
Definition future_dates_finding (rt : runtime) (col : string)
           (converted : list value) : list string :=
  match later_instants (now_utc rt col) converted with
  | [] => []
  | ts =>
      [col +:+ " has future dates: "
           +:+ join ", " (map (fun t => str_value rt (VTime t)) ts) +:+ "."]
  end.

(** The action the date-validity check asks for. *)
Definition correct_invalid_dates (findings : string) : string :=
  "    - Correct invalid dates: Update or remove the following dates to ensure accuracy:"
  +:+ nl +:+ "       - " +:+ findings +:+ nl.

(** ** Example tables *)

(** A receipts table that also carries [BARCODE] and [ID]. *)
Definition receipts : DataFrame :=
  Frame "receipts" 2
    [ Column "ID" int64 [VInt 1; VInt 2];
      Column "BARCODE" int64 [VInt 7; VInt 7];
      Column "RECEIPT_ID" object [VStr "r1"; VNull PyNone] ].

(** [STATE] and [GENDER] are present, one of them with a value outside its
    list, and [LANGUAGE] is absent. *)
Definition states_and_genders : DataFrame :=
  Frame "people" 2
    [ Column "STATE" object [VStr "CA"; VStr "Atlantis"];
      Column "GENDER" object [VStr "female"; VStr "male"] ].

(** A purchase exactly at the clock reading of the sample runtime and one a
    second after. *)
Definition purchases : DataFrame :=
  Frame "purchases" 2
    [ Column "PURCHASE_DATE" datetime64_utc
        [VTime 1704067200000000000; VTime 1704067201000000000] ].

(** A user table with a notes column that was never filled in. *)
Definition users_without_notes : DataFrame :=
  Frame "users" 3
    [ Column "ID" int64 [VInt 1; VInt 2; VInt 3];
      Column "CITY" object [VStr "Oslo"; VStr "Oslo"; VStr "Rome"];
      Column "NOTES" object [VNull PyNone; VNull PyNone; VNull NaN] ].


(** Two columns and no row. *)
Definition no_rows : DataFrame :=
  Frame "empty" 0 [ Column "A" object []; Column "B" int64 [] ].

(** Sign-up dates kept as text. *)
Definition signups : DataFrame :=
  Frame "signups" 2
    [ Column "ID" int64 [VInt 1; VInt 2];
      Column "CREATED_DATE" object [VStr "1970-01-01"; VNull PyNone] ].

(** 160 readings, the level missing in the first 23. *)
Definition partly_null : DataFrame :=
  Frame "readings" 160
    [ Column "LEVEL" float64
        (List.repeat (VNull NaN) 23 ++ List.repeat (VFloat 1) 137);
      Column "STATION" int64 (List.repeat (VInt 7) 160) ].

(** Three readings: the depth missing once, the level throughout. *)
Definition gaps : DataFrame :=
  Frame "readings" 3
    [ Column "STATION" int64 [VInt 7; VInt 7; VInt 8];
      Column "DEPTH" float64 [VFloat 2; VNull NaN; VFloat 3];
      Column "LEVEL" float64 [VNull NaN; VNull NaN; VNull NaN] ].


(** Two columns carry the label [A]. *)
Definition repeated_label : DataFrame :=
  Frame "orders" 2
    [ Column "A" int64 [VInt 1; VInt 2];
      Column "A" int64 [VInt 3; VInt 4] ].

(** * Notions for the further properties *)

(** The text of section 2 for a finding. *)
Definition section2 (finding : string) : string :=
  nl +:+ "    2. Column Name Issues:" +:+ nl +:+
  "       - " +:+ finding +:+ nl +:+
  "    ".

(** [l'] is [l] with the entries that do not satisfy [P] left out: the
    entries that do are there, in the same order and as often. *)
Inductive kept {A : Type} (P : A -> Prop) : list A -> list A -> Prop :=
| kept_nil : kept P [] []
| kept_keep (x : A) (l l' : list A) :
    P x -> kept P l l' -> kept P (x :: l) (x :: l')
| kept_drop (x : A) (l l' : list A) :
    ~ P x -> kept P l l' -> kept P (x :: l) l'.

(** A table with a space in its second and in its last label. *)
Definition spaced_labels : DataFrame :=
  Frame "orders" 1
    [ Column "ID" int64 [VInt 1];
      Column "UNIT PRICE" float64 [VFloat 2];
      Column "QTY" int64 [VInt 3];
      Column "SHIP TO" object [VStr "Oslo"] ].

(** The entries of [l] that repeat an entry of [before] or an earlier entry
    of [l], in order: an entry of [l] is there once for each of its
    occurrences after the first. *)
Fixpoint repeated_entries (before l : list string) : list string :=
  match l with
  | [] => []
  | x :: rest =>
      (if existsb (String.eqb x) before then [x] else [])
        ++ repeated_entries (before ++ [x]) rest
  end.

(** The label [A] three times and the label [B] twice. *)
Definition twice_repeated : DataFrame :=
  Frame "orders" 1
    [ Column "A" int64 [VInt 1];
      Column "B" int64 [VInt 2];
      Column "A" int64 [VInt 3];
      Column "B" int64 [VInt 4];
      Column "C" int64 [VInt 5];
      Column "A" int64 [VInt 6] ].

(** The calendar day an instant falls on, counted from the epoch; a missing
    value has none. *)
Definition day_of (v : value) : option Z :=
  match v with
  | VTime t => Some (t / ns_per_day)%Z
  | _ => None
  end.

(** Both values are instants, and the first falls on an earlier day. *)
Definition on_earlier_day (first second : value) : bool :=
  match day_of first, day_of second with
  | Some d, Some e => (d <? e)%Z
  | _, _ => false
  end.

(** The number of rows whose first value falls on an earlier day than the
    second. *)
Definition rows_out_of_order (first second : list value) : nat :=
  length (List.filter (fun p => on_earlier_day (fst p) (snd p))
                      (combine first second)).

(** The text of sections 9 and 10 for a finding. *)
Definition section9 (finding : string) : string :=
  nl +:+ "    9. Date Order Check (check if receipt scan date is after purchase date):" +:+ nl +:+
  "       - " +:+ finding +:+ nl +:+
  "    ".

Definition section10 (finding : string) : string :=
  nl +:+ "    10. Date Order Check (check if customers account created date is after birth date):" +:+ nl +:+
  "       - " +:+ finding +:+ nl +:+
  "    ".

(** Receipts scanned earlier on the day of purchase, the day before it, and
    without a purchase date. *)
Definition scans : DataFrame :=
  Frame "scans" 3
    [ Column "SCAN_DATE" datetime64_utc
        [VTime 1704067200000000000; VTime 1703980800000000000;
         VTime 1704067200000000000];
      Column "PURCHASE_DATE" datetime64_utc
        [VTime 1704070800000000000; VTime 1704067200000000000; VNull NaT] ].

(** Accounts created before the day of birth in one row of two. *)
Definition accounts : DataFrame :=
  Frame "accounts" 2
    [ Column "BIRTH_DATE" datetime64_utc
        [VTime 946684800000000000; VTime 1704067200000000000];
      Column "CREATED_DATE" datetime64_utc
        [VTime 1704067200000000000; VTime 946684800000000000] ].

(** ** The dictionary only grows *)

(** [ctx'] holds the keys of [ctx] and no other, each with its old text
    followed by what was appended. *)
Definition extends (ctx ctx' : gmap string string) : Prop :=
  forall key,
    match ctx !! key with
    | Some old => exists added, ctx' !! key = Some (old +:+ added)
    | None => ctx' !! key = None
    end.

(** However [m] ends, from whatever state, it has only appended to the
    dictionary. *)
Definition append_only {A : Type} (m : M A) : Prop :=
  forall s, extends (context s) (context (final_state (m s))).

(** ** Date columns once they are normalised *)

(** Either no column carries the label [c], or exactly one does and it
    holds datetimes. *)
Definition date_ready (df : DataFrame) (c : string) : Prop :=
  has_column c df = false \/
  exists k, getitem df c = Ok (Series k) /\ col_dtype k = datetime64_utc.

(** Birth and sign-up dates kept as text. *)
Definition raw_accounts : DataFrame :=
  Frame "accounts" 2
    [ Column "BIRTH_DATE" object [VStr "1970-01-01"; VStr "2100-01-01"];
      Column "CREATED_DATE" object [VStr "2100-01-01"; VStr "1970-01-01"] ].

(** ** Categorical columns *)

(** Every cell of the column is text found in the list. *)
Definition all_allowed (allowed : list string) (k : column) : Prop :=
  Forall (fun v => isin allowed v = true) (cells k).



(** ** Identifier columns *)

(** No two non-missing entries of the column are equal. *)
Definition no_repeats (vs : list value) : Prop :=
  ForallOrdPairs
    (fun v w => isna v = false -> isna w = false -> value_eqb v w = false) vs.

(** Receipts with one identifier left empty and none repeated. *)
Definition receipts_with_gap : DataFrame :=
  Frame "receipts" 3
    [ Column "RECEIPT_ID" object [VStr "r1"; VNull PyNone; VStr "r2"];
      Column "STORE" object [VStr "north"; VStr "north"; VStr "south"] ].

(** ** Summary statistics *)

(** The column has one of the dtypes [np.number] covers. *)
Definition numeric_column (k : column) : Prop :=
  col_dtype k = int64 \/ col_dtype k = float64.

(** ** Mixed columns *)




(** ** When the driver returns *)

(** Exactly one column carries the label [c], and [pd.to_datetime] accepts
    that column. *)
Definition date_convertible (rt : runtime) (df : DataFrame) (c : string) : Prop :=
  exists k converted,
    getitem df c = Ok (Series k) /\
    to_datetime rt (Series k) = Ok converted.

(** From a dictionary holding both keys, [m] returns and leaves the frame
    as it is. *)
Definition runs_in_place (m : M unit) (df : DataFrame) : Prop :=
  forall ctx b a,
    ctx !! "body" = Some b ->
    ctx !! "action_items" = Some a ->
    exists ctx', m (State df ctx) = Returns tt (State df ctx').

(** ** The date-validity check on its own *)

(** The text of section 8 for a finding. *)
Definition section8 (finding : string) : string :=
  nl +:+ "    8. Date Validity Check (timestamps are valid): " +:+ nl +:+
  "       - " +:+ finding +:+ nl +:+
  "    ".

(** An instant or [NaT]: what a column of datetimes holds. *)
Definition is_datetime (v : value) : Prop :=
  match v with
  | VTime _ | VNull NaT => True
  | _ => False
  end.

(** A column of datetimes. *)
Definition normalised (k : column) : Prop :=
  col_dtype k = datetime64_utc /\ Forall is_datetime (cells k).

(** Scan dates that cannot all be read, beside purchase dates that can. *)
Definition unreadable_scans : DataFrame :=
  Frame "scans" 2
    [ Column "PURCHASE_DATE" object [VStr "1970-01-01"; VStr "2100-01-01"];
      Column "SCAN_DATE" object [VStr "1970-01-01"; VStr "yesterday"] ].

(** One column holding numbers and text, every value twice. *)
Definition unsortable : DataFrame :=
  Frame "codes" 4 [ Column "CODE" object [VInt 1; VStr "a"; VInt 1; VStr "a"] ].

(** Scan dates as text in one format, and a number among them. *)
Definition mixed_scans : DataFrame :=
  Frame "scans" 2 [ Column "SCAN_DATE" object [VStr "1970-01-01"; VInt 5] ].

(** ** Checks that never ask for an action *)

(** However [m] ends, the entry under [key] is what it was. *)
Definition untouched {A : Type} (key : string) (m : M A) : Prop :=
  forall s, context (final_state (m s)) !! key = context s !! key.

(** * Properties *)

(** ** Running the monad *)

Lemma iadd_present (key text old : string) (df : DataFrame)
      (ctx : gmap string string) :
  ctx !! key = Some old ->
  iadd key text (State df ctx)
  = Returns tt (State df (<[key := old +:+ text]> ctx)).
Proof. intros H. unfold iadd. simpl. now rewrite H. Qed.

Lemma iadd_absent (key text : string) (df : DataFrame)
      (ctx : gmap string string) :
  ctx !! key = None ->
  iadd key text (State df ctx) = Raises (KeyError key) (State df ctx).
Proof. intros H. unfold iadd. simpl. now rewrite H. Qed.

(** Unfold the plumbing of the monad, leaving the calls that touch the
    dictionary. *)
Ltac run_monad :=
  cbv beta iota zeta delta [bind get_frame put_frame ret raise lift frame context].

(** ** The primary-key check *)

Lemma labelled_present (df : DataFrame) (c : string) :
  In c (columns df) -> labelled df c <> [].
Proof.
  unfold columns, labelled. induction (cols df) as [|k ks IH]; simpl.
  - intros [].
  - intros [Hk|Hin].
    + rewrite Hk, String.eqb_refl. discriminate.
    + destruct (String.eqb (label k) c); [discriminate | now apply IH].
Qed.

(** A label of the frame selects something. *)
Lemma getitem_present (df : DataFrame) (c : string) :
  In c (columns df) -> exists selected, getitem df c = Ok selected.
Proof.
  intros Hin. apply labelled_present in Hin. unfold getitem.
  destruct (labelled df c) as [|k [|k' ks]]; [contradiction| |]; eauto.
Qed.

Lemma duplicate_count_present (df : DataFrame) (c : string) :
  In c (columns df) -> exists n, duplicate_count df c = Ok n.
Proof.
  intros Hin. destruct (getitem_present df c Hin) as (selected & Hsel).
  unfold duplicate_count. rewrite Hsel. destruct selected; eauto.
Qed.

Lemma filter_result_ok {A : Type} (f : A -> result bool) (l : list A) :
  (forall x, In x l -> exists keep, f x = Ok keep) ->
  exists kept,
    filter_result f l = Ok kept /\
    forall x, In x kept <-> In x l /\ f x = Ok true.
Proof.
  induction l as [|y l IH]; intros Hok; simpl.
  - exists []. split; [reflexivity|]. simpl. tauto.
  - destruct (Hok y (or_introl eq_refl)) as (keep & Hy). rewrite Hy.
    destruct IH as (kept & Hkept & Hin).
    { intros x Hx. apply Hok. now right. }
    rewrite Hkept. eexists. split; [reflexivity|].
    intros x. destruct keep; simpl; rewrite Hin; split.
    + intros [<-|[Hx Hfx]]; auto.
    + intros [[<-|Hx] Hfx]; auto.
    + intros [Hx Hfx]; auto.
    + intros [[<-|Hx] Hfx]; [congruence | auto].
Qed.

(** The scan over all columns never raises; it lists the labels whose
    non-missing entries have no repeat. *)
Lemma unique_identifiers_ok (df : DataFrame) :
  exists listed,
    unique_identifiers df = Ok listed /\
    forall c, In c listed <-> In c (columns df) /\ duplicate_count df c = Ok 0.
Proof.
  unfold unique_identifiers.
  destruct (filter_result_ok
              (fun col => match duplicate_count df col with
                          | Ok n => Ok (n =? 0)%nat
                          | Err e => Err e
                          end) (columns df)) as (listed & Hrun & Hin).
  { intros c Hc. destruct (duplicate_count_present df c Hc) as (n & ->). eauto. }
  exists listed. split; [exact Hrun|].
  intros c. rewrite Hin. split; intros [Hc Hn]; (split; [exact Hc|]).
  - destruct (duplicate_count df c) as [n|e]; [|discriminate].
    inversion Hn as [Hz]. apply Nat.eqb_eq in Hz. now subst.
  - now rewrite Hn.
Qed.

(** What the check does once the heuristic has picked a table. *)
Lemma find_potential_primary_key_selected (rt : runtime) (df : DataFrame)
      (ctx : gmap string string) (b a : string)
      (ids : list string) (table : string) :
  ctx !! "body" = Some b ->
  ctx !! "action_items" = Some a ->
  identifier_heuristic df = Some (ids, table) ->
  find_potential_primary_key rt (State df ctx)
  = match map_result (identifier_issues df table) ids, unique_identifiers df with
    | Ok issues, Ok listed =>
        Returns tt
          (State df (primary_key_context rt ctx b a table (List.concat issues) listed))
    | Err e, _ => Raises e (State df ctx)
    | Ok _, Err e => Raises e (State df ctx)
    end.
Proof.
  intros Hb Ha Hsel.
  unfold find_potential_primary_key. run_monad. rewrite Hsel.
  destruct (map_result (identifier_issues df table) ids) as [issues|e];
    [|reflexivity].
  cbv beta iota.
  destruct (unique_identifiers df) as [listed|e]; [|reflexivity].
  cbv beta iota. unfold primary_key_context, listed_identifiers.
  destruct (List.concat issues) as [|i invalid].
  - now rewrite (iadd_present _ _ b).
  - rewrite (iadd_present _ _ a) by exact Ha.
    rewrite (iadd_present _ _ b); [reflexivity|].
    rewrite lookup_insert_ne; [exact Hb | discriminate].
Qed.

Lemma find_potential_primary_key_none (rt : runtime) (df : DataFrame)
      (ctx : gmap string string) (b : string) :
  ctx !! "body" = Some b ->
  identifier_heuristic df = None ->
  find_potential_primary_key rt (State df ctx)
  = Returns tt
      (State df
         (<["body" :=
             b +:+ (nl +:+ "        4. Potential Unique Identifiers:" +:+ nl +:+
                    "           - No unique identifier columns found in this table." +:+ nl +:+
                    "        ")]> ctx)).
Proof.
  intros Hb Hsel.
  unfold find_potential_primary_key. run_monad. rewrite Hsel.
  now rewrite (iadd_present _ _ b).
Qed.

(** C6. The heuristic resolves by precedence: [RECEIPT_ID] makes a
    transaction table whatever else is present, [BARCODE] without
    [RECEIPT_ID] a product table, [ID] with neither a user table, and
    otherwise the check reports that no unique identifier columns were found.
    The selected identifier is the one whose issues are reported, under the
    heading of its table. *)
Theorem primary_key_heuristic_precedence (rt : runtime) (df : DataFrame)
        (ctx : gmap string string) (b a : string) :
  ctx !! "body" = Some b ->
  ctx !! "action_items" = Some a ->
  identifier_heuristic df = heuristic_by_precedence df /\
  match heuristic_by_precedence df with
  | None =>
      find_potential_primary_key rt (State df ctx)
      = Returns tt
          (State df
             (<["body" :=
                 b +:+ (nl +:+ "        4. Potential Unique Identifiers:" +:+ nl +:+
                        "           - No unique identifier columns found in this table." +:+ nl +:+
                        "        ")]> ctx))
  | Some (ids, table) =>
      find_potential_primary_key rt (State df ctx)
      = match map_result (identifier_issues df table) ids, unique_identifiers df with
        | Ok issues, Ok listed =>
            Returns tt
              (State df
                 (primary_key_context rt ctx b a table (List.concat issues) listed))
        | Err e, _ => Raises e (State df ctx)
        | Ok _, Err e => Raises e (State df ctx)
        end
  end.
Proof.
  intros Hb Ha.
  assert (Heq : identifier_heuristic df = heuristic_by_precedence df).
  { unfold identifier_heuristic, heuristic_by_precedence.
    destruct (has_column "RECEIPT_ID" df), (has_column "BARCODE" df); reflexivity. }
  split; [exact Heq|].
  destruct (heuristic_by_precedence df) as [[ids table]|] eqn:Hp.
  - now apply find_potential_primary_key_selected.
  - now apply find_potential_primary_key_none.
Qed.

Lemma primary_key_heuristic_precedence_witness :
  initial_context receipts !! "body"
  = Some ("Here is the result of the initial data check for of table 'receipts':" +:+ nl) /\
  initial_context receipts !! "action_items" = Some ("Action required:" +:+ nl) /\
  identifier_heuristic receipts = Some (["RECEIPT_ID"], "transaction") /\
  exists ctx',
    find_potential_primary_key Sample.rt (State receipts (initial_context receipts))
    = Returns tt (State receipts ctx') /\
    ctx' !! "action_items"
    = Some ("Action required:" +:+ nl
            +:+ "    - Resolve issues with unique identifiers: RECEIPT_ID in transaction table has 1 missing values (NaN)."
            +:+ nl).
Proof.
  split; [reflexivity|]. split; [reflexivity|].
  destruct (primary_key_heuristic_precedence Sample.rt receipts
              (initial_context receipts)
              ("Here is the result of the initial data check for of table 'receipts':" +:+ nl)
              ("Action required:" +:+ nl) eq_refl eq_refl) as [Hsel Hrun].
  split; [exact Hsel|].
  eexists. split; [exact Hrun|]. reflexivity.
Defined.

(** ** The categorical-consistency check *)

(** C4. The check validates only when [STATE], [LANGUAGE] and [GENDER] are
    all present: on a table missing one of them it appends the "No related
    columns found" finding and nothing else, whatever the cells of the
    columns that are present hold. *)
Theorem categorical_check_all_or_nothing (rt : runtime) (df : DataFrame)
        (ctx : gmap string string) (b : string) :
  ctx !! "body" = Some b ->
  has_column "STATE" df && has_column "LANGUAGE" df && has_column "GENDER" df = false ->
  check_data_consistency rt (State df ctx)
  = Returns tt
      (State df
         (<["body" :=
             b +:+ (nl +:+ "    11. Data Consistency Check (check if STATE, LANGUAGE, and GENDER are consistent):" +:+ nl +:+
                    "       - No related columns found." +:+ nl +:+
                    "    ")]> ctx)).
Proof.
  intros Hb Hmiss.
  unfold check_data_consistency. run_monad. rewrite Hmiss.
  now rewrite (iadd_present _ _ b).
Qed.

Lemma categorical_check_all_or_nothing_witness :
  initial_context states_and_genders !! "body"
  = Some ("Here is the result of the initial data check for of table 'people':" +:+ nl) /\
  has_column "STATE" states_and_genders && has_column "LANGUAGE" states_and_genders
    && has_column "GENDER" states_and_genders = false /\
  check_data_consistency Sample.rt
    (State states_and_genders (initial_context states_and_genders))
  = Returns tt
      (State states_and_genders
         (<["body" :=
             ("Here is the result of the initial data check for of table 'people':" +:+ nl)
               +:+ (nl +:+ "    11. Data Consistency Check (check if STATE, LANGUAGE, and GENDER are consistent):" +:+ nl +:+
                    "       - No related columns found." +:+ nl +:+
                    "    ")]> (initial_context states_and_genders))).
Proof.
  split; [reflexivity|]. split; [reflexivity|].
  exact (categorical_check_all_or_nothing Sample.rt states_and_genders
           (initial_context states_and_genders) _ eq_refl eq_refl).
Defined.

(** ** The classifier of the mixed-type check *)

(** C9. The classifier is total: on every value it returns a label and never
    raises; numbers and text that reads as a number are "numeric", other
    text is "string", anything else is labelled by its type name.  The same
    holds along a whole column, so that classifying the values under any
    label of a frame never raises. *)
Theorem check_column_type_total (rt : runtime) (x : value) (vs : list value)
        (df : DataFrame) :
  check_column_type rt x = Ok (classification rt x) /\
  map_result (check_column_type rt) vs = Ok (map (classification rt) vs) /\
  forall col, In col (columns df) -> exists types, types_in_col rt df col = Ok types.
Proof.
  assert (H : forall v, check_column_type rt v = Ok (classification rt v)).
  { intros v. unfold check_column_type, classification, py_float.
    destruct v as [[]| | | |s| |]; simpl; try reflexivity.
    destruct (parse_float rt s); reflexivity. }
  assert (Hmap : forall l, map_result (check_column_type rt) l
                           = Ok (map (classification rt) l)).
  { induction l as [|v l IH]; simpl; [reflexivity|]. now rewrite H, IH. }
  split; [apply H|]. split; [apply Hmap|].
  intros col Hcol. destruct (getitem_present df col Hcol) as (selected & Hsel).
  unfold types_in_col. rewrite Hsel. destruct selected as [k|ks]; [|eauto].
  rewrite Hmap. eauto.
Qed.

(** ** Columns without values in the scan for identifiers *)

Lemma append_nil_r (s : string) : s +:+ "" = s.
Proof.
  induction s as [|c s IH]; [reflexivity|].
  change (String c (s +:+ "") = String c s). now rewrite IH.
Qed.

Lemma append_assoc (s t u : string) : (s +:+ t) +:+ u = s +:+ (t +:+ u).
Proof.
  induction s as [|c s IH]; [reflexivity|].
  change (String c ((s +:+ t) +:+ u) = String c (s +:+ (t +:+ u))).
  now rewrite IH.
Qed.







(** ** Comparisons that behave as orders *)

Section LawfulFacts.
Context {A : Type} (cmp : A -> A -> comparison) (Hcmp : lawful cmp).

Lemma lawful_eq_sym (a b : A) : cmp a b = Eq -> cmp b a = Eq.
Proof. intros H. now rewrite (lawful_antisym cmp Hcmp a b), H. Qed.

Lemma lawful_eq_r (a b c : A) : cmp b c = Eq -> cmp a b = cmp a c.
Proof.
  intros H.
  rewrite (lawful_antisym cmp Hcmp b a), (lawful_antisym cmp Hcmp c a).
  now rewrite (lawful_eq cmp Hcmp b c a H).
Qed.

End LawfulFacts.

Lemma lawful_Z : lawful Z.compare.
Proof.
  constructor.
  - apply Z.compare_refl.
  - intros a b. apply Z.compare_antisym.
  - intros a b c H. apply Z.compare_eq in H. now subst.
  - intros a b c. rewrite !Z.compare_lt_iff. lia.
Qed.

Lemma lawful_nat : lawful Nat.compare.
Proof.
  constructor.
  - apply Nat.compare_refl.
  - intros a b. apply Nat.compare_antisym.
  - intros a b c H. apply Nat.compare_eq in H. now subst.
  - intros a b c. rewrite !Nat.compare_lt_iff. lia.
Qed.

Lemma lawful_Q : lawful Qcompare.
Proof.
  constructor.
  - intros a. apply Qeq_alt. reflexivity.
  - intros a b. symmetry. apply Qcompare_antisym.
  - intros a b c H. apply Qeq_alt in H. now rewrite H.
  - intros a b c. rewrite <- !Qlt_alt. apply Qlt_trans.
Qed.

Lemma lawful_string : lawful String_as_OT.compare.
Proof.
  assert (Hirr : forall s, String_as_OT.compare s s <> Lt).
  { intros s H. exact (StrictOrder_Irreflexive (R := String_as_OT.lt) s H). }
  assert (Htr : forall a b c, String_as_OT.compare a b = Lt ->
                              String_as_OT.compare b c = Lt ->
                              String_as_OT.compare a c = Lt).
  { intros a b c. exact (StrictOrder_Transitive (R := String_as_OT.lt) a b c). }
  assert (Hrefl : forall s, String_as_OT.compare s s = Eq).
  { intros s. destruct (String_as_OT.compare_spec s s) as [_|H|H];
      [reflexivity | destruct (Hirr s H) | destruct (Hirr s H)]. }
  constructor.
  - exact Hrefl.
  - intros a b.
    destruct (String_as_OT.compare_spec a b) as [->|H|H].
    + rewrite Hrefl. reflexivity.
    + destruct (String_as_OT.compare_spec b a) as [->|H'|H']; simpl.
      * destruct (Hirr _ H).
      * destruct (Hirr _ (Htr _ _ _ H H')).
      * reflexivity.
    + simpl. exact H.
  - intros a b c H.
    destruct (String_as_OT.compare_spec a b) as [->|H'|H']; [reflexivity| |];
      discriminate.
  - exact Htr.
Qed.

(** Pairs compared first on the left, then on the right. *)
Lemma lawful_lex {A B : Type} (ca : A -> A -> comparison)
      (cb : B -> B -> comparison) :
  lawful ca -> lawful cb ->
  lawful (fun p q : A * B => lex (ca (fst p) (fst q)) (cb (snd p) (snd q))).
Proof.
  intros Ha Hb. constructor.
  - intros [a b]. simpl. now rewrite (lawful_refl ca Ha), (lawful_refl cb Hb).
  - intros [a b] [a' b']. simpl.
    rewrite (lawful_antisym ca Ha a a'), (lawful_antisym cb Hb b b').
    destruct (ca a a'); reflexivity.
  - intros [a b] [a' b'] [a'' b'']. simpl. intros H.
    destruct (ca a a') eqn:E; try discriminate. simpl in H.
    now rewrite (lawful_eq ca Ha a a' a'' E), (lawful_eq cb Hb b b' b'' H).
  - intros [a b] [a' b'] [a'' b'']. simpl. intros H1 H2.
    destruct (ca a a') eqn:E1; try discriminate; simpl in H1.
    + rewrite (lawful_eq ca Ha a a' a'' E1).
      destruct (ca a' a'') eqn:E2; try discriminate; simpl in *.
      * exact (lawful_lt cb Hb b b' b'' H1 H2).
      * reflexivity.
    + destruct (ca a' a'') eqn:E2; try discriminate; simpl in H2.
      * now rewrite <- (lawful_eq_r ca Ha a a' a'' E2), E1.
      * now rewrite (lawful_lt ca Ha a a' a'' E1 E2).
Qed.

Lemma lawful_object :
  lawful (fun p q : string * nat =>
            lex (String_as_OT.compare (fst p) (fst q)) (Nat.compare (snd p) (snd q))).
Proof. exact (lawful_lex _ _ lawful_string lawful_nat). Qed.

Ltac value_kinds :=
  cbn [value_compare num_of kind_rank Nat.compare CompOpp].

Lemma lawful_value : lawful value_compare.
Proof.
  pose proof lawful_Q as HQ. pose proof lawful_Z as HZ.
  pose proof lawful_string as HS. pose proof lawful_object as HO.
  constructor.
  - intros a. destruct a; value_kinds;
      first [ reflexivity
            | apply (lawful_refl _ HQ)
            | apply (lawful_refl _ HZ)
            | apply (lawful_refl _ HS)
            | exact (lawful_refl _ HO (_, _)) ].
  - intros a b. destruct a, b; value_kinds;
      first [ reflexivity
            | apply (lawful_antisym _ HQ)
            | apply (lawful_antisym _ HZ)
            | apply (lawful_antisym _ HS)
            | exact (lawful_antisym _ HO (_, _) (_, _)) ].
  - intros a b c. destruct a, b, c; value_kinds; intros H;
      first [ discriminate H
            | reflexivity
            | exact (lawful_eq _ HQ _ _ _ H)
            | exact (lawful_eq _ HZ _ _ _ H)
            | exact (lawful_eq _ HS _ _ _ H)
            | exact (lawful_eq _ HO (_, _) (_, _) (_, _) H) ].
  - intros a b c. destruct a, b, c; value_kinds; intros H1 H2;
      first [ discriminate H1
            | discriminate H2
            | reflexivity
            | exact (lawful_lt _ HQ _ _ _ H1 H2)
            | exact (lawful_lt _ HZ _ _ _ H1 H2)
            | exact (lawful_lt _ HS _ _ _ H1 H2)
            | exact (lawful_lt _ HO (_, _) (_, _) (_, _) H1 H2) ].
Qed.

Lemma lawful_row : lawful row_compare.
Proof.
  pose proof lawful_value as HV.
  constructor.
  - intros r. induction r as [|a r IH]; simpl; [reflexivity|].
    now rewrite (lawful_refl _ HV), IH.
  - intros r. induction r as [|a r IH]; intros [|b s]; simpl; try reflexivity.
    rewrite (lawful_antisym _ HV a b), (IH s).
    destruct (value_compare a b); reflexivity.
  - intros r. induction r as [|a r IH]; intros [|b s] [|c t]; simpl;
      try discriminate; try reflexivity.
    intros H. destruct (value_compare a b) eqn:E; try discriminate. simpl in H.
    now rewrite (lawful_eq _ HV a b c E), (IH s t H).
  - intros r. induction r as [|a r IH]; intros [|b s] [|c t]; simpl;
      try discriminate; try reflexivity.
    intros H1 H2.
    destruct (value_compare a b) eqn:E1; try discriminate; simpl in H1.
    + rewrite (lawful_eq _ HV a b c E1).
      destruct (value_compare b c) eqn:E2; try discriminate; simpl in *.
      * exact (IH s t H1 H2).
      * reflexivity.
    + destruct (value_compare b c) eqn:E2; try discriminate; simpl in H2.
      * now rewrite <- (lawful_eq_r _ HV a b c E2), E1.
      * now rewrite (lawful_lt _ HV a b c E1 E2).
Qed.

Lemma row_eqb_compare (r s : list value) :
  row_eqb r s = true <-> row_compare r s = Eq.
Proof.
  revert s. induction r as [|a r IH]; intros [|b s]; simpl;
    try (split; [discriminate|discriminate]); try tauto.
  unfold value_eqb. rewrite andb_true_iff, IH.
  destruct (value_compare a b); simpl; split; intros H;
    try discriminate; try tauto; try (destruct H; discriminate).
Qed.

Lemma row_eqb_refl (r : list value) : row_eqb r r = true.
Proof. apply row_eqb_compare, (lawful_refl _ lawful_row). Qed.

Lemma row_eqb_sym (r s : list value) : row_eqb r s = true -> row_eqb s r = true.
Proof. rewrite !row_eqb_compare. apply (lawful_eq_sym _ lawful_row). Qed.




(** ** Marking duplicates *)

Section DuplicatedFacts.
Context {A : Type} (eqb : A -> A -> bool).
Hypothesis eqb_trans : forall x y z, eqb x y = true -> eqb y z = true -> eqb x z = true.



End DuplicatedFacts.

(** ** Sorting *)


Section SortingFacts.
Context {A : Type} (leb : A -> A -> bool).
Hypothesis leb_total : forall x y, leb x y = false -> leb y x = true.
Hypothesis leb_trans : forall x y z, leb x y = true -> leb y z = true -> leb x z = true.

Local Abbreviation le := (fun x y : A => leb x y = true).

Lemma insert_sorted_perm (x : A) (l : list A) :
  Permutation (insert_sorted leb x l) (x :: l).
Proof.
  induction l as [|y l IH]; simpl; [reflexivity|].
  destruct (leb x y); [reflexivity|].
  rewrite IH. apply perm_swap.
Qed.

Lemma sort_by_perm (l : list A) : Permutation (sort_by leb l) l.
Proof.
  induction l as [|x l IH]; simpl; [reflexivity|].
  unfold sort_by in *. simpl. rewrite insert_sorted_perm. now constructor.
Qed.

Lemma insert_sorted_sorted (x : A) (l : list A) :
  StronglySorted le l -> StronglySorted le (insert_sorted leb x l).
Proof.
  induction 1 as [|y l Hs IH Hy]; simpl.
  - repeat constructor.
  - destruct (leb x y) eqn:E.
    + constructor; [now constructor|].
      constructor; [exact E|].
      rewrite List.Forall_forall in *. intros z Hz.
      exact (leb_trans x y z E (Hy z Hz)).
    + constructor; [exact IH|].
      rewrite List.Forall_forall in *. intros z Hz.
      apply (Permutation_in _ (insert_sorted_perm x l)) in Hz.
      destruct Hz as [<-|Hz]; [exact (leb_total x y E) | exact (Hy z Hz)].
Qed.

Lemma sort_by_sorted (l : list A) : StronglySorted le (sort_by leb l).
Proof.
  induction l as [|x l IH]; simpl; [constructor|].
  now apply insert_sorted_sorted.
Qed.

End SortingFacts.

(** ** Marks by position *)

Section DuplicatedByIndex.
Context {A : Type} (eqb : A -> A -> bool) (d : A).




End DuplicatedByIndex.

(** ** The duplicate-row check *)


(** Two values equal for a Series are the same missing marker, or are both
    present and equal. *)
Lemma series_eqb_cases (a b : value) :
  series_eqb a b = true
  <-> (exists m, a = VNull m /\ b = VNull m) \/
      (isna a = false /\ isna b = false /\ value_eqb a b = true).
Proof.
  split.
  - destruct a as [m| | | | | |], b as [m'| | | | | |]; simpl; intros H;
      try discriminate H; try (right; now repeat split).
    left. exists m. destruct m, m'; try discriminate H; now split.
  - intros [(m & -> & ->)|(Ha & Hb & H)].
    + now destruct m.
    + destruct a, b; try discriminate; exact H.
Qed.



Lemma distinct_nodup (l : list string) : List.NoDup l -> distinct l = true.
Proof.
  induction 1 as [|x l Hx _ IH]; [reflexivity|]. simpl. rewrite IH.
  destruct (existsb (String.eqb x) l) eqn:E; [|reflexivity].
  apply existsb_exists in E. destruct E as (y & Hy & Exy).
  apply String.eqb_eq in Exy. subst. contradiction.
Qed.

Lemma distinct_true (l : list string) : distinct l = true -> List.NoDup l.
Proof.
  induction l as [|x l IH]; simpl; [constructor|].
  intros H. apply andb_true_iff in H. destruct H as [Hx Hl].
  constructor; [|now apply IH].
  intros Hin. apply negb_true_iff in Hx. rewrite <- not_true_iff_false in Hx.
  apply Hx, existsb_exists. exists x. split; [exact Hin | apply String.eqb_refl].
Qed.

Lemma check_fully_duplicate_rows_run (rt : runtime) (df : DataFrame)
      (ctx : gmap string string) (b a : string) :
  ctx !! "body" = Some b ->
  ctx !! "action_items" = Some a ->
  check_fully_duplicate_rows rt (State df ctx)
  = match sum_true (df_duplicated df) with
    | 0 =>
        Returns tt
          (State df (<["body" := b +:+ section6 "No fully duplicate rows."]> ctx))
    | S _ as n =>
        match duplicate_examples df with
        | Ok shown =>
            Returns tt
              (State df
                 (<["body" :=
                     b +:+ section6
                       ("There are " +:+ pretty n
                          +:+ " duplicate rows. Here are a few examples:" +:+ nl
                          +:+ rows_to_string rt (columns df) shown)]>
                    (<["action_items" :=
                         a +:+ "    - Remove duplicate rows: Consider to remove "
                           +:+ pretty n
                           +:+ " duplicate entries. Example rows: " +:+ nl
                           +:+ rows_to_string rt (columns df) shown +:+ nl]>
                       ctx)))
        | Err e => Raises e (State df ctx)
        end
    end.
Proof.
  intros Hb Ha. unfold check_fully_duplicate_rows. run_monad.
  destruct (sum_true (df_duplicated df)) as [|n] eqn:En.
  - change (0 =? 0)%nat with true. cbv beta iota.
    now rewrite (iadd_present _ _ b).
  - change (S n =? 0)%nat with false. cbv beta iota.
    destruct (duplicate_examples df) as [shown|e]; [|reflexivity].
    cbv beta iota.
    rewrite (iadd_present _ _ a) by exact Ha.
    rewrite (iadd_present _ _ b); [reflexivity|].
    rewrite lookup_insert_ne; [exact Hb | discriminate].
Qed.





(** ** The null-column analysis *)

Lemma _get_column_data_types_perm (df : DataFrame) :
  Permutation (_get_column_data_types df) (map summary_row (cols df)).
Proof. unfold _get_column_data_types. apply sort_by_perm. Qed.

Lemma filter_perm {A : Type} (f : A -> bool) (l l' : list A) :
  Permutation l l' -> Permutation (List.filter f l) (List.filter f l').
Proof.
  induction 1 as [|x l l' _ IH|x y l|l l' l'' _ IH1 _ IH2]; simpl.
  - constructor.
  - destruct (f x); [now constructor | exact IH].
  - destruct (f x), (f y); try reflexivity. apply perm_swap.
  - now transitivity (List.filter f l').
Qed.

Lemma filter_all {A : Type} (f : A -> bool) (l : list A) :
  forallb f l = true -> List.filter f l = l.
Proof.
  induction l as [|x l IH]; simpl; [reflexivity|].
  intros H. apply andb_true_iff in H. destruct H as [Hx Hl].
  now rewrite Hx, IH.
Qed.

(** Rounding moves a number by half a unit at most. *)
Lemma round_half_even_close (x : Q) :
  (Qabs (inject_Z (round_half_even x) - x) <= 1 # 2)%Q.
Proof.
  pose proof (Qfloor_le x) as Hlo. pose proof (Qlt_floor x) as Hhi.
  rewrite inject_Z_plus in Hhi. change (inject_Z 1) with 1%Q in Hhi.
  unfold round_half_even. apply Qabs_Qle_condition.
  destruct (Qcompare_spec (x - inject_Z (Qfloor x)) (1 # 2)) as [He|Hl|Hg].
  - destruct (Z.even (Qfloor x)).
    + split; lra.
    + rewrite inject_Z_plus. change (inject_Z 1) with 1%Q. split; lra.
  - split; lra.
  - rewrite inject_Z_plus. change (inject_Z 1) with 1%Q. split; lra.
Qed.

(** ** Double-precision rounding *)

Lemma pow2_pos (e : Z) : (0 < pow2 e)%Q.
Proof. apply Qpower_0_lt. reflexivity. Qed.

Lemma pow2_inject (n : Z) : (0 <= n)%Z -> (pow2 n == inject_Z (2 ^ n))%Q.
Proof. intros H. unfold pow2. now rewrite Zpower_Qpower. Qed.

Lemma pow2_minus (n m : Z) : (pow2 (n - m) == pow2 n / pow2 m)%Q.
Proof. unfold pow2. apply Qpower_minus. discriminate. Qed.

Lemma binade_le (x : Q) : (0 < x)%Q -> (pow2 (binade x) <= x)%Q.
Proof.
  intros Hx. unfold binade.
  destruct (Qle_bool (pow2 (Z.log2 (Qnum x) - Z.log2 (Z.pos (Qden x)))) x) eqn:E.
  - now apply Qle_bool_iff.
  - destruct x as [p q]. simpl Qnum in *. simpl Qden in *.
    assert (Hp : (0 < p)%Z).
    { unfold Qlt in Hx. simpl in Hx. lia. }
    replace (Z.log2 p - Z.log2 (Z.pos q) - 1)%Z
      with (Z.log2 p - (Z.log2 (Z.pos q) + 1))%Z by lia.
    rewrite pow2_minus.
    pose proof (Z.log2_nonneg p) as Hlp. pose proof (Z.log2_nonneg (Z.pos q)) as Hlq.
    rewrite (pow2_inject _ Hlp), (pow2_inject (Z.log2 (Z.pos q) + 1)) by lia.
    destruct (Z.log2_spec p Hp) as [Hp1 _].
    destruct (Z.log2_spec (Z.pos q) (Pos2Z.is_pos q)) as [_ Hq2].
    replace (Z.succ (Z.log2 (Z.pos q))) with (Z.log2 (Z.pos q) + 1)%Z in Hq2 by lia.
    set (A := (2 ^ Z.log2 p)%Z) in *. set (B := (2 ^ (Z.log2 (Z.pos q) + 1))%Z) in *.
    assert (HA : (0 < A)%Z) by (apply Z.pow_pos_nonneg; lia).
    unfold Qle, Qdiv, Qmult, Qinv, inject_Z. simpl.
    destruct B as [|B|B]; try lia. simpl.
    nia.
Qed.

Lemma nearest_double_close (x : Q) :
  (0 < x)%Q -> (Qabs (nearest_double x - x) <= x * half_ulp)%Q.
Proof.
  intros Hx. unfold nearest_double.
  set (e := (binade x - 52)%Z).
  pose proof (pow2_pos e) as He.
  pose proof (round_half_even_close (x / pow2 e)) as Hm.
  set (m := inject_Z (round_half_even (x / pow2 e))) in *. clearbody m.
  assert (Hx' : (x == x / pow2 e * pow2 e)%Q).
  { field. intros H. rewrite H in He. discriminate He. }
  assert (Hdiff : (m * pow2 e - x == (m - x / pow2 e) * pow2 e)%Q).
  { rewrite Hx' at 1. ring. }
  rewrite Hdiff, Qabs_Qmult, (Qabs_pos (pow2 e)) by (apply Qlt_le_weak, He).
  assert (Hpe : (pow2 e * (1 # 2) <= x * half_ulp)%Q).
  { unfold half_ulp, e.
    assert (E1 : (pow2 (binade x - 52) == pow2 (binade x) / pow2 52)%Q)
      by apply pow2_minus.
    rewrite E1.
    pose proof (binade_le x Hx) as Hb.
    set (t := pow2 (binade x)) in *. clearbody t.
    change (pow2 52) with (4503599627370496 # 1)%Q.
    change (pow2 (-53)) with (1 # 9007199254740992)%Q.
    unfold Qdiv. change (/ (4503599627370496 # 1))%Q with (1 # 4503599627370496)%Q.
    lra. }
  apply Qle_trans with (pow2 e * (1 # 2))%Q; [|exact Hpe].
  rewrite (Qmult_comm (pow2 e)).
  apply Qmult_le_compat_r; [exact Hm | apply Qlt_le_weak, He].
Qed.

Lemma fl_comp (x y : Q) : (x == y)%Q -> fl x = fl y.
Proof. intros H. unfold fl. now rewrite (Qred_complete _ _ H). Qed.

Lemma fl_close (x : Q) : (0 <= x)%Q -> (Qabs (fl x - x) <= x * half_ulp)%Q.
Proof.
  intros Hx. unfold fl.
  pose proof (Qred_correct x) as Hr.
  destruct (Qcompare_spec (Qred x) 0) as [E|E|E].
  - rewrite <- Hr, E. discriminate.
  - rewrite Hr in E. lra.
  - rewrite <- Hr at 2 3. now apply nearest_double_close.
Qed.

(** The rounded result of an operation on non-negative doubles lies between
    these multiples of the exact result. *)
Lemma fl_bounds (x : Q) :
  (0 <= x)%Q ->
  (x * (1 - half_ulp) <= fl x /\ fl x <= x * (1 + half_ulp))%Q.
Proof.
  intros Hx. pose proof (fl_close x Hx) as H.
  apply Qabs_Qle_condition in H. destruct H as [H1 H2]. split; lra.
Qed.

(** The percentage written is a whole number of hundredths, and it is the
    exact percentage rounded to the nearest hundredth but for the rounding
    errors of the four double-precision operations before it. *)
Lemma null_percentage_close (nulls rows : nat) :
  (0 < rows)%nat -> (nulls <= rows)%nat ->
  let exact := (inject_Z (Z.of_nat nulls) / inject_Z (Z.of_nat rows) * 100)%Q in
  (Qabs (null_percentage nulls rows - exact) <= (1 # 200) + (1 # 10000000000000))%Q.
Proof.
  intros Hrows Hle exact. unfold null_percentage.
  set (N := inject_Z (Z.of_nat nulls)) in *.
  set (R := inject_Z (Z.of_nat rows)) in *.
  assert (HN : (0 <= N)%Q).
  { unfold N. rewrite <- (Zle_Qle 0). lia. }
  assert (HR : (1 <= R)%Q).
  { unfold R. rewrite <- (Zle_Qle 1). lia. }
  assert (HNR : (N <= R)%Q).
  { unfold N, R. rewrite <- Zle_Qle. lia. }
  set (E := (N / R)%Q) in *.
  assert (HER : (E * R == N)%Q).
  { unfold E. field. lra. }
  assert (HE0 : (0 <= E)%Q).
  { unfold E. apply Qle_shift_div_l; lra. }
  assert (HE1 : (E <= 1)%Q).
  { unfold E. apply Qle_shift_div_r; lra. }
  destruct (fl_bounds N HN) as [Ha1 Ha2].
  destruct (fl_bounds R) as [Hb1 Hb2]; [lra|].
  set (a := fl N) in *. set (b := fl R) in *.
  change half_ulp with (1 # 9007199254740992)%Q in *.
  assert (Hb : (0 < b)%Q) by lra.
  assert (P1 : (N * (1 - (1 # 9007199254740992)) <= E * b)%Q).
  { rewrite <- HER.
    setoid_replace (E * R * (1 - (1 # 9007199254740992)))%Q
      with (R * (1 - (1 # 9007199254740992)) * E)%Q using relation Qeq by ring.
    rewrite (Qmult_comm E b). now apply Qmult_le_compat_r. }
  assert (P2 : (E * b <= N * (1 + (1 # 9007199254740992)))%Q).
  { rewrite <- HER.
    setoid_replace (E * R * (1 + (1 # 9007199254740992)))%Q
      with (R * (1 + (1 # 9007199254740992)) * E)%Q using relation Qeq by ring.
    rewrite (Qmult_comm E b). now apply Qmult_le_compat_r. }
  assert (Hq0hi : (a / b <= E * (1 + 3 * (1 # 9007199254740992)))%Q).
  { apply Qle_shift_div_r; [exact Hb|].
    setoid_replace (E * (1 + 3 * (1 # 9007199254740992)) * b)%Q with ((1 + 3 * (1 # 9007199254740992)) * (E * b))%Q using relation Qeq by ring.
    lra. }
  assert (Hq0lo : (E * (1 - 3 * (1 # 9007199254740992)) <= a / b)%Q).
  { apply Qle_shift_div_l; [exact Hb|].
    setoid_replace (E * (1 - 3 * (1 # 9007199254740992)) * b)%Q with ((1 - 3 * (1 # 9007199254740992)) * (E * b))%Q using relation Qeq by ring.
    lra. }
  set (q0 := (a / b)%Q) in *.
  assert (Hq0 : (0 <= q0)%Q) by (clearbody q0; lra).
  destruct (fl_bounds _ Hq0) as [Hq1 Hq2].
  change half_ulp with (1 # 9007199254740992)%Q in *.
  set (q := fl q0) in *.
  assert (Hp0 : (0 <= q * 100)%Q) by lra.
  destruct (fl_bounds _ Hp0) as [Hp1 Hp2].
  change half_ulp with (1 # 9007199254740992)%Q in *.
  set (p := fl (q * 100)) in *.
  assert (Hy0 : (0 <= p * 100)%Q) by lra.
  destruct (fl_bounds _ Hy0) as [Hy1 Hy2].
  change half_ulp with (1 # 9007199254740992)%Q in *.
  set (y := fl (p * 100)) in *.
  pose proof (round_half_even_close y) as Hk.
  set (k := inject_Z (round_half_even y)) in *.
  apply Qabs_Qle_condition in Hk. destruct Hk as [Hk1 Hk2].
  clearbody k y p q q0.
  unfold exact. fold E.
  apply Qabs_Qle_condition.
  unfold Qdiv. change (/ 100)%Q with (1 # 100)%Q.
  split; lra.
Qed.

Lemma null_percentage_all (n : nat) :
  (0 < n)%nat -> (null_percentage n n == 100)%Q.
Proof.
  intros Hn. unfold null_percentage.
  set (N := inject_Z (Z.of_nat n)).
  assert (HN : (1 <= N)%Q).
  { unfold N. rewrite <- (Zle_Qle 1). lia. }
  destruct (fl_bounds N) as [Ha _]; [lra|].
  change half_ulp with (1 # 9007199254740992)%Q in Ha.
  assert (Hone : (fl N / fl N == 1)%Q).
  { field. intros H. rewrite H in Ha. lra. }
  rewrite (fl_comp _ _ Hone). reflexivity.
Qed.

(** C5, as the code has it.  The analysis takes exactly one of three
    branches: every column is missing in every row (all are reported fully
    null, with the action to remove them); otherwise some column has a
    missing value (each column with missing values is listed with its count
    and its percentage of the rows, with the action to handle missing data);
    otherwise no column has a missing value (the no-nulls finding, and no
    action).  The percentage is computed on doubles and then brought to a
    whole number of hundredths: it is within half a hundredth of the exact
    percentage but for the rounding errors of the operations before, so it
    is not always the exact percentage rounded to two decimals. *)
Theorem null_analysis_three_way (rt : runtime) (df : DataFrame)
        (ctx : gmap string string) (b a : string) :
  ctx !! "body" = Some b ->
  ctx !! "action_items" = Some a ->
  let all_null := forall k, In k (cols df) -> null_count (cells k) = nrows df in
  let some_null := exists k, In k (cols df) /\ 0 < null_count (cells k) in
  ((all_null /\
    exists names,
      Permutation names (columns df) /\
      check_null_columns rt (State df ctx)
      = Returns tt
          (State df
             (<["body" :=
                 b +:+ section5 ("Fully NULL columns: " +:+ join ", " names +:+ ".")]>
                (<["action_items" :=
                     a +:+ "    - Handle fully NULL columns: Remove columns "
                       +:+ join ", " names +:+ " that contain only null values." +:+ nl]>
                   ctx))))
   \/
   (~ all_null /\ some_null /\
    exists listed,
      Permutation listed
        (List.filter (fun r => (0 <? row_nulls r)%nat) (map summary_row (cols df))) /\
      let message :=
        nl +:+ "          - "
           +:+ join (nl +:+ "          - ")
                    (map (fun r =>
                            row_column r +:+ ": " +:+ pretty (row_nulls r)
                              +:+ " missing ("
                              +:+ str_float rt (null_percentage (row_nulls r) (nrows df))
                              +:+ "%)")
                         listed) in
      check_null_columns rt (State df ctx)
      = Returns tt
          (State df
             (<["body" := b +:+ section5 ("Partially NULL columns: " +:+ message)]>
                (<["action_items" :=
                     a +:+ "    - Handle missing data: The following columns contain missing values:"
                       +:+ message +:+ nl]>
                   ctx))))
   \/
   (~ all_null /\ ~ some_null /\
    check_null_columns rt (State df ctx)
    = Returns tt
        (State df
           (<["body" :=
               b +:+ section5 "No NULL columns detected. All columns are fully populated."]>
              ctx)))) /\
  (forall nulls rows,
     (0 < rows)%nat -> (nulls <= rows)%nat ->
     (exists hundredths : Z,
        null_percentage nulls rows = (inject_Z hundredths / 100)%Q) /\
     (Qabs (null_percentage nulls rows
            - inject_Z (Z.of_nat nulls) / inject_Z (Z.of_nat rows) * 100)
      <= (1 # 200) + (1 # 10000000000000))%Q).
Proof.
  intros Hb Ha all_null some_null.
  split;
    [|intros nulls rows Hrows Hle;
      split; [eexists; reflexivity | now apply null_percentage_close]].
  pose proof (_get_column_data_types_perm df) as Hperm.
  assert (Hrow : forall k, In k (cols df) ->
                           In (summary_row k) (_get_column_data_types df)).
  { intros k Hk. apply (Permutation_in _ (Permutation_sym Hperm)).
    now apply in_map. }
  assert (Hcol : forall r, In r (_get_column_data_types df) ->
                           exists k, In k (cols df) /\ r = summary_row k).
  { intros r Hr. apply (Permutation_in _ Hperm) in Hr.
    apply in_map_iff in Hr. destruct Hr as (k & <- & Hk). eauto. }
  unfold check_null_columns. run_monad. unfold shape, fst.
  destruct (forallb (fun n => (n =? nrows df)%nat)
                    (map row_nulls (_get_column_data_types df))) eqn:Eall.
  - left.
    assert (Hall : forall r, In r (_get_column_data_types df) ->
                             (row_nulls r =? nrows df)%nat = true).
    { intros r Hr. rewrite forallb_forall in Eall.
      apply Eall. now apply in_map. }
    split.
    + intros k Hk. apply Nat.eqb_eq. exact (Hall _ (Hrow k Hk)).
    + exists (map row_column (_get_column_data_types df)). split.
      * unfold columns.
        replace (map label (cols df)) with (map row_column (map summary_row (cols df)))
          by (rewrite map_map; reflexivity).
        now apply Permutation_map.
      * rewrite (filter_all (fun r => (row_nulls r =? nrows df)%nat))
          by (apply forallb_forall; exact Hall).
        rewrite (iadd_present _ _ a) by exact Ha.
        rewrite (iadd_present _ _ b); [reflexivity|].
        rewrite lookup_insert_ne; [exact Hb | discriminate].
  - right.
    assert (Hnot : ~ all_null).
    { intros Hall. rewrite <- not_true_iff_false in Eall. apply Eall.
      apply forallb_forall. intros n Hn. apply in_map_iff in Hn.
      destruct Hn as (r & <- & Hr). destruct (Hcol r Hr) as (k & Hk & ->).
      apply Nat.eqb_eq. exact (Hall k Hk). }
    destruct (existsb (fun n => (0 <? n)%nat)
                      (map row_nulls (_get_column_data_types df))) eqn:Esome.
    + left. split; [exact Hnot|]. split.
      * apply existsb_exists in Esome. destruct Esome as (n & Hn & Hpos).
        apply in_map_iff in Hn. destruct Hn as (r & <- & Hr).
        destruct (Hcol r Hr) as (k & Hk & ->).
        exists k. split; [exact Hk|]. now apply Nat.ltb_lt in Hpos.
      * exists (List.filter (fun r => (0 <? row_nulls r)%nat) (_get_column_data_types df)).
        split; [now apply filter_perm|].
        cbv zeta. rewrite (iadd_present _ _ a) by exact Ha.
        rewrite (iadd_present _ _ b); [reflexivity|].
        rewrite lookup_insert_ne; [exact Hb | discriminate].
    + right. split; [exact Hnot|]. split.
      * intros (k & Hk & Hpos).
        rewrite <- not_true_iff_false in Esome. apply Esome.
        apply existsb_exists. exists (null_count (cells k)). split.
        -- apply in_map_iff. exists (summary_row k). split; [reflexivity|].
           exact (Hrow k Hk).
        -- now apply Nat.ltb_lt.
      * now rewrite (iadd_present _ _ b).
Qed.

Lemma null_analysis_three_way_witness :
  exists ctx',
    check_null_columns Sample.rt
      (State users_without_notes (initial_context users_without_notes))
    = Returns tt (State users_without_notes ctx') /\
    ctx' !! "body"
    = Some (("Here is the result of the initial data check for of table 'users':" +:+ nl)
              +:+ section5 ("Partially NULL columns: " +:+ nl +:+ "          - "
                              +:+ "NOTES: 3 missing (100.0%)")).
Proof.
  destruct (proj1 (null_analysis_three_way Sample.rt users_without_notes
                     (initial_context users_without_notes) _ _ eq_refl eq_refl))
    as [(Hall & _)|[(_ & _ & listed & Hperm & Hrun)|(_ & Hnone & _)]].
  - specialize (Hall (Column "ID" int64 [VInt 1; VInt 2; VInt 3])).
    simpl in Hall. discriminate Hall. tauto.
  - vm_compute in Hperm.
    apply Permutation_sym, Permutation_length_1_inv in Hperm. subst listed.
    eexists. split; [exact Hrun|]. vm_compute. reflexivity.
  - exfalso. apply Hnone.
    exists (Column "NOTES" object [VNull PyNone; VNull PyNone; VNull NaN]).
    split; [simpl; tauto | vm_compute; lia].
Defined.

(** C5, as the specification words it, fails on 23 missing values in 160
    rows: the exact percentage is 14.375, which is 14.38 to two decimals, and
    the check writes 14.37. *)
Lemma null_percentage_counterexample :
  (rounded_to_two_decimals (inject_Z 23 / inject_Z 160 * 100) == 1438 # 100)%Q /\
  (null_percentage 23 160 == 1437 # 100)%Q /\
  exists ctx',
    check_null_columns Sample.rt (State partly_null (initial_context partly_null))
    = Returns tt (State partly_null ctx') /\
    ctx' !! "body"
    = Some (("Here is the result of the initial data check for of table 'readings':" +:+ nl)
              +:+ section5 ("Partially NULL columns: " +:+ nl +:+ "          - "
                              +:+ "LEVEL: 23 missing (14.37%)")).
Proof.
  split; [reflexivity|]. split; [reflexivity|].
  eexists. split; vm_compute; reflexivity.
Qed.

(** The first branch has precedence: a table without rows has, in every
    column, as many missing values as rows, and is reported fully null. *)
Example table_without_rows_is_fully_null :
  exists ctx',
    check_null_columns Sample.rt (State no_rows (initial_context no_rows))
    = Returns tt (State no_rows ctx') /\
    ctx' !! "body"
    = Some (("Here is the result of the initial data check for of table 'empty':" +:+ nl)
              +:+ section5 "Fully NULL columns: A, B.").
Proof. eexists. split; vm_compute; reflexivity. Qed.

(** ** What every check leaves behind *)

Lemma same_outside_dates_refl (df : DataFrame) : same_outside_dates df df.
Proof.
  repeat split. induction (cols df); constructor; auto.
Qed.

Lemma same_outside_dates_trans (df1 df2 df3 : DataFrame) :
  same_outside_dates df1 df2 -> same_outside_dates df2 df3 ->
  same_outside_dates df1 df3.
Proof.
  intros (Hn1 & Hr1 & Hc1) (Hn2 & Hr2 & Hc2).
  split; [congruence|]. split; [congruence|].
  revert Hc2. generalize (cols df3). clear -Hc1.
  induction Hc1 as [|k k' l l' [Hl Hk] _ IH]; intros l3 H3; inversion H3; subst.
  - constructor.
  - constructor; [|now apply IH].
    match goal with H : _ /\ _ |- _ => destruct H as [Hl' Hk'] end.
    split; [congruence|].
    intros Hnot. rewrite <- (Hk Hnot). apply Hk'. now rewrite Hl.
Qed.

Lemma same_outside_dates_setitem (df : DataFrame) (c : string) (dt : dtype)
      (vs : list value) :
  In c date_columns -> same_outside_dates df (setitem df c dt vs).
Proof.
  intros Hc. repeat split. simpl.
  induction (cols df) as [|k ks IH]; simpl; constructor; [|exact IH].
  destruct (String.eqb (label k) c) eqn:E; simpl; [|auto].
  apply String.eqb_eq in E. split; [reflexivity|].
  intros Hnot. rewrite E in Hnot. contradiction.
Qed.

Lemma ok_returns (num : option nat) (df df' : DataFrame) (b a frag acts : string)
      (ctx' : gmap string string) :
  same_outside_dates df df' ->
  ctx' !! "body" = Some (b +:+ frag) ->
  ctx' !! "action_items" = Some (a +:+ acts) ->
  heading frag = num ->
  outcome_ok num df b a (Returns tt (State df' ctx')).
Proof.
  intros Hs Hb Ha Hh. split; [exact Hs|].
  intros u s' E. inversion E; subst. exists frag, acts. auto.
Qed.

Lemma ok_returns_no_action (num : option nat) (df df' : DataFrame)
      (b a frag : string) (ctx' : gmap string string) :
  same_outside_dates df df' ->
  ctx' !! "body" = Some (b +:+ frag) ->
  ctx' !! "action_items" = Some a ->
  heading frag = num ->
  outcome_ok num df b a (Returns tt (State df' ctx')).
Proof.
  intros Hs Hb Ha Hh. apply (ok_returns num df df' b a frag ""); auto.
  now rewrite append_nil_r.
Qed.

Lemma ok_raises (num : option nat) (df df' : DataFrame) (b a : string)
      (e : exn) (ctx' : gmap string string) :
  same_outside_dates df df' ->
  outcome_ok num df b a (Raises e (State df' ctx')).
Proof. intros Hs. split; [exact Hs|]. intros u s' E. discriminate E. Qed.

(** Lookups in a context after a few [+=]. *)
Ltac solve_lookup :=
  repeat first [ rewrite lookup_insert_eq
               | rewrite lookup_insert_ne by discriminate ];
  first [ reflexivity
        | eassumption
        | match goal with
          | H : ?ctx !! ?k = Some ?x |- ?ctx !! ?k = Some _ => rewrite H
          end;
          rewrite ?append_assoc; reflexivity
        | rewrite ?append_assoc; reflexivity ].

(** Close a goal about a run that has been computed down to its outcome. *)
Ltac close_ok :=
  first
    [ apply ok_raises; apply same_outside_dates_refl
    | eapply ok_returns_no_action;
      [ apply same_outside_dates_refl | solve_lookup | solve_lookup | reflexivity ]
    | eapply ok_returns;
      [ apply same_outside_dates_refl | solve_lookup | solve_lookup | reflexivity ] ].

(** Run the next [+=] on a context whose two entries are known. *)
Ltac step_iadd :=
  match goal with
  | |- context [ iadd ?k ?t (State ?df ?ctx) ] =>
      first
        [ erewrite (iadd_present k t _ df ctx) by solve_lookup
        | rewrite (iadd_absent k t df ctx) by solve_lookup ]
  end; cbv beta iota.

Section CheckSpecs.
Variable rt : runtime.

Lemma spec_get_dataframe_shape : check_spec (Some 1) get_dataframe_shape.
Proof.
  intros df ctx b a Hb Ha. unfold get_dataframe_shape, shape. run_monad.
  step_iadd. close_ok.
Qed.

Lemma spec_check_column_spaces : check_spec (Some 2) (check_column_spaces rt).
Proof.
  intros df ctx b a Hb Ha. unfold check_column_spaces. run_monad.
  destruct (List.filter (contains_char " ") (columns df));
    repeat step_iadd; close_ok.
Qed.

Lemma spec_check_duplicate_columns : check_spec None (check_duplicate_columns rt).
Proof.
  intros df ctx b a Hb Ha. unfold check_duplicate_columns. run_monad.
  destruct (select (columns df) (duplicated String.eqb (columns df))).
  - repeat step_iadd. close_ok.
  - destruct (ctx !! "action") as [old|] eqn:Eold.
    + repeat step_iadd. close_ok.
    + repeat step_iadd. close_ok.
Qed.

Lemma spec_get_column_data_types : check_spec (Some 3) (get_column_data_types rt).
Proof.
  intros df ctx b a Hb Ha. unfold get_column_data_types. run_monad.
  step_iadd. close_ok.
Qed.

Lemma spec_find_potential_primary_key :
  check_spec (Some 4) (find_potential_primary_key rt).
Proof.
  intros df ctx b a Hb Ha. unfold find_potential_primary_key. run_monad.
  destruct (identifier_heuristic df) as [[ids table]|].
  - destruct (map_result (identifier_issues df table) ids) as [issues|e];
      cbv beta iota; [|close_ok].
    destruct (unique_identifiers df) as [listed|e]; cbv beta iota; [|close_ok].
    destruct (List.concat issues); repeat step_iadd; close_ok.
  - step_iadd. close_ok.
Qed.

Lemma spec_check_null_columns : check_spec (Some 5) (check_null_columns rt).
Proof.
  intros df ctx b a Hb Ha. unfold check_null_columns. run_monad.
  destruct (forallb _ _); [|destruct (existsb _ _)];
    repeat step_iadd; close_ok.
Qed.

Lemma spec_check_fully_duplicate_rows :
  check_spec (Some 6) (check_fully_duplicate_rows rt).
Proof.
  intros df ctx b a Hb Ha. unfold check_fully_duplicate_rows. run_monad.
  destruct (sum_true (df_duplicated df) =? 0)%nat;
    [repeat step_iadd; close_ok|].
  destruct (duplicate_examples df) as [shown|e]; cbv beta iota; [|close_ok].
  repeat step_iadd. close_ok.
Qed.

Lemma spec_check_mixed_data_types :
  check_spec (Some 7) (check_mixed_data_types rt).
Proof.
  intros df ctx b a Hb Ha. unfold check_mixed_data_types. run_monad.
  destruct (scan_mixed rt df (columns df) [] ∅) as [[mixed types]|e];
    cbv beta iota; [|close_ok].
  destruct mixed; repeat step_iadd; close_ok.
Qed.

(** One turn of the loop of the date-validity check. *)
Lemma check_date_column_run (col : string) (acc : list string)
      (df : DataFrame) (ctx : gmap string string) :
  check_date_column rt col acc (State df ctx)
  = match getitem df col with
    | Err e => Raises e (State df ctx)
    | Ok selected =>
        match to_datetime rt selected with
        | Err e => Raises e (State df ctx)
        | Ok converted =>
            Returns
              (match future_dates (now_utc rt col) converted with
               | [] => acc
               | flagged =>
                   acc ++ [col +:+ " has future dates: "
                               +:+ join ", " (map (str_value rt) (unique series_eqb flagged))
                               +:+ "."]
               end)
              (State (setitem df col datetime64_utc converted) ctx)
        end
    end.
Proof.
  unfold check_date_column. run_monad.
  destruct (getitem df col) as [selected|e]; [|reflexivity]. cbv beta iota.
  destruct (to_datetime rt selected) as [converted|e]; [|reflexivity].
  cbv beta iota.
  destruct (future_dates (now_utc rt col) converted); reflexivity.
Qed.

(** The loop touches date columns only and leaves the context alone. *)
Lemma for_each_check_date_column (found : list string) (acc : list string)
      (df : DataFrame) (ctx : gmap string string) :
  (forall c, In c found -> In c date_columns) ->
  exists df',
    same_outside_dates df df' /\
    ((exists acc', for_each (check_date_column rt) found acc (State df ctx)
                   = Returns acc' (State df' ctx))
     \/ (exists e, for_each (check_date_column rt) found acc (State df ctx)
                   = Raises e (State df' ctx))).
Proof.
  revert acc df. induction found as [|col found IH]; intros acc df Hsub.
  - exists df. split; [apply same_outside_dates_refl|]. left. now exists acc.
  - cbn [for_each]. unfold bind. rewrite check_date_column_run.
    destruct (getitem df col) as [selected|e].
    + destruct (to_datetime rt selected) as [converted|e].
      * set (df1 := setitem df col datetime64_utc converted).
        assert (H1 : same_outside_dates df df1).
        { apply same_outside_dates_setitem. apply Hsub. now left. }
        assert (Hsub' : forall c, In c found -> In c date_columns).
        { intros c Hc. apply Hsub. now right. }
        match goal with
        | |- context [ for_each _ found ?acc1 _ ] =>
            destruct (IH acc1 df1 Hsub') as (df' & H2 & Hrun)
        end.
        exists df'. split; [exact (same_outside_dates_trans _ _ _ H1 H2)|].
        exact Hrun.
      * exists df. split; [apply same_outside_dates_refl|]. right. now exists e.
    + exists df. split; [apply same_outside_dates_refl|]. right. now exists e.
Qed.

Lemma found_date_columns_sub (df : DataFrame) (c : string) :
  In c (List.filter (fun col => has_column col df) date_columns) ->
  In c date_columns.
Proof. intros H. apply filter_In in H. tauto. Qed.

Lemma spec_check_date_validity : check_spec (Some 8) (check_date_validity rt).
Proof.
  intros df ctx b a Hb Ha. unfold check_date_validity. run_monad.
  destruct (List.filter (fun col => has_column col df) date_columns)
    as [|c found] eqn:Efound.
  - step_iadd. close_ok.
  - destruct (for_each_check_date_column (c :: found) [] df ctx)
      as (df' & Hsame & [(acc' & Hrun)|(e & Hrun)]).
    { intros c' Hc'. apply (found_date_columns_sub df). now rewrite Efound. }
    + rewrite Hrun. cbv beta iota.
      destruct acc'; repeat step_iadd.
      * eapply ok_returns_no_action;
          [exact Hsame | solve_lookup | solve_lookup | reflexivity].
      * eapply ok_returns;
          [exact Hsame | solve_lookup | solve_lookup | reflexivity].
    + rewrite Hrun. now apply ok_raises.
Qed.

Lemma spec_check_transaction_date_order :
  check_spec (Some 9) check_transaction_date_order.
Proof.
  intros df ctx b a Hb Ha. unfold check_transaction_date_order. run_monad.
  destruct (has_column "SCAN_DATE" df && has_column "PURCHASE_DATE" df);
    [|step_iadd; close_ok].
  destruct (dt_date df "SCAN_DATE") as [scan|e]; cbv beta iota; [|close_ok].
  destruct (dt_date df "PURCHASE_DATE") as [purchase|e]; cbv beta iota;
    [|close_ok].
  destruct (0 <? sum_true (dates_lt scan purchase))%nat;
    repeat step_iadd; close_ok.
Qed.

Lemma spec_check_customer_date_order :
  check_spec (Some 10) check_customer_date_order.
Proof.
  intros df ctx b a Hb Ha. unfold check_customer_date_order. run_monad.
  destruct (has_column "BIRTH_DATE" df && has_column "CREATED_DATE" df);
    [|step_iadd; close_ok].
  destruct (dt_date df "CREATED_DATE") as [created|e]; cbv beta iota; [|close_ok].
  destruct (dt_date df "BIRTH_DATE") as [birth|e]; cbv beta iota; [|close_ok].
  destruct (0 <? sum_true (dates_lt created birth))%nat;
    repeat step_iadd; close_ok.
Qed.

Lemma spec_check_data_consistency :
  check_spec (Some 11) (check_data_consistency rt).
Proof.
  intros df ctx b a Hb Ha. unfold check_data_consistency. run_monad.
  destruct (has_column "STATE" df && has_column "LANGUAGE" df
            && has_column "GENDER" df);
    [|step_iadd; close_ok].
  destruct (invalid_values rt df "STATE" valid_states) as [states|e];
    cbv beta iota; [|close_ok].
  destruct (invalid_values rt df "LANGUAGE" valid_languages) as [languages|e];
    cbv beta iota; [|close_ok].
  destruct (invalid_values rt df "GENDER" valid_genders) as [genders|e];
    cbv beta iota; [|close_ok].
  destruct (0 <? length states)%nat;
    destruct (0 <? length languages)%nat;
    destruct (0 <? length genders)%nat;
    repeat step_iadd; close_ok.
Qed.

Lemma spec_describe_data : check_spec (Some 12) (describe_data rt).
Proof.
  intros df ctx b a Hb Ha. unfold describe_data. run_monad.
  destruct (empty (select_number_dtypes df)); step_iadd; close_ok.
Qed.
End CheckSpecs.

(** ** The driver *)

Lemma table_check_steps_spec (rt : runtime) :
  Forall2 check_spec section_numbers (TABLE_CHECK_STEPS rt).
Proof.
  unfold section_numbers, TABLE_CHECK_STEPS.
  apply List.Forall2_cons; [exact spec_get_dataframe_shape|].
  apply List.Forall2_cons; [exact (spec_check_column_spaces rt)|].
  apply List.Forall2_cons; [exact (spec_check_duplicate_columns rt)|].
  apply List.Forall2_cons; [exact (spec_get_column_data_types rt)|].
  apply List.Forall2_cons; [exact (spec_find_potential_primary_key rt)|].
  apply List.Forall2_cons; [exact (spec_check_null_columns rt)|].
  apply List.Forall2_cons; [exact (spec_check_fully_duplicate_rows rt)|].
  apply List.Forall2_cons; [exact (spec_check_mixed_data_types rt)|].
  apply List.Forall2_cons; [exact (spec_check_date_validity rt)|].
  apply List.Forall2_cons; [exact spec_check_transaction_date_order|].
  apply List.Forall2_cons; [exact spec_check_customer_date_order|].
  apply List.Forall2_cons; [exact (spec_check_data_consistency rt)|].
  apply List.Forall2_cons; [exact (spec_describe_data rt)|].
  apply List.Forall2_nil.
Qed.

Lemma run_steps_spec (nums : list (option nat)) (steps : list (M unit)) :
  Forall2 check_spec nums steps ->
  forall df ctx b a,
    ctx !! "body" = Some b ->
    ctx !! "action_items" = Some a ->
    same_outside_dates df (frame (final_state (run_steps steps (State df ctx)))) /\
    forall u s', run_steps steps (State df ctx) = Returns u s' ->
      exists frags acts,
        context s' !! "body" = Some (b +:+ concat_fragments frags) /\
        context s' !! "action_items" = Some (a +:+ acts) /\
        map heading frags = nums.
Proof.
  induction 1 as [|num step nums steps Hstep _ IH]; intros df ctx b a Hb Ha.
  - simpl. split; [apply same_outside_dates_refl|].
    intros u s' E. inversion E; subst. exists [], "". simpl.
    now rewrite !append_nil_r.
  - cbn [run_steps]. unfold bind.
    destruct (Hstep df ctx b a Hb Ha) as [Hsame Hret].
    destruct (step (State df ctx)) as [u1 [df1 ctx1]|e [df1 ctx1]].
    + destruct (Hret u1 _ eq_refl) as (frag & acts & Hb1 & Ha1 & Hh).
      simpl in Hb1, Ha1, Hsame.
      destruct (IH df1 ctx1 _ _ Hb1 Ha1) as [Hsame' Hret'].
      split; [exact (same_outside_dates_trans _ _ _ Hsame Hsame')|].
      intros u s' E. destruct (Hret' u s' E) as (frags & acts' & Hb2 & Ha2 & Hhs).
      exists (frag :: frags), (acts +:+ acts'). simpl.
      rewrite <- !append_assoc. rewrite Hh, Hhs. auto.
    + split; [exact Hsame|]. intros u s' E. discriminate E.
Qed.

Lemma initial_context_body (df : DataFrame) :
  initial_context df !! "body"
  = Some ("Here is the result of the initial data check for of table '"
            +:+ df_name df +:+ "':" +:+ nl).
Proof. unfold initial_context. now rewrite lookup_insert_eq. Qed.

Lemma initial_context_action_items (df : DataFrame) :
  initial_context df !! "action_items" = Some ("Action required:" +:+ nl).
Proof.
  unfold initial_context. rewrite lookup_insert_ne by discriminate.
  now rewrite lookup_singleton_eq.
Qed.

Lemma initial_context_action (df : DataFrame) :
  initial_context df !! "action" = None.
Proof.
  unfold initial_context. rewrite lookup_insert_ne by discriminate.
  now rewrite lookup_singleton_ne by discriminate.
Qed.

(** What is known of any run of the driver. *)
Lemma print_summary_spec (rt : runtime) (df : DataFrame) :
  same_outside_dates df (frame (final_state (print_summary rt df))) /\
  forall report s', print_summary rt df = Returns report s' ->
    exists frags acts,
      report
      = render_report
          (("Here is the result of the initial data check for of table '"
              +:+ df_name df +:+ "':" +:+ nl) +:+ concat_fragments frags)
          (("Action required:" +:+ nl) +:+ acts) /\
      map heading frags = section_numbers.
Proof.
  destruct (run_steps_spec _ _ (table_check_steps_spec rt) df (initial_context df)
              _ _ (initial_context_body df) (initial_context_action_items df))
    as [Hsame Hret].
  unfold print_summary, bind.
  destruct (run_steps (TABLE_CHECK_STEPS rt) (State df (initial_context df)))
    as [u [df1 ctx1]|e [df1 ctx1]].
  - destruct (Hret u _ eq_refl) as (frags & acts & Hb & Ha & Hh).
    simpl in Hb, Ha, Hsame.
    unfold lookup_context, ret. simpl context.
    rewrite Hb. cbv beta iota. simpl context. rewrite Ha. cbv beta iota.
    split; [exact Hsame|].
    intros report s' E. inversion E; subst. exists frags, acts. auto.
  - split; [exact Hsame|]. intros report s' E. discriminate E.
Qed.

(** C3, as the code has it.  Whenever the driver returns a report, the
    report is the body followed by the action items in the fixed layout; the
    body is its header followed by thirteen fragments, one per check in
    order, of which twelve open the numbered sections 1 to 12 and one, the
    finding of the duplicate-columns check, is a further line of section 2
    without a number of its own. *)
Theorem report_layout_and_sections (rt : runtime) (df : DataFrame)
        (report : string) (s' : state) :
  print_summary rt df = Returns report s' ->
  exists frags acts,
    report
    = render_report
        (("Here is the result of the initial data check for of table '"
            +:+ df_name df +:+ "':" +:+ nl) +:+ concat_fragments frags)
        (("Action required:" +:+ nl) +:+ acts) /\
    length frags = 13 /\
    map heading frags
    = [Some 1; Some 2; None; Some 3; Some 4; Some 5; Some 6; Some 7; Some 8;
       Some 9; Some 10; Some 11; Some 12].
Proof.
  intros Hrun.
  destruct (proj2 (print_summary_spec rt df) report s' Hrun)
    as (frags & acts & Hreport & Hheadings).
  exists frags, acts. split; [exact Hreport|]. split; [|exact Hheadings].
  apply (f_equal (@length (option nat))) in Hheadings.
  now rewrite length_map in Hheadings.
Qed.

Lemma report_layout_and_sections_witness :
  exists report s',
    print_summary Sample.rt users_without_notes = Returns report s' /\
    exists frags acts,
      report
      = render_report
          (("Here is the result of the initial data check for of table '"
              +:+ df_name users_without_notes +:+ "':" +:+ nl)
             +:+ concat_fragments frags)
          (("Action required:" +:+ nl) +:+ acts) /\
      length frags = 13 /\
      map heading frags
      = [Some 1; Some 2; None; Some 3; Some 4; Some 5; Some 6; Some 7; Some 8;
         Some 9; Some 10; Some 11; Some 12].
Proof.
  destruct (print_summary Sample.rt users_without_notes) as [report s'|e s'] eqn:E.
  - exists report, s'. split; [reflexivity|].
    exact (report_layout_and_sections Sample.rt users_without_notes report s' E).
  - vm_compute in E. discriminate E.
Defined.

(** C3, as the specification words it, fails on a small user table: the
    driver returns a report whose body has twelve numbered lines, 1 to 12,
    not thirteen. *)
Lemma report_sections_counterexample :
  exists report s' body,
    print_summary Sample.rt users_without_notes = Returns report s' /\
    context s' !! "body" = Some body /\
    numbered_findings body = [1; 2; 3; 4; 5; 6; 7; 8; 9; 10; 11; 12] /\
    length (numbered_findings body) <> 13.
Proof.
  eexists. eexists. eexists.
  split; [vm_compute; reflexivity|].
  split; [vm_compute; reflexivity|].
  split; [vm_compute; reflexivity|].
  vm_compute. discriminate.
Qed.

Lemma Forall2_nth_error {A B : Type} (R : A -> B -> Prop) (l : list A)
      (l' : list B) (i : nat) (x : A) :
  Forall2 R l l' -> nth_error l i = Some x ->
  exists y, nth_error l' i = Some y /\ R x y.
Proof.
  intros H. revert i. induction H as [|a b l l' Hab _ IH]; intros [|i]; simpl;
    try discriminate.
  - intros E. inversion E; subst. eauto.
  - apply IH.
Qed.

(** C8. Whatever the table and however the run ends, the driver leaves the
    name, the number of rows and the labels of the frame as they were, and
    every column not labelled [PURCHASE_DATE], [SCAN_DATE], [CREATED_DATE]
    or [BIRTH_DATE] is, at the end, the column it was at the start. *)
Theorem pipeline_rewrites_date_columns_only (rt : runtime) (df : DataFrame) :
  let df' := frame (final_state (print_summary rt df)) in
  df_name df' = df_name df /\
  nrows df' = nrows df /\
  columns df' = columns df /\
  forall i k,
    nth_error (cols df) i = Some k ->
    ~ In (label k) ["PURCHASE_DATE"; "SCAN_DATE"; "CREATED_DATE"; "BIRTH_DATE"] ->
    nth_error (cols df') i = Some k.
Proof.
  intros df'.
  destruct (proj1 (print_summary_spec rt df)) as (Hname & Hrows & Hcols).
  fold df' in Hname, Hrows, Hcols.
  split; [exact Hname|]. split; [exact Hrows|]. split.
  - unfold columns. clear -Hcols.
    induction Hcols as [|k k' l l' [Hl _] _ IH]; simpl; [reflexivity|].
    now rewrite Hl, IH.
  - intros i k Hk Hnot.
    destruct (Forall2_nth_error _ _ _ i k Hcols Hk) as (k' & Hk' & _ & Hsame).
    rewrite Hk'. f_equal. exact (Hsame Hnot).
Qed.

(** The date-bearing columns are indeed rewritten: text becomes instants. *)
Example date_columns_are_normalised :
  cols (frame (final_state (print_summary Sample.rt signups)))
  = [ Column "ID" int64 [VInt 1; VInt 2];
      Column "CREATED_DATE" datetime64_utc [VTime 0; VNull NaT] ].
Proof. vm_compute. reflexivity. Qed.

(** ** Repeated column labels *)

Lemma select_duplicated_nil (l seen : list string) :
  select l (duplicated_from String.eqb seen l) = [] ->
  List.NoDup l /\ forall x, In x l -> ~ In x seen.
Proof.
  revert seen. induction l as [|x l IH]; intros seen; simpl.
  - intros _. split; [constructor | intros x []].
  - destruct (existsb (String.eqb x) seen) eqn:Ex; [discriminate|].
    intros Hsel. destruct (IH _ Hsel) as [Hnd Hfresh].
    assert (Hx : ~ In x seen).
    { intros Hin. rewrite <- not_true_iff_false in Ex. apply Ex.
      apply existsb_exists. exists x. split; [exact Hin | apply String.eqb_refl]. }
    split.
    + constructor; [|exact Hnd].
      intros Hin. apply (Hfresh x Hin). apply in_or_app. right. now left.
    + intros y [<-|Hy]; [exact Hx|].
      intros Hin. apply (Hfresh y Hy). apply in_or_app. now left.
Qed.

(** A label that occurs twice is reported by [df.columns.duplicated()]. *)
Lemma repeated_label_is_marked (df : DataFrame) :
  ~ List.NoDup (columns df) ->
  select (columns df) (duplicated String.eqb (columns df)) <> [].
Proof.
  intros Hdup Hsel. apply Hdup.
  exact (proj1 (select_duplicated_nil _ _ Hsel)).
Qed.

Lemma get_dataframe_shape_returns (df : DataFrame) (ctx : gmap string string)
      (b : string) :
  ctx !! "body" = Some b ->
  exists b',
    get_dataframe_shape (State df ctx) = Returns tt (State df (<["body" := b']> ctx)).
Proof.
  intros Hb. unfold get_dataframe_shape, shape. run_monad.
  rewrite (iadd_present _ _ b) by exact Hb. eauto.
Qed.

Lemma check_column_spaces_returns (rt : runtime) (df : DataFrame)
      (ctx : gmap string string) (b a : string) :
  ctx !! "body" = Some b ->
  ctx !! "action_items" = Some a ->
  ctx !! "action" = None ->
  exists ctx',
    check_column_spaces rt (State df ctx) = Returns tt (State df ctx') /\
    is_Some (ctx' !! "body") /\ ctx' !! "action" = None.
Proof.
  intros Hb Ha Hno. unfold check_column_spaces. run_monad.
  destruct (List.filter (contains_char " ") (columns df)).
  - rewrite (iadd_present _ _ b) by exact Hb.
    eexists. split; [reflexivity|]. split.
    + rewrite lookup_insert_eq. eauto.
    + rewrite lookup_insert_ne by discriminate. exact Hno.
  - rewrite (iadd_present _ _ a) by exact Ha. cbv beta iota.
    rewrite (iadd_present _ _ b)
      by (rewrite lookup_insert_ne by discriminate; exact Hb).
    eexists. split; [reflexivity|]. split.
    + rewrite lookup_insert_eq. eauto.
    + rewrite !lookup_insert_ne by discriminate. exact Hno.
Qed.

Lemma check_duplicate_columns_raises (rt : runtime) (df : DataFrame)
      (ctx : gmap string string) :
  ~ List.NoDup (columns df) ->
  ctx !! "action" = None ->
  check_duplicate_columns rt (State df ctx)
  = Raises (KeyError "action") (State df ctx).
Proof.
  intros Hdup Hno. unfold check_duplicate_columns. run_monad.
  pose proof (repeated_label_is_marked df Hdup) as Hmarked.
  destruct (select (columns df) (duplicated String.eqb (columns df)));
    [contradiction|].
  now rewrite (iadd_absent _ _ _ _ Hno).
Qed.

(** On every table with a repeated label the driver stops in the third
    check with [KeyError: 'action'] and returns no report. *)
Lemma repeated_labels_abort_the_run (rt : runtime) (df : DataFrame) :
  ~ List.NoDup (columns df) ->
  exists s, print_summary rt df = Raises (KeyError "action") s.
Proof.
  intros Hdup. unfold print_summary, TABLE_CHECK_STEPS. cbn [run_steps].
  destruct (get_dataframe_shape_returns df (initial_context df) _
              (initial_context_body df)) as (b1 & H1).
  assert (Ha1 : <["body" := b1]> (initial_context df) !! "action_items"
                = Some ("Action required:" +:+ nl)).
  { rewrite lookup_insert_ne by discriminate. apply initial_context_action_items. }
  assert (Hn1 : <["body" := b1]> (initial_context df) !! "action" = None).
  { rewrite lookup_insert_ne by discriminate. apply initial_context_action. }
  destruct (check_column_spaces_returns rt df _ b1 _
              (lookup_insert_eq _ _ _) Ha1 Hn1) as (ctx2 & H2 & _ & Hn2).
  pose proof (check_duplicate_columns_raises rt df ctx2 Hdup Hn2) as H3.
  exists (State df ctx2).
  unfold bind at 1. unfold bind at 1. rewrite H1.
  unfold bind at 1. rewrite H2.
  unfold bind at 1. now rewrite H3.
Qed.

(** C2 fails on the code.  On a table with the label [A] twice the driver
    does not complete: the duplicate-columns check raises [KeyError] for the
    key [action], which the context never holds; nothing has been appended to
    [action_items], and the body stops after section 2. *)
Theorem repeated_label_raises_key_error :
  exists s,
    print_summary Sample.rt repeated_label = Raises (KeyError "action") s /\
    frame s = repeated_label /\
    context s !! "action" = None /\
    context s !! "action_items" = Some ("Action required:" +:+ nl) /\
    option_map numbered_findings (context s !! "body") = Some [1; 2].
Proof.
  eexists. split; [vm_compute; reflexivity|].
  split; [reflexivity|]. split; [reflexivity|]. split; reflexivity.
Qed.

(** * Further properties of the checks *)

(** ** Column names *)

Lemma contains_char_spec (c : ascii) (s : string) :
  contains_char c s = true <-> exists pre post, s = pre +:+ String c post.
Proof.
  split.
  - induction s as [|a s IH]; simpl; [discriminate|].
    destruct (Ascii.eqb a c) eqn:E.
    + intros _. apply Ascii.eqb_eq in E. subst. exists "", s. reflexivity.
    + intros H. destruct (IH H) as (pre & post & ->).
      exists (String a pre), post. reflexivity.
  - intros (pre & post & ->). induction pre as [|a pre IH].
    + change (contains_char c (String c post) = true). simpl.
      now rewrite Ascii.eqb_refl.
    + change (contains_char c (String a (pre +:+ String c post)) = true).
      simpl. destruct (Ascii.eqb a c); [reflexivity | exact IH].
Qed.

Lemma kept_filter {A : Type} (P : A -> Prop) (keep : A -> bool) (l : list A) :
  (forall x, keep x = true <-> P x) -> kept P l (List.filter keep l).
Proof.
  intros H. induction l as [|x l IH]; simpl; [constructor|].
  destruct (keep x) eqn:E.
  - apply kept_keep; [now apply H | exact IH].
  - apply kept_drop; [|exact IH]. intros Hx. apply H in Hx. congruence.
Qed.

Lemma kept_unique {A : Type} (P : A -> Prop) (l l1 l2 : list A) :
  kept P l l1 -> kept P l l2 -> l1 = l2.
Proof.
  intros H1. revert l2.
  induction H1 as [|x l l1 Hx _ IH|x l l1 Hx _ IH]; intros l2 H2;
    inversion H2; subst; try contradiction.
  - reflexivity.
  - f_equal. now apply IH.
  - now apply IH.
Qed.

(** X1. The column-spacing check flags the labels with a space in them,
    wherever the space stands: its list is the list of the column labels
    with the others left out, so in the order of the columns and as often as
    a label occurs.  It returns on every table; it appends one action when a
    label is flagged and none otherwise, and leaves the frame alone. *)
Theorem check_column_spaces_flags (rt : runtime) (df : DataFrame)
        (ctx : gmap string string) (b a : string) :
  ctx !! "body" = Some b ->
  ctx !! "action_items" = Some a ->
  exists flagged,
    kept (fun c => exists pre post, c = pre +:+ String " " post)
         (columns df) flagged /\
    (forall c, In c flagged
               <-> In c (columns df) /\ exists pre post, c = pre +:+ String " " post) /\
    check_column_spaces rt (State df ctx)
    = Returns tt
        (State df
           (match flagged with
            | [] => <["body" := b +:+ section2 "No column names have extra spaces."]> ctx
            | _ :: _ =>
                <["body" :=
                    b +:+ section2 ("Columns with spaces: " +:+ repr_labels rt flagged)]>
                  (<["action_items" :=
                       a +:+ "    - Column name cleanup: Remove leading/trailing spaces in columns, or replace inner spaces with underscores (`_`) in the column "
                         +:+ repr_labels rt flagged +:+ "." +:+ nl]> ctx)
            end)).
Proof.
  intros Hb Ha.
  exists (List.filter (contains_char " ") (columns df)). split; [|split].
  - apply kept_filter. intros c. apply contains_char_spec.
  - intros c. rewrite filter_In, contains_char_spec. reflexivity.
  - unfold check_column_spaces. run_monad.
    destruct (List.filter (contains_char " ") (columns df)) as [|c flagged].
    + now rewrite (iadd_present _ _ b).
    + rewrite (iadd_present _ _ a) by exact Ha.
      rewrite (iadd_present _ _ b); [reflexivity|].
      rewrite lookup_insert_ne; [exact Hb | discriminate].
Qed.

Lemma check_column_spaces_flags_witness :
  check_column_spaces Sample.rt (State spaced_labels (initial_context spaced_labels))
  = Returns tt
      (State spaced_labels
         (<["body" :=
             ("Here is the result of the initial data check for of table 'orders':" +:+ nl)
               +:+ section2 ("Columns with spaces: "
                               +:+ repr_labels Sample.rt ["UNIT PRICE"; "SHIP TO"])]>
            (<["action_items" :=
                 ("Action required:" +:+ nl)
                   +:+ "    - Column name cleanup: Remove leading/trailing spaces in columns, or replace inner spaces with underscores (`_`) in the column "
                   +:+ repr_labels Sample.rt ["UNIT PRICE"; "SHIP TO"] +:+ "." +:+ nl]>
               (initial_context spaced_labels)))).
Proof.
  destruct (check_column_spaces_flags Sample.rt spaced_labels
              (initial_context spaced_labels) _ _ eq_refl eq_refl)
    as (flagged & Hkept & _ & Hrun).
  assert (Hflagged : flagged = ["UNIT PRICE"; "SHIP TO"]).
  { apply (kept_unique _ _ _ _ Hkept).
    apply kept_drop.
    { intros (pre & post & Heq).
      destruct pre as [|p1 [|p2 [|p3 pre]]]; discriminate Heq. }
    apply kept_keep; [exists "UNIT", "PRICE"; reflexivity|].
    apply kept_drop.
    { intros (pre & post & Heq).
      destruct pre as [|p1 [|p2 [|p3 [|p4 pre]]]]; discriminate Heq. }
    apply kept_keep; [exists "SHIP", "TO"; reflexivity|].
    apply kept_nil. }
  rewrite Hrun, Hflagged. reflexivity.
Defined.

(** The labels [df.columns[df.columns.duplicated()]] gives: a label is
    there once for each of its occurrences after the first. *)
Lemma select_duplicated_from_in (l seen : list string) (c : string) :
  In c (select l (duplicated_from String.eqb seen l))
  <-> exists l1 l2, l = l1 ++ c :: l2 /\ (In c seen \/ In c l1).
Proof.
  revert seen. induction l as [|x l IH]; intros seen; simpl.
  - split; [intros [] | intros (l1 & l2 & H & _); destruct l1; discriminate H].
  - assert (Htail : In c (select l (duplicated_from String.eqb (seen ++ [x]) l))
                    <-> exists l1 l2, x :: l = l1 ++ c :: l2 /\
                                      (In c seen \/ In c l1) /\ l1 <> []).
    { rewrite IH. split.
      - intros (l1 & l2 & -> & Hor). exists (x :: l1), l2.
        split; [reflexivity|]. split; [|discriminate].
        destruct Hor as [Hs|Hl]; [|right; now right].
        apply in_app_or in Hs. destruct Hs as [Hs|[<-|[]]]; [now left|].
        right. now left.
      - intros (l1 & l2 & Heq & Hor & Hne).
        destruct l1 as [|y l1]; [contradiction|].
        inversion Heq; subst. exists l1, l2. split; [reflexivity|].
        destruct Hor as [Hs|[<-|Hl]].
        + left. apply in_or_app. now left.
        + left. apply in_or_app. right. now left.
        + now right. }
    destruct (existsb (String.eqb x) seen) eqn:Ex.
    + simpl. rewrite Htail. split.
      * intros [<-|(l1 & l2 & Heq & Hor & _)].
        -- exists [], l. split; [reflexivity|]. left.
           apply existsb_exists in Ex. destruct Ex as (y & Hy & Exy).
           apply String.eqb_eq in Exy. now subst.
        -- eauto.
      * intros (l1 & l2 & Heq & Hor).
        destruct l1 as [|y l1].
        -- inversion Heq; subst. now left.
        -- right. exists (y :: l1), l2. split; [exact Heq|]. split; [exact Hor | discriminate].
    + rewrite Htail. split.
      * intros (l1 & l2 & Heq & Hor & _). eauto.
      * intros (l1 & l2 & Heq & Hor).
        destruct l1 as [|y l1].
        -- inversion Heq; subst. destruct Hor as [Hs|[]].
           rewrite <- not_true_iff_false in Ex. exfalso. apply Ex.
           apply existsb_exists. exists c. split; [exact Hs | apply String.eqb_refl].
        -- exists (y :: l1), l2. split; [exact Heq|]. split; [exact Hor | discriminate].
Qed.

Lemma select_duplicated_from_repeated (seen l : list string) :
  select l (duplicated_from String.eqb seen l) = repeated_entries seen l.
Proof.
  revert seen. induction l as [|x l IH]; intros seen; [reflexivity|].
  cbn [duplicated_from select repeated_entries]. rewrite IH.
  now destruct (existsb (String.eqb x) seen).
Qed.

(** A label is among the repeated entries once for each of its occurrences
    that stands after an equal one. *)
Lemma count_repeated_entries (seen l : list string) (c : string) :
  count_occ string_dec (repeated_entries seen l) c
  = if existsb (String.eqb c) seen then count_occ string_dec l c
    else count_occ string_dec l c - 1.
Proof.
  revert seen. induction l as [|x l IH]; intros seen.
  - simpl. now destruct (existsb (String.eqb c) seen).
  - cbn [repeated_entries]. rewrite count_occ_app, IH.
    rewrite existsb_app. cbn [existsb]. rewrite orb_false_r.
    cbn [count_occ].
    destruct (string_dec x c) as [->|Hne].
    + rewrite String.eqb_refl, orb_true_r.
      destruct (existsb (String.eqb c) seen); simpl.
      * destruct (string_dec c c); [lia | contradiction].
      * lia.
    + assert (E : String.eqb c x = false) by (apply String.eqb_neq; congruence).
      rewrite E, orb_false_r.
      assert (Hnone : count_occ string_dec
                        (if existsb (String.eqb x) seen then [x] else []) c = 0).
      { destruct (existsb (String.eqb x) seen); simpl; [|reflexivity].
        destruct (string_dec x c); [contradiction | reflexivity]. }
      rewrite Hnone. reflexivity.
Qed.

(** X2. The duplicate-columns check reports a label once for each of its
    occurrences after the first, in the order of those occurrences; it
    reports nothing exactly when the labels are distinct, and then it returns
    with the finding "No duplicate column names." and touches neither the
    action items nor the frame.  When a label repeats it looks for the key
    "action": it raises [KeyError] with nothing written when the dictionary
    has no such key, and otherwise writes its action there and the labels it
    reports to the body. *)
Theorem check_duplicate_columns_distinct (rt : runtime) (df : DataFrame)
        (ctx : gmap string string) (b : string) :
  ctx !! "body" = Some b ->
  let reported := repeated_entries [] (columns df) in
  (forall c, count_occ string_dec reported c
             = count_occ string_dec (columns df) c - 1) /\
  (forall c, In c reported
             <-> exists l1 l2, columns df = l1 ++ c :: l2 /\ In c l1) /\
  (reported = [] <-> List.NoDup (columns df)) /\
  (List.NoDup (columns df) ->
   check_duplicate_columns rt (State df ctx)
   = Returns tt
       (State df (<["body" := b +:+ ("   - " +:+ "No duplicate column names." +:+ nl)]> ctx))) /\
  (~ List.NoDup (columns df) -> ctx !! "action" = None ->
   check_duplicate_columns rt (State df ctx)
   = Raises (KeyError "action") (State df ctx)) /\
  (~ List.NoDup (columns df) ->
   forall old, ctx !! "action" = Some old ->
   check_duplicate_columns rt (State df ctx)
   = Returns tt
       (State df
          (<["body" :=
              b +:+ ("   - " +:+ ("Duplicate column names found: "
                                    +:+ repr_labels rt reported) +:+ nl)]>
             (<["action" :=
                  old +:+ ("    - Resolve duplicate columns: Consider to rename or remove duplicate column names "
                             +:+ repr_labels rt reported
                             +:+ " to maintain data integrity." +:+ nl)]> ctx)))).
Proof.
  intros Hb reported.
  assert (Hsel : select (columns df) (duplicated String.eqb (columns df)) = reported).
  { apply select_duplicated_from_repeated. }
  assert (Hin : forall c, In c reported
                          <-> exists l1 l2, columns df = l1 ++ c :: l2 /\ In c l1).
  { intros c. rewrite <- Hsel. unfold duplicated. rewrite select_duplicated_from_in.
    split; intros (l1 & l2 & Heq & H); exists l1, l2; (split; [exact Heq|]).
    - destruct H as [[]|H]; exact H.
    - now right. }
  assert (Hnil : reported = [] <-> List.NoDup (columns df)).
  { split.
    - intros H. rewrite <- Hsel in H. exact (proj1 (select_duplicated_nil _ _ H)).
    - intros Hnd. destruct reported as [|c rest] eqn:E; [reflexivity|].
      destruct (proj1 (Hin c) (or_introl eq_refl)) as (l1 & l2 & Heq & Hl1).
      rewrite Heq in Hnd. apply NoDup_remove_2 in Hnd.
      exfalso. apply Hnd. apply in_or_app. now left. }
  split; [intros c; apply (count_repeated_entries [] (columns df) c)|].
  split; [exact Hin|]. split; [exact Hnil|].
  split; [|split].
  - intros Hnd. unfold check_duplicate_columns. run_monad.
    rewrite Hsel, (proj2 Hnil Hnd).
    now rewrite (iadd_present _ _ b).
  - intros Hdup Hnone. unfold check_duplicate_columns. run_monad.
    rewrite Hsel. destruct reported as [|c rest]; [exfalso; tauto|].
    now rewrite (iadd_absent _ _ _ _ Hnone).
  - intros Hdup old Hold. unfold check_duplicate_columns. run_monad.
    rewrite Hsel. destruct reported as [|c rest]; [exfalso; tauto|].
    rewrite (iadd_present _ _ old) by exact Hold.
    rewrite (iadd_present _ _ b); [reflexivity|].
    rewrite lookup_insert_ne; [exact Hb | discriminate].
Qed.

Lemma check_duplicate_columns_distinct_witness :
  repeated_entries [] (columns twice_repeated) = ["A"; "B"; "A"] /\
  check_duplicate_columns Sample.rt
    (State twice_repeated (initial_context twice_repeated))
  = Raises (KeyError "action")
      (State twice_repeated (initial_context twice_repeated)) /\
  check_duplicate_columns Sample.rt
    (State twice_repeated (<["action" := "Actions:"]> (initial_context twice_repeated)))
  = Returns tt
      (State twice_repeated
         (<["body" :=
             ("Here is the result of the initial data check for of table 'orders':" +:+ nl)
               +:+ ("   - " +:+ ("Duplicate column names found: "
                                   +:+ repr_labels Sample.rt ["A"; "B"; "A"]) +:+ nl)]>
            (<["action" :=
                 "Actions:" +:+ ("    - Resolve duplicate columns: Consider to rename or remove duplicate column names "
                                   +:+ repr_labels Sample.rt ["A"; "B"; "A"]
                                   +:+ " to maintain data integrity." +:+ nl)]>
               (<["action" := "Actions:"]> (initial_context twice_repeated))))).
Proof.
  assert (Hdup : ~ List.NoDup (columns twice_repeated)).
  { intros Hnd. apply distinct_nodup in Hnd. discriminate Hnd. }
  split; [reflexivity|]. split.
  - exact (proj1 (proj2 (proj2 (proj2 (proj2
             (check_duplicate_columns_distinct Sample.rt twice_repeated
                (initial_context twice_repeated) _ eq_refl))))) Hdup eq_refl).
  - exact (proj2 (proj2 (proj2 (proj2 (proj2
             (check_duplicate_columns_distinct Sample.rt twice_repeated
                (<["action" := "Actions:"]> (initial_context twice_repeated))
                _ eq_refl))))) Hdup _ eq_refl).
Defined.

(** ** The per-column summary *)

Lemma strongly_sorted_impl {A : Type} (R S : A -> A -> Prop) (l : list A) :
  (forall x y, R x y -> S x y) -> StronglySorted R l -> StronglySorted S l.
Proof.
  intros HRS. induction 1 as [|x l _ IH Hx]; constructor; [exact IH|].
  rewrite List.Forall_forall in *. auto.
Qed.

(** X3. The summary built by [_get_column_data_types] has one line per
    column, carrying that column's label, dtype, count of missing values and
    count of distinct values, and the lines stand in descending order of the
    count of missing values. *)
Theorem column_summary_sorted (df : DataFrame) :
  Permutation (_get_column_data_types df) (map summary_row (cols df)) /\
  length (_get_column_data_types df) = length (cols df) /\
  StronglySorted (fun r r' => row_nulls r' <= row_nulls r)
                 (_get_column_data_types df).
Proof.
  pose proof (_get_column_data_types_perm df) as Hperm.
  split; [exact Hperm|]. split.
  - rewrite (Permutation_length Hperm). apply length_map.
  - unfold _get_column_data_types.
    apply (strongly_sorted_impl
             (fun r r' => (row_nulls r' <=? row_nulls r)%nat = true)).
    + intros r r' H. now apply Nat.leb_le.
    + apply sort_by_sorted.
      * intros x y H. apply Nat.leb_le. apply Nat.leb_gt in H. lia.
      * intros x y z H1 H2. apply Nat.leb_le in H1, H2. apply Nat.leb_le. lia.
Qed.

(** ** Looking a label up *)

Lemma has_column_In (c : string) (df : DataFrame) :
  has_column c df = true <-> In c (columns df).
Proof.
  unfold has_column. rewrite existsb_exists. split.
  - intros (x & Hx & E). apply String.eqb_eq in E. now subst.
  - intros H. exists c. split; [exact H | apply String.eqb_refl].
Qed.

Lemma labelled_In (df : DataFrame) (c : string) (k : column) :
  In k (labelled df c) -> In c (columns df).
Proof.
  unfold labelled, columns. intros H. apply filter_In in H.
  destruct H as [Hin E]. apply String.eqb_eq in E. subst c.
  now apply in_map.
Qed.

Lemma getitem_has_column (df : DataFrame) (c : string) (selected : selection) :
  getitem df c = Ok selected -> has_column c df = true.
Proof.
  unfold getitem. intros H. apply has_column_In.
  destruct (labelled df c) as [|k ks] eqn:E; [discriminate|].
  apply (labelled_In df c k). rewrite E. now left.
Qed.

Lemma getitem_absent (df : DataFrame) (c : string) :
  has_column c df = false -> getitem df c = Err (KeyError c).
Proof.
  intros H. unfold getitem.
  destruct (labelled df c) as [|k ks] eqn:E; [reflexivity|].
  assert (Hin : has_column c df = true).
  { apply has_column_In, (labelled_In df c k). rewrite E. now left. }
  congruence.
Qed.

(** ** The date-order checks *)

Lemma dt_date_series (df : DataFrame) (c : string) (k : column) :
  getitem df c = Ok (Series k) ->
  col_dtype k = datetime64_utc ->
  dt_date df c = Ok (map day_of (cells k)).
Proof.
  intros Hsel Hdt. unfold dt_date. rewrite Hsel, Hdt. reflexivity.
Qed.

Lemma dt_date_not_datetime (df : DataFrame) (c : string) (k : column) :
  getitem df c = Ok (Series k) ->
  col_dtype k <> datetime64_utc ->
  dt_date df c = Err AttributeError.
Proof.
  intros Hsel Hdt. unfold dt_date. rewrite Hsel.
  destruct (col_dtype k); try reflexivity. contradiction.
Qed.

Lemma sum_true_dates_lt (first second : list value) :
  sum_true (dates_lt (map day_of first) (map day_of second))
  = rows_out_of_order first second.
Proof.
  unfold sum_true, rows_out_of_order.
  revert second. induction first as [|x first IH]; intros [|y second];
    try reflexivity.
  simpl. unfold on_earlier_day at 1. simpl.
  destruct (day_of x) as [d|], (day_of y) as [e|]; simpl;
    try destruct (d <? e)%Z; simpl; now rewrite IH.
Qed.

(** Instants of one day are never out of order, whatever the hour. *)
Lemma same_day_in_order (t u : Z) :
  (t / ns_per_day = u / ns_per_day)%Z ->
  on_earlier_day (VTime t) (VTime u) = false.
Proof.
  intros H. unfold on_earlier_day. simpl. rewrite H. apply Z.ltb_irrefl.
Qed.

Ltac date_order_absent check :=
  unfold check; run_monad;
  match goal with H : _ = false |- _ => rewrite H end;
  now erewrite iadd_present by eassumption.

Ltac date_order_counted check Hsel1 Hsel2 Hdt1 Hdt2 :=
  unfold check; run_monad;
  rewrite (getitem_has_column _ _ _ Hsel1), (getitem_has_column _ _ _ Hsel2);
  cbv beta iota delta [andb];
  rewrite (dt_date_series _ _ _ Hsel1 Hdt1), (dt_date_series _ _ _ Hsel2 Hdt2);
  cbv beta iota; rewrite sum_true_dates_lt;
  match goal with |- context [rows_out_of_order ?x ?y] =>
    destruct (rows_out_of_order x y) eqn:?
  end;
  [ change (0 <? 0)%nat with false
  | match goal with |- context [(0 <? S ?n)%nat] =>
      change (0 <? S n)%nat with true
    end ];
  cbv beta iota; repeat step_iadd;
  unfold section9, section10; rewrite ?append_assoc; reflexivity.

(** X4. The scan-before-purchase check compares calendar days, not
    instants.  With either column absent it only notes "No related columns
    found."  With both columns holding datetimes it counts the rows in which
    both values are present and the scan falls on an earlier day than the
    purchase; it adds an action exactly when that count is positive.  A
    [SCAN_DATE] column that does not hold datetimes makes it raise
    [AttributeError] with nothing written. *)
Theorem transaction_date_order_by_day (df : DataFrame)
        (ctx : gmap string string) (b a : string) :
  ctx !! "body" = Some b ->
  ctx !! "action_items" = Some a ->
  (has_column "SCAN_DATE" df && has_column "PURCHASE_DATE" df = false ->
   check_transaction_date_order (State df ctx)
   = Returns tt (State df (<["body" := b +:+ section9 "No related columns found."]> ctx)))
  /\
  (forall scan purchase,
      getitem df "SCAN_DATE" = Ok (Series scan) ->
      getitem df "PURCHASE_DATE" = Ok (Series purchase) ->
      col_dtype scan = datetime64_utc ->
      col_dtype purchase = datetime64_utc ->
      check_transaction_date_order (State df ctx)
      = Returns tt
          (State df
             (match rows_out_of_order (cells scan) (cells purchase) with
              | 0 =>
                  <["body" :=
                      b +:+ section9 "All 'scan_date' entries are after 'purchase_date'."]> ctx
              | S _ as n =>
                  <["body" :=
                      b +:+ section9 ("There are " +:+ pretty n
                                      +:+ " rows where 'scan_date' is before 'purchase_date'.")]>
                    (<["action_items" :=
                         a +:+ "    - Correct date order: 'scan_date' should be after 'purchase_date'. Found invalid entries in "
                           +:+ pretty n +:+ " rows." +:+ nl]> ctx)
              end)))
  /\
  (forall scan,
      getitem df "SCAN_DATE" = Ok (Series scan) ->
      has_column "PURCHASE_DATE" df = true ->
      col_dtype scan <> datetime64_utc ->
      check_transaction_date_order (State df ctx)
      = Raises AttributeError (State df ctx)).
Proof.
  intros Hb Ha. split; [|split].
  - intros Habsent. date_order_absent check_transaction_date_order.
  - intros scan purchase Hs Hp Hds Hdp.
    date_order_counted check_transaction_date_order Hs Hp Hds Hdp.
  - intros scan Hs Hp Hds. unfold check_transaction_date_order. run_monad.
    rewrite (getitem_has_column _ _ _ Hs), Hp. cbv beta iota delta [andb].
    now rewrite (dt_date_not_datetime _ _ _ Hs Hds).
Qed.

Lemma transaction_date_order_by_day_witness :
  rows_out_of_order
    [VTime 1704067200000000000; VTime 1703980800000000000; VTime 1704067200000000000]
    [VTime 1704070800000000000; VTime 1704067200000000000; VNull NaT] = 1 /\
  exists ctx',
    check_transaction_date_order (State scans (initial_context scans))
    = Returns tt (State scans ctx') /\
    ctx' !! "action_items"
    = Some ("Action required:" +:+ nl +:+
            "    - Correct date order: 'scan_date' should be after 'purchase_date'. Found invalid entries in 1 rows."
            +:+ nl).
Proof.
  split; [reflexivity|].
  destruct (transaction_date_order_by_day scans (initial_context scans)
              _ _ eq_refl eq_refl) as (_ & Hcount & _).
  eexists. split.
  - exact (Hcount _ _ eq_refl eq_refl eq_refl eq_refl).
  - vm_compute. reflexivity.
Defined.

(** X5. The created-before-birth check works the same way on
    [CREATED_DATE] and [BIRTH_DATE]: calendar days are compared, rows with a
    missing date are not counted, an action is added exactly when some row is
    counted, absent columns give "No related columns found.", and a
    [CREATED_DATE] column that does not hold datetimes raises
    [AttributeError] with nothing written. *)
Theorem customer_date_order_by_day (df : DataFrame)
        (ctx : gmap string string) (b a : string) :
  ctx !! "body" = Some b ->
  ctx !! "action_items" = Some a ->
  (has_column "BIRTH_DATE" df && has_column "CREATED_DATE" df = false ->
   check_customer_date_order (State df ctx)
   = Returns tt (State df (<["body" := b +:+ section10 "No related columns found."]> ctx)))
  /\
  (forall birth created,
      getitem df "BIRTH_DATE" = Ok (Series birth) ->
      getitem df "CREATED_DATE" = Ok (Series created) ->
      col_dtype birth = datetime64_utc ->
      col_dtype created = datetime64_utc ->
      check_customer_date_order (State df ctx)
      = Returns tt
          (State df
             (match rows_out_of_order (cells created) (cells birth) with
              | 0 =>
                  <["body" :=
                      b +:+ section10 "All 'created_date' entries are after 'birth_date'."]> ctx
              | S _ as n =>
                  <["body" :=
                      b +:+ section10 ("There are " +:+ pretty n
                                       +:+ " rows where 'created_date' is before 'birth_date'.")]>
                    (<["action_items" :=
                         a +:+ "    - Correct date order: 'created_date' should be after 'birth_date'. Found invalid entries in "
                           +:+ pretty n +:+ " rows." +:+ nl]> ctx)
              end)))
  /\
  (forall created,
      getitem df "CREATED_DATE" = Ok (Series created) ->
      has_column "BIRTH_DATE" df = true ->
      col_dtype created <> datetime64_utc ->
      check_customer_date_order (State df ctx)
      = Raises AttributeError (State df ctx)).
Proof.
  intros Hb Ha. split; [|split].
  - intros Habsent. date_order_absent check_customer_date_order.
  - intros birth created Hbi Hcr Hdb Hdc.
    date_order_counted check_customer_date_order Hbi Hcr Hdb Hdc.
  - intros created Hcr Hbi Hdc. unfold check_customer_date_order. run_monad.
    rewrite (getitem_has_column _ _ _ Hcr), Hbi. cbv beta iota delta [andb].
    now rewrite (dt_date_not_datetime _ _ _ Hcr Hdc).
Qed.

Lemma customer_date_order_by_day_witness :
  exists ctx',
    check_customer_date_order (State accounts (initial_context accounts))
    = Returns tt (State accounts ctx') /\
    ctx' !! "action_items"
    = Some ("Action required:" +:+ nl +:+
            "    - Correct date order: 'created_date' should be after 'birth_date'. Found invalid entries in 1 rows."
            +:+ nl).
Proof.
  destruct (customer_date_order_by_day accounts (initial_context accounts)
              _ _ eq_refl eq_refl) as (_ & Hcount & _).
  eexists. split.
  - exact (Hcount _ _ eq_refl eq_refl eq_refl eq_refl).
  - vm_compute. reflexivity.
Defined.

(** ** The dictionary only grows *)

Lemma extends_refl (ctx : gmap string string) : extends ctx ctx.
Proof.
  intros key. destruct (ctx !! key) as [old|] eqn:E; [|reflexivity].
  exists "". now rewrite append_nil_r.
Qed.

Lemma extends_trans (c1 c2 c3 : gmap string string) :
  extends c1 c2 -> extends c2 c3 -> extends c1 c3.
Proof.
  intros H12 H23 key. specialize (H12 key). specialize (H23 key).
  destruct (c1 !! key) as [old|].
  - destruct H12 as (added & E2). rewrite E2 in H23.
    destruct H23 as (added' & E3). exists (added +:+ added').
    now rewrite <- append_assoc.
  - now rewrite H12 in H23.
Qed.

Lemma extends_insert (ctx : gmap string string) (key old text : string) :
  ctx !! key = Some old -> extends ctx (<[key := old +:+ text]> ctx).
Proof.
  intros Hold k. destruct (String.eqb key k) eqn:E.
  - apply String.eqb_eq in E. subst k. rewrite Hold.
    exists text. now rewrite lookup_insert_eq.
  - apply String.eqb_neq in E. rewrite lookup_insert_ne by exact E.
    apply extends_refl.
Qed.

Lemma append_only_ret {A : Type} (x : A) : append_only (ret x).
Proof. intros s. apply extends_refl. Qed.

Lemma append_only_raise {A : Type} (e : exn) : append_only (@raise A e).
Proof. intros s. apply extends_refl. Qed.

Lemma append_only_lift {A : Type} (r : result A) : append_only (lift r).
Proof. destruct r; [apply append_only_ret | apply append_only_raise]. Qed.

Lemma append_only_get_frame : append_only get_frame.
Proof. intros s. apply extends_refl. Qed.

Lemma append_only_put_frame (df : DataFrame) : append_only (put_frame df).
Proof. intros s. apply extends_refl. Qed.

Lemma append_only_lookup_context (key : string) : append_only (lookup_context key).
Proof.
  intros s. unfold lookup_context.
  destruct (context s !! key); apply extends_refl.
Qed.

Lemma append_only_iadd (key text : string) : append_only (iadd key text).
Proof.
  intros s. unfold iadd. destruct (context s !! key) as [old|] eqn:E.
  - now apply extends_insert.
  - apply extends_refl.
Qed.

Lemma append_only_bind {A B : Type} (m : M A) (k : A -> M B) :
  append_only m -> (forall x, append_only (k x)) -> append_only (bind m k).
Proof.
  intros Hm Hk s. unfold bind. specialize (Hm s).
  destruct (m s) as [x s1|e s1]; [|exact Hm].
  exact (extends_trans _ _ _ Hm (Hk x s1)).
Qed.

Lemma append_only_for_each {A B : Type} (f : A -> B -> M B) (l : list A) (acc : B) :
  (forall x y, append_only (f x y)) -> append_only (for_each f l acc).
Proof.
  intros Hf. revert acc. induction l as [|x l IH]; intros acc.
  - apply append_only_ret.
  - cbn [for_each]. apply append_only_bind; [apply Hf | exact IH].
Qed.

Lemma append_only_run_steps (steps : list (M unit)) :
  Forall append_only steps -> append_only (run_steps steps).
Proof.
  induction 1 as [|step steps Hstep _ IH].
  - apply append_only_ret.
  - cbn [run_steps]. apply append_only_bind; [exact Hstep | intros _; exact IH].
Qed.

Ltac grow_step :=
  lazymatch goal with
  | |- append_only (bind _ _) => apply append_only_bind; [|intros ?]
  | |- append_only (iadd _ _) => apply append_only_iadd
  | |- append_only (ret _) => apply append_only_ret
  | |- append_only (lift _) => apply append_only_lift
  | |- append_only get_frame => apply append_only_get_frame
  | |- append_only (put_frame _) => apply append_only_put_frame
  | |- append_only (for_each _ _ _) => apply append_only_for_each; intros ? ?
  | |- append_only (match ?x with _ => _ end) => destruct x
  | |- append_only (let _ := _ in _) => cbv zeta
  | |- append_only ((fun _ => _) _) => cbv beta
  end.

Ltac grow := repeat grow_step.

Lemma append_only_check_date_column (rt : runtime) (col : string)
      (acc : list string) :
  append_only (check_date_column rt col acc).
Proof. unfold check_date_column. grow. Qed.

Lemma append_only_steps (rt : runtime) :
  Forall append_only (TABLE_CHECK_STEPS rt).
Proof.
  unfold TABLE_CHECK_STEPS.
  repeat (apply List.Forall_cons; [|]); [..|apply List.Forall_nil].
  - unfold get_dataframe_shape. grow.
  - unfold check_column_spaces. grow.
  - unfold check_duplicate_columns. grow.
  - unfold get_column_data_types. grow.
  - unfold find_potential_primary_key. grow.
  - unfold check_null_columns. grow.
  - unfold check_fully_duplicate_rows. grow.
  - unfold check_mixed_data_types. grow.
  - unfold check_date_validity. grow.
    apply append_only_check_date_column.
  - unfold check_transaction_date_order. grow.
  - unfold check_customer_date_order. grow.
  - unfold check_data_consistency. grow.
  - unfold describe_data. grow.
Qed.

Lemma append_only_print_summary (rt : runtime) :
  append_only
    (run_steps (TABLE_CHECK_STEPS rt) ;;;
     body <- lookup_context "body" ;;
     action_items <- lookup_context "action_items" ;;
     ret (render_report body action_items)).
Proof.
  apply append_only_bind;
    [apply append_only_run_steps, append_only_steps | intros _].
  apply append_only_bind; [apply append_only_lookup_context | intros body].
  apply append_only_bind; [apply append_only_lookup_context | intros acts].
  apply append_only_ret.
Qed.

(** X6. No check ever overwrites, removes or creates an entry of the
    dictionary: however a check ends, and whatever the frame and the
    dictionary it started from, each key it found still holds its old text
    as a prefix and no key was added.  The same holds of a whole run of the
    driver from its initial dictionary, also when the run is cut short by an
    exception. *)
Theorem checks_only_append (rt : runtime) :
  Forall append_only (TABLE_CHECK_STEPS rt) /\
  forall df,
    extends (initial_context df) (context (final_state (print_summary rt df))).
Proof.
  split; [apply append_only_steps|].
  intros df. exact (append_only_print_summary rt (State df (initial_context df))).
Qed.

(** ** From the date-validity check to the date-order checks *)

Lemma columns_setitem (df : DataFrame) (c : string) (dt : dtype) (vs : list value) :
  columns (setitem df c dt vs) = columns df.
Proof.
  unfold columns, setitem. simpl. rewrite map_map. apply map_ext.
  intros k. now destruct (String.eqb (label k) c).
Qed.

Lemma labelled_setitem_same (df : DataFrame) (c : string) (dt : dtype)
      (vs : list value) :
  labelled (setitem df c dt vs) c
  = map (fun k => Column (label k) dt vs) (labelled df c).
Proof.
  unfold labelled, setitem. simpl.
  induction (cols df) as [|k ks IH]; [reflexivity|]. simpl.
  destruct (String.eqb (label k) c) eqn:E; simpl; rewrite E; simpl;
    now rewrite IH.
Qed.

Lemma labelled_setitem_other (df : DataFrame) (c c' : string) (dt : dtype)
      (vs : list value) :
  c' <> c -> labelled (setitem df c dt vs) c' = labelled df c'.
Proof.
  intros Hne. unfold labelled, setitem. simpl.
  induction (cols df) as [|k ks IH]; [reflexivity|]. simpl.
  destruct (String.eqb (label k) c) eqn:E; simpl.
  - apply String.eqb_eq in E.
    assert (E' : String.eqb (label k) c' = false).
    { apply String.eqb_neq. congruence. }
    now rewrite E', IH.
  - now rewrite IH.
Qed.

(** A column of datetimes under a label of its own stays one through any
    assignment of datetimes to a column. *)
Lemma date_series_setitem (df : DataFrame) (c c' : string) (vs : list value)
      (k : column) :
  getitem df c' = Ok (Series k) ->
  (c' = c \/ col_dtype k = datetime64_utc) ->
  exists k', getitem (setitem df c datetime64_utc vs) c' = Ok (Series k') /\
             col_dtype k' = datetime64_utc.
Proof.
  intros Hsel Hor. unfold getitem in *.
  destruct (String.eqb c' c) eqn:E.
  - apply String.eqb_eq in E. subst c'. rewrite labelled_setitem_same.
    destruct (labelled df c) as [|k1 [|k2 ks]]; try discriminate.
    simpl. eauto.
  - apply String.eqb_neq in E. rewrite labelled_setitem_other by exact E.
    destruct Hor as [Heq|Hdt]; [contradiction|].
    rewrite Hsel. eauto.
Qed.

Lemma to_datetime_series (rt : runtime) (selected : selection)
      (converted : list value) :
  to_datetime rt selected = Ok converted -> exists k, selected = Series k.
Proof.
  destruct selected as [k|ks]; simpl; [eauto | discriminate].
Qed.

(** When the loop over the date columns returns, the labels of the frame are
    as before, every column it went through holds datetimes under a label of
    its own, and so does every column that did before. *)
Lemma for_each_check_date_column_ready (rt : runtime) (found : list string)
      (acc : list string) (df : DataFrame) (ctx : gmap string string)
      (acc' : list string) (s' : state) :
  for_each (check_date_column rt) found acc (State df ctx) = Returns acc' s' ->
  context s' = ctx /\
  columns (frame s') = columns df /\
  (forall c, In c found ->
             exists k, getitem (frame s') c = Ok (Series k) /\
                       col_dtype k = datetime64_utc) /\
  (forall c k, getitem df c = Ok (Series k) -> col_dtype k = datetime64_utc ->
               exists k', getitem (frame s') c = Ok (Series k') /\
                          col_dtype k' = datetime64_utc).
Proof.
  revert acc df. induction found as [|col found IH]; intros acc df Hrun.
  - simpl in Hrun. inversion Hrun; subst. simpl.
    split; [reflexivity|]. split; [reflexivity|]. split; [intros c []|]. eauto.
  - cbn [for_each] in Hrun. unfold bind in Hrun.
    rewrite check_date_column_run in Hrun.
    destruct (getitem df col) as [selected|e] eqn:Hsel; [|discriminate].
    destruct (to_datetime rt selected) as [converted|e] eqn:Hconv; [|discriminate].
    destruct (to_datetime_series _ _ _ Hconv) as (k & ->).
    destruct (IH _ _ Hrun) as (Hctx & Hcols & Hfound & Hkept).
    split; [exact Hctx|]. split; [now rewrite Hcols, columns_setitem|]. split.
    + intros c [<-|Hin]; [|now apply Hfound].
      destruct (date_series_setitem df col col converted k Hsel (or_introl eq_refl))
        as (k1 & Hsel1 & Hdt1).
      exact (Hkept _ _ Hsel1 Hdt1).
    + intros c k0 Hsel0 Hdt0.
      destruct (date_series_setitem df col c converted k0 Hsel0 (or_intror Hdt0))
        as (k1 & Hsel1 & Hdt1).
      exact (Hkept _ _ Hsel1 Hdt1).
Qed.

Lemma has_column_same_labels (df df' : DataFrame) (c : string) :
  columns df' = columns df -> has_column c df' = has_column c df.
Proof. unfold has_column. now intros ->. Qed.

(** Once the date-validity check has returned, every date column of the
    frame is ready for the [.dt] accessor. *)
Lemma check_date_validity_ready (rt : runtime) (df : DataFrame)
      (ctx : gmap string string) (b a : string) (u : unit) (s' : state) :
  ctx !! "body" = Some b ->
  ctx !! "action_items" = Some a ->
  check_date_validity rt (State df ctx) = Returns u s' ->
  columns (frame s') = columns df /\
  (exists b', context s' !! "body" = Some b') /\
  forall c, In c date_columns -> date_ready (frame s') c.
Proof.
  intros Hb Ha. unfold check_date_validity. run_monad.
  assert (Hfound : forall c, In c date_columns -> has_column c df = true ->
            In c (List.filter (fun col => has_column col df) date_columns)).
  { intros c Hin Hc. apply filter_In. now split. }
  destruct (List.filter (fun col => has_column col df) date_columns)
    as [|c0 found] eqn:Efound.
  - step_iadd. intros E. inversion E; subst. simpl.
    split; [reflexivity|]. split; [eexists; solve_lookup|].
    intros c Hin. left. destruct (has_column c df) eqn:Hc; [|reflexivity].
    destruct (Hfound c Hin Hc).
  - destruct (for_each (check_date_column rt) (c0 :: found) [] (State df ctx))
      as [acc' [df1 ctx1]|e s1] eqn:Hrun; [|discriminate].
    destruct (for_each_check_date_column_ready _ _ _ _ _ _ _ Hrun)
      as (Hctx & Hcols & Hready & _).
    simpl in Hctx, Hcols, Hready. subst ctx1. cbv beta iota.
    assert (Hgoal : forall c, In c date_columns -> date_ready df1 c).
    { intros c Hin. destruct (has_column c df) eqn:Hc.
      - right. apply Hready. exact (Hfound c Hin Hc).
      - left. now rewrite (has_column_same_labels _ _ _ Hcols). }
    destruct acc'; repeat step_iadd; intros E; inversion E; subst; simpl;
      (split; [exact Hcols|]); (split; [eexists; solve_lookup | exact Hgoal]).
Qed.

Lemma check_transaction_date_order_returns (df : DataFrame)
      (ctx : gmap string string) (b a : string) :
  ctx !! "body" = Some b ->
  ctx !! "action_items" = Some a ->
  date_ready df "SCAN_DATE" ->
  date_ready df "PURCHASE_DATE" ->
  exists ctx', check_transaction_date_order (State df ctx)
               = Returns tt (State df ctx').
Proof.
  intros Hb Ha Hs Hp. unfold check_transaction_date_order. run_monad.
  destruct Hs as [Hs|(ks & Hs & Hds)].
  { rewrite Hs. cbv beta iota delta [andb]. step_iadd. eauto. }
  rewrite (getitem_has_column _ _ _ Hs).
  destruct Hp as [Hp|(kp & Hp & Hdp)].
  { rewrite Hp. cbv beta iota delta [andb]. step_iadd. eauto. }
  rewrite (getitem_has_column _ _ _ Hp). cbv beta iota delta [andb].
  rewrite (dt_date_series _ _ _ Hs Hds), (dt_date_series _ _ _ Hp Hdp).
  cbv beta iota.
  match goal with |- context [(0 <? ?n)%nat] => destruct (0 <? n)%nat end;
    repeat step_iadd; eauto.
Qed.

Lemma check_customer_date_order_returns (df : DataFrame)
      (ctx : gmap string string) (b a : string) :
  ctx !! "body" = Some b ->
  ctx !! "action_items" = Some a ->
  date_ready df "BIRTH_DATE" ->
  date_ready df "CREATED_DATE" ->
  exists ctx', check_customer_date_order (State df ctx)
               = Returns tt (State df ctx').
Proof.
  intros Hb Ha Hbi Hcr. unfold check_customer_date_order. run_monad.
  destruct Hbi as [Hbi|(kb & Hbi & Hdb)].
  { rewrite Hbi. cbv beta iota delta [andb]. step_iadd. eauto. }
  rewrite (getitem_has_column _ _ _ Hbi).
  destruct Hcr as [Hcr|(kc & Hcr & Hdc)].
  { rewrite Hcr. cbv beta iota delta [andb]. step_iadd. eauto. }
  rewrite (getitem_has_column _ _ _ Hcr). cbv beta iota delta [andb].
  rewrite (dt_date_series _ _ _ Hbi Hdb), (dt_date_series _ _ _ Hcr Hdc).
  cbv beta iota.
  match goal with |- context [(0 <? ?n)%nat] => destruct (0 <? n)%nat end;
    repeat step_iadd; eauto.
Qed.

Lemma append_only_check_date_validity (rt : runtime) :
  append_only (check_date_validity rt).
Proof.
  unfold check_date_validity. grow. apply append_only_check_date_column.
Qed.

(** When both columns are there and one of them does not hold datetimes, the
    [.dt] accessor raises. *)
Ltac date_order_raises check H1 H2 Hor :=
  unfold check; run_monad;
  rewrite (getitem_has_column _ _ _ H1), (getitem_has_column _ _ _ H2);
  cbv beta iota delta [andb]; unfold dt_date; rewrite H1, H2;
  match goal with
  | |- context [col_dtype ?k1] =>
      match goal with
      | |- context [col_dtype ?k2] =>
          tryif constr_eq k1 k2 then fail
          else (destruct (col_dtype k1), (col_dtype k2))
      end
  end;
  try reflexivity; exfalso; destruct Hor as [H|H]; now apply H.

(** X7. The date-order checks rely on the date-validity check having run
    first.  Whenever the date-validity check returns, both date-order checks
    return from the state it leaves, whatever the table: every date column
    present has by then become a column of datetimes.  The labels of the
    frame are as before.  Run on the table as it was, each date-order check
    raises [AttributeError], with nothing written, when its two columns are
    there and one of them does not hold datetimes, as with dates kept as
    text. *)
Theorem date_order_checks_follow_validity (rt : runtime) (df : DataFrame)
        (ctx : gmap string string) (b a : string) (s' : state) :
  ctx !! "body" = Some b ->
  ctx !! "action_items" = Some a ->
  check_date_validity rt (State df ctx) = Returns tt s' ->
  columns (frame s') = columns df /\
  (exists s9, check_transaction_date_order s' = Returns tt s9) /\
  (exists s10, check_customer_date_order s' = Returns tt s10) /\
  (forall scan purchase,
      getitem df "SCAN_DATE" = Ok (Series scan) ->
      getitem df "PURCHASE_DATE" = Ok (Series purchase) ->
      col_dtype scan <> datetime64_utc \/ col_dtype purchase <> datetime64_utc ->
      check_transaction_date_order (State df ctx)
      = Raises AttributeError (State df ctx)) /\
  (forall created birth,
      getitem df "CREATED_DATE" = Ok (Series created) ->
      getitem df "BIRTH_DATE" = Ok (Series birth) ->
      col_dtype created <> datetime64_utc \/ col_dtype birth <> datetime64_utc ->
      check_customer_date_order (State df ctx)
      = Raises AttributeError (State df ctx)).
Proof.
  intros Hb Ha Hrun.
  destruct (check_date_validity_ready _ _ _ _ _ _ _ Hb Ha Hrun) as (Hcols & _ & Hready).
  pose proof (append_only_check_date_validity rt (State df ctx)) as Hext.
  rewrite Hrun in Hext. simpl in Hext.
  pose proof (Hext "body") as Hb'. rewrite Hb in Hb'. destruct Hb' as (fb & Hb').
  pose proof (Hext "action_items") as Ha'. rewrite Ha in Ha'.
  destruct Ha' as (fa & Ha').
  split; [exact Hcols|]. split; [|split; [|split]].
  - destruct s' as [df' ctx']. simpl in *.
    destruct (check_transaction_date_order_returns df' ctx' _ _ Hb' Ha')
      as (ctx9 & E); [apply Hready; simpl; tauto .. | eauto].
  - destruct s' as [df' ctx']. simpl in *.
    destruct (check_customer_date_order_returns df' ctx' _ _ Hb' Ha')
      as (ctx10 & E); [apply Hready; simpl; tauto .. | eauto].
  - intros scan purchase Hs Hp Hor.
    date_order_raises check_transaction_date_order Hs Hp Hor.
  - intros created birth Hc Hbi Hor.
    date_order_raises check_customer_date_order Hc Hbi Hor.
Qed.

Lemma date_order_checks_follow_validity_witness :
  exists s',
    check_date_validity Sample.rt (State raw_accounts (initial_context raw_accounts))
    = Returns tt s' /\
    (exists s10, check_customer_date_order s' = Returns tt s10) /\
    check_customer_date_order (State raw_accounts (initial_context raw_accounts))
    = Raises AttributeError (State raw_accounts (initial_context raw_accounts)).
Proof.
  eexists.
  assert (Hrun : check_date_validity Sample.rt
                   (State raw_accounts (initial_context raw_accounts))
                 = Returns tt _) by (vm_compute; reflexivity).
  destruct (date_order_checks_follow_validity Sample.rt raw_accounts
              (initial_context raw_accounts) _ _ _ eq_refl eq_refl Hrun)
    as (_ & _ & Hafter & _ & Hraw).
  split; [exact Hrun|]. split; [exact Hafter|].
  refine (Hraw _ _ eq_refl eq_refl _). left. discriminate.
Defined.

(** ** The categorical-consistency check on the three columns *)

Section UniqueFacts.
Context {A : Type} (eqb : A -> A -> bool).
Hypothesis eqb_refl : forall x, eqb x x = true.

Lemma unique_from_In (l seen : list A) (x : A) :
  In x (unique_from eqb seen l) -> In x l.
Proof.
  revert seen. induction l as [|y l IH]; intros seen; simpl; [tauto|].
  destruct (existsb (eqb y) seen).
  - intros H. right. exact (IH _ H).
  - intros [H|H]; [now left | right; exact (IH _ H)].
Qed.

Lemma unique_from_covers (l seen : list A) (x : A) :
  In x l ->
  existsb (eqb x) seen = true \/
  exists y, In y (unique_from eqb seen l) /\ eqb x y = true.
Proof.
  revert seen. induction l as [|y l IH]; intros seen; simpl; [intros []|].
  intros Hin. destruct (existsb (eqb y) seen) eqn:Ey.
  - destruct Hin as [<-|Hin]; [now left | exact (IH seen Hin)].
  - destruct Hin as [<-|Hin].
    + right. exists y. split; [now left | apply eqb_refl].
    + destruct (IH (seen ++ [y]) Hin) as [H|(z & Hz & Hxz)].
      * rewrite existsb_app in H. apply orb_true_iff in H.
        destruct H as [H|H]; [now left|]. simpl in H. rewrite orb_false_r in H.
        right. exists y. split; [now left | exact H].
      * right. exists z. split; [now right | exact Hxz].
Qed.

Lemma unique_nil (l : list A) : unique eqb l = [] <-> l = [].
Proof.
  split; [|now intros ->].
  destruct l as [|x l]; [reflexivity|]. unfold unique. simpl. discriminate.
Qed.
End UniqueFacts.

Lemma string_length_append (s t : string) :
  String.length (s +:+ t) = String.length s + String.length t.
Proof.
  induction s as [|c s IH]; [reflexivity|].
  change (S (String.length (s +:+ t)) = S (String.length s + String.length t)).
  now rewrite IH.
Qed.

(** Appending text that is not empty changes the text. *)
Lemma append_changes (a p r : string) : p <> "" -> a +:+ (p +:+ r) <> a.
Proof.
  intros Hp E. apply (f_equal String.length) in E.
  rewrite !string_length_append in E.
  destruct p; [contradiction|]. simpl in E. lia.
Qed.

Lemma value_eqb_refl (v : value) : value_eqb v v = true.
Proof. unfold value_eqb. now rewrite (lawful_refl _ lawful_value v). Qed.

(** Only a missing value equals a missing value. *)
Lemma value_eqb_null (m : missing) (v : value) :
  value_eqb (VNull m) v = true -> isna v = true.
Proof.
  destruct v; try reflexivity; unfold value_eqb; simpl; discriminate.
Qed.

Lemma series_eqb_refl (v : value) : series_eqb v v = true.
Proof.
  apply series_eqb_cases. destruct v as [m| | | | | |];
    [left; eauto | right; repeat split; apply value_eqb_refl ..].
Qed.

(** The entries [isin] refuses in a column, and when there are none. *)
Lemma invalid_values_series (rt : runtime) (df : DataFrame) (c : string)
      (allowed : list string) (k : column) :
  getitem df c = Ok (Series k) ->
  exists invalid,
    invalid_values rt df c allowed = Ok invalid /\
    (invalid = [] <-> all_allowed allowed k) /\
    (forall text, In text invalid ->
        exists v, In v (cells k) /\ isin allowed v = false /\
                  text = if isna v then "NaN" else str_value rt v) /\
    ((exists m, In (VNull m) (cells k)) -> In "NaN" invalid).
Proof.
  intros Hsel. unfold invalid_values. rewrite Hsel. eexists.
  split; [reflexivity|].
  set (refused := List.filter (fun v => negb (isin allowed v)) (cells k)).
  split; [|split].
  - split.
    + intros H. apply map_eq_nil in H. apply unique_nil in H.
      unfold all_allowed. apply List.Forall_forall. intros v Hv.
      destruct (isin allowed v) eqn:E; [reflexivity|].
      assert (Hin : In v refused).
      { apply filter_In. split; [exact Hv | now rewrite E]. }
      rewrite H in Hin. destruct Hin.
    + intros Hall. unfold all_allowed in Hall.
      rewrite List.Forall_forall in Hall.
      assert (Hnil : refused = []).
      { destruct refused as [|v rest] eqn:E; [reflexivity|].
        assert (Hin : In v refused) by (rewrite E; now left).
        apply filter_In in Hin. destruct Hin as [Hv Hneg].
        rewrite (Hall v Hv) in Hneg. discriminate. }
      now rewrite Hnil.
  - intros text Hin. apply in_map_iff in Hin. destruct Hin as (v & <- & Hv).
    apply unique_from_In in Hv. apply filter_In in Hv.
    destruct Hv as [Hv Hneg]. exists v. split; [exact Hv|]. split; [|reflexivity].
    now destruct (isin allowed v).
  - intros (m & Hm).
    assert (Hin : In (VNull m) refused) by (apply filter_In; now split).
    destruct (unique_from_covers series_eqb series_eqb_refl refused [] _ Hin)
      as [H|(y & Hy & Hxy)]; [discriminate|].
    apply in_map_iff. exists y.
    apply series_eqb_cases in Hxy.
    destruct Hxy as [(m' & _ & ->)|(Hna & _)]; [now split | discriminate Hna].
Qed.




(** ** Identifiers: what is flagged and what is listed *)

Section NoRepeats.
Context {A : Type} (eqb : A -> A -> bool).

Lemma sum_true_cons (flag : bool) (mask : list bool) :
  sum_true (flag :: mask) = (if flag then 1 else 0) + sum_true mask.
Proof. unfold sum_true. simpl. now destruct flag. Qed.

(** [duplicated] marks nothing exactly when no entry equals an earlier
    one. *)
Lemma duplicated_from_none (l seen : list A) :
  sum_true (duplicated_from eqb seen l) = 0
  <-> (forall x, In x l -> existsb (eqb x) seen = false) /\
      ForallOrdPairs (fun x y => eqb y x = false) l.
Proof.
  revert seen. induction l as [|y l IH]; intros seen.
  - simpl. split; [intros _; split; [intros x [] | constructor] | reflexivity].
  - cbn [duplicated_from]. rewrite sum_true_cons. split.
    + intros H. destruct (existsb (eqb y) seen) eqn:Ey; [discriminate|].
      simpl in H. apply IH in H. destruct H as [Hseen Hpairs].
      assert (Hsplit : forall x, In x l ->
                existsb (eqb x) seen = false /\ eqb x y = false).
      { intros x Hx. specialize (Hseen x Hx). rewrite existsb_app in Hseen.
        apply orb_false_iff in Hseen. simpl in Hseen.
        rewrite orb_false_r in Hseen. exact Hseen. }
      split.
      * intros x [<-|Hx]; [exact Ey | apply Hsplit, Hx].
      * constructor; [|exact Hpairs].
        apply List.Forall_forall. intros x Hx. apply Hsplit, Hx.
    + intros [Hseen Hpairs]. inversion Hpairs as [|? ? Hy Hrest]; subst.
      rewrite (Hseen y (or_introl eq_refl)). simpl. apply IH. split; [|exact Hrest].
      intros x Hx. rewrite existsb_app, (Hseen x (or_intror Hx)). simpl.
      rewrite orb_false_r. rewrite List.Forall_forall in Hy. exact (Hy x Hx).
Qed.

Lemma ForallOrdPairs_filter (keep : A -> bool) (R : A -> A -> Prop) (l : list A) :
  ForallOrdPairs R (List.filter keep l)
  <-> ForallOrdPairs (fun x y => keep x = true -> keep y = true -> R x y) l.
Proof.
  induction l as [|x l IH]; simpl.
  - split; constructor.
  - destruct (keep x) eqn:Ex; split; intros H.
    + inversion H as [|? ? Hx Hrest]; subst.
      constructor; [|now apply IH].
      apply List.Forall_forall. intros y Hy _ Ey.
      rewrite List.Forall_forall in Hx. apply Hx, filter_In. now split.
    + inversion H as [|? ? Hx Hrest]; subst.
      constructor; [|now apply IH].
      apply List.Forall_forall. intros y Hy. apply filter_In in Hy.
      destruct Hy as [Hy Ey]. rewrite List.Forall_forall in Hx.
      now apply Hx.
    + constructor; [|now apply IH].
      apply List.Forall_forall. intros y _ Hfalse. congruence.
    + inversion H; subst. now apply IH.
Qed.
End NoRepeats.

Lemma value_eqb_sym (v w : value) : value_eqb v w = value_eqb w v.
Proof.
  unfold value_eqb. rewrite (lawful_antisym _ lawful_value w v).
  now destruct (value_compare w v).
Qed.

Lemma ForallOrdPairs_impl {A : Type} (R S : A -> A -> Prop) (l : list A) :
  (forall x y, R x y -> S x y) -> ForallOrdPairs R l -> ForallOrdPairs S l.
Proof.
  intros HRS. induction 1 as [|x l Hx _ IH]; constructor; [|exact IH].
  rewrite List.Forall_forall in *. auto.
Qed.

(** The count of repeats among the non-missing entries is zero exactly when
    no two non-missing entries are equal. *)
Lemma duplicated_dropna_none (vs : list value) :
  sum_true (duplicated value_eqb (dropna vs)) = 0 <-> no_repeats vs.
Proof.
  unfold duplicated, dropna, no_repeats. rewrite duplicated_from_none.
  rewrite ForallOrdPairs_filter. split.
  - intros [_ H]. revert H. apply ForallOrdPairs_impl.
    intros v w H Hv Hw. rewrite value_eqb_sym. apply H.
    + now rewrite Hv.
    + now rewrite Hw.
  - intros H. split; [reflexivity|]. revert H. apply ForallOrdPairs_impl.
    intros v w H Hv Hw. rewrite value_eqb_sym. apply H.
    + now destruct (isna v).
    + now destruct (isna w).
Qed.

Lemma null_count_none (vs : list value) :
  null_count vs = 0 <-> Forall (fun v => isna v = false) vs.
Proof.
  unfold null_count. induction vs as [|v vs IH]; simpl.
  - split; [constructor | reflexivity].
  - destruct (isna v) eqn:E; simpl; split; intros H.
    + discriminate.
    + inversion H; congruence.
    + constructor; [exact E | now apply IH].
    + inversion H; subst. now apply IH.
Qed.

Lemma ltb_0_false (n : nat) : (0 <? n)%nat = false <-> n = 0.
Proof. destruct n; split; intros H; first [reflexivity | discriminate H]. Qed.

(** X9. When the heuristic has picked an identifier that is a column of its
    own, the check returns, and it adds an action exactly when the
    identifier has a missing entry or two equal non-missing entries.  The
    list of potential unique identifiers is drawn from all the columns and
    looks at repeats only: a column is listed exactly when no two of its
    non-missing entries are equal, so an identifier with gaps but no repeats
    is flagged and listed at once. *)
Theorem identifier_flagged_and_listed (rt : runtime) (df : DataFrame)
        (ctx : gmap string string) (b a : string)
        (id table : string) (k : column) :
  ctx !! "body" = Some b ->
  ctx !! "action_items" = Some a ->
  identifier_heuristic df = Some ([id], table) ->
  getitem df id = Ok (Series k) ->
  exists ctx' listed,
    find_potential_primary_key rt (State df ctx) = Returns tt (State df ctx') /\
    unique_identifiers df = Ok listed /\
    (ctx' !! "action_items" = Some a
     <-> Forall (fun v => isna v = false) (cells k) /\ no_repeats (cells k)) /\
    (forall c kc, getitem df c = Ok (Series kc) ->
                  (In c listed <-> no_repeats (cells kc))).
Proof.
  intros Hb Ha Hpick Hsel.
  destruct (unique_identifiers_ok df) as (listed & Hlisted & Hin).
  pose proof (find_potential_primary_key_selected rt df ctx b a [id] table
                Hb Ha Hpick) as Hrun.
  rewrite Hlisted in Hrun. cbn [map_result] in Hrun.
  unfold identifier_issues in Hrun.
  rewrite (getitem_has_column _ _ _ Hsel), Hsel in Hrun. cbv zeta in Hrun.
  eexists. exists listed. split; [exact Hrun|]. split; [exact Hlisted|]. split.
  - rewrite <- null_count_none, <- duplicated_dropna_none, <- !ltb_0_false.
    unfold primary_key_context. cbn [List.concat].
    destruct (0 <? null_count (cells k))%nat,
             (0 <? sum_true (duplicated value_eqb (dropna (cells k))))%nat;
      cbn [app];
      repeat first [ rewrite lookup_insert_eq
                   | rewrite lookup_insert_ne by discriminate ];
      (split;
       [ intros H;
         first [ now split
               | exfalso; injection H as H; rewrite ?append_assoc in H;
                 refine (append_changes _ _ _ _ H); discriminate ]
       | intros [H1 H2]; first [ exact Ha | discriminate ] ]).
  - intros c kc Hc. rewrite Hin, <- duplicated_dropna_none.
    unfold duplicate_count. rewrite Hc. split.
    + intros [_ H]. now inversion H.
    + intros H. split; [|now rewrite H].
      apply has_column_In. exact (getitem_has_column _ _ _ Hc).
Qed.

Lemma identifier_flagged_and_listed_witness :
  exists ctx' listed,
    find_potential_primary_key Sample.rt
      (State receipts_with_gap (initial_context receipts_with_gap))
    = Returns tt (State receipts_with_gap ctx') /\
    In "RECEIPT_ID" listed /\ ~ In "STORE" listed /\
    ctx' !! "action_items" <> Some ("Action required:" +:+ nl).
Proof.
  destruct (identifier_flagged_and_listed Sample.rt receipts_with_gap
              (initial_context receipts_with_gap) _ _ "RECEIPT_ID" "transaction" _
              eq_refl eq_refl eq_refl eq_refl)
    as (ctx' & listed & Hrun & Hlisted & Hact & Hin).
  exists ctx', listed. split; [exact Hrun|].
  vm_compute in Hlisted. injection Hlisted as <-.
  split; [simpl; tauto|]. split.
  - simpl. intros [H|[]]. discriminate H.
  - intros H. apply Hact in H. destruct H as [H _]. simpl in H.
    inversion H as [|? ? _ H']; subst. inversion H' as [|? ? Hbad _]; subst.
    discriminate Hbad.
Defined.

(** ** Summary statistics *)

Lemma is_number_dtype_spec (k : column) :
  is_number_dtype (col_dtype k) = true <-> numeric_column k.
Proof.
  unfold numeric_column. destruct (col_dtype k); simpl; split;
    intros H; try reflexivity; try discriminate; try tauto;
    destruct H; discriminate.
Qed.

Lemma empty_select_number_dtypes (df : DataFrame) :
  empty (select_number_dtypes df) = true
  <-> nrows df = 0 \/ forall k, In k (cols df) -> ~ numeric_column k.
Proof.
  unfold empty, select_number_dtypes. simpl.
  destruct (nrows df) as [|n]; [split; [now left | reflexivity]|].
  destruct (List.filter (fun k => is_number_dtype (col_dtype k)) (cols df))
    as [|k ks] eqn:E.
  - split; [|reflexivity]. intros _. right. intros k Hk Hnum.
    apply is_number_dtype_spec in Hnum.
    assert (Hin : In k (List.filter (fun k => is_number_dtype (col_dtype k)) (cols df))).
    { apply filter_In. now split. }
    rewrite E in Hin. destruct Hin.
  - split; [discriminate|]. intros [H|H]; [discriminate|]. exfalso.
    assert (Hin : In k (List.filter (fun k => is_number_dtype (col_dtype k)) (cols df))).
    { rewrite E. now left. }
    apply filter_In in Hin. destruct Hin as [Hk Hnum].
    exact (H k Hk (proj1 (is_number_dtype_spec k) Hnum)).
Qed.

(** X10. The summary of section 12 is produced exactly when the table has a
    row and a column of dtype [int64] or [float64].  Otherwise the check
    writes "No numeric columns found."; this is also what it writes for a
    table that has numeric columns and no rows.  A column of booleans,
    text or datetimes does not count as numeric.  The check returns in both
    cases and adds no action. *)
Theorem describe_data_needs_rows_and_numbers (rt : runtime) (df : DataFrame)
        (ctx : gmap string string) (b : string) :
  ctx !! "body" = Some b ->
  (nrows df = 0 \/ (forall k, In k (cols df) -> ~ numeric_column k) ->
   describe_data rt (State df ctx)
   = Returns tt
       (State df
          (<["body" :=
              b +:+ (nl +:+ "    12. Summary Statistics:" +:+ nl +:+
                     "       - No numeric columns found." +:+ nl +:+
                     "        ")]> ctx)))
  /\
  (nrows df <> 0 -> (exists k, In k (cols df) /\ numeric_column k) ->
   describe_data rt (State df ctx)
   = Returns tt
       (State df
          (<["body" :=
              b +:+ (nl +:+ "    12. Summary Statistics:" +:+ nl +:+
                     "       " +:+ describe_to_string rt df +:+ nl +:+
                     "    ")]> ctx))).
Proof.
  intros Hb. split.
  - intros H. apply empty_select_number_dtypes in H.
    unfold describe_data. run_monad. rewrite H.
    now rewrite (iadd_present _ _ b).
  - intros Hrows (k & Hk & Hnum).
    assert (H : empty (select_number_dtypes df) = false).
    { destruct (empty (select_number_dtypes df)) eqn:E; [|reflexivity].
      apply empty_select_number_dtypes in E. destruct E as [E|E];
        [contradiction | destruct (E k Hk Hnum)]. }
    unfold describe_data. run_monad. rewrite H.
    now rewrite (iadd_present _ _ b).
Qed.

Lemma describe_data_needs_rows_and_numbers_witness :
  (exists k, In k (cols no_rows) /\ numeric_column k) /\
  describe_data Sample.rt (State no_rows (initial_context no_rows))
  = Returns tt
      (State no_rows
         (<["body" :=
             ("Here is the result of the initial data check for of table 'empty':" +:+ nl)
               +:+ (nl +:+ "    12. Summary Statistics:" +:+ nl +:+
                    "       - No numeric columns found." +:+ nl +:+
                    "        ")]> (initial_context no_rows))).
Proof.
  split.
  - exists (Column "B" int64 []). split; [simpl; tauto | now left].
  - apply (describe_data_needs_rows_and_numbers Sample.rt no_rows
             (initial_context no_rows) _ eq_refl).
    now left.
Defined.

(** ** The mixed-type check *)

Lemma check_column_type_classification (rt : runtime) (l : list value) :
  map_result (check_column_type rt) l = Ok (map (classification rt) l).
Proof.
  induction l as [|v l IH]; [reflexivity|]. cbn [map_result map]. rewrite IH.
  assert (H : check_column_type rt v = Ok (classification rt v)).
  { unfold check_column_type, classification, py_float.
    destruct v as [[]| | | |s| |]; simpl; try reflexivity.
    destruct (parse_float rt s); reflexivity. }
  now rewrite H.
Qed.


Section UniqueLabels.
Context {A : Type} (eqb : A -> A -> bool).


End UniqueLabels.



(** The loop over the labels: the labels flagged are appended in order. *)
Lemma scan_mixed_flags (rt : runtime) (df : DataFrame) (todo acc : list string)
      (types : gmap string (list string)) :
  (forall c, In c todo -> In c (columns df)) ->
  exists types',
    scan_mixed rt df todo acc types
    = Ok (acc ++ List.filter
                   (fun c => match types_in_col rt df c with
                             | Ok ts => (1 <? length ts)%nat
                             | Err _ => false
                             end) todo,
          types').
Proof.
  revert acc types. induction todo as [|c todo IH]; intros acc types Hsub.
  - exists types. simpl. now rewrite app_nil_r.
  - cbn [scan_mixed List.filter].
    assert (Hc : exists ts, types_in_col rt df c = Ok ts).
    { destruct (getitem_present df c (Hsub c (or_introl eq_refl))) as (sel & Hsel).
      unfold types_in_col. rewrite Hsel. destruct sel as [k|ks]; [|eauto].
      rewrite check_column_type_classification. eauto. }
    destruct Hc as (ts & ->).
    assert (Hsub' : forall c', In c' todo -> In c' (columns df)).
    { intros c' Hc'. apply Hsub. now right. }
    destruct (1 <? length ts)%nat.
    + destruct (IH (acc ++ [c]) (<[c := ts]> types) Hsub') as (types' & ->).
      exists types'. now rewrite <- app_assoc.
    + exact (IH acc types Hsub').
Qed.



(** ** What [pd.to_datetime] gives and refuses *)

Lemma map_result_err {A B : Type} (f : A -> result B) (l : list A) (e : exn) :
  map_result f l = Err e -> exists x, In x l /\ f x = Err e.
Proof.
  induction l as [|x l IH]; cbn [map_result]; [discriminate|].
  destruct (f x) as [y|e'] eqn:E.
  - destruct (map_result f l) as [ys|e'']; [discriminate|].
    intros H. inversion H; subst. destruct (IH eq_refl) as (z & Hz & Ez).
    exists z. split; [now right | exact Ez].
  - intros H. inversion H; subst. exists x. split; [now left | exact E].
Qed.

Lemma map_result_forall {A B : Type} (f : A -> result B) (P : B -> Prop)
      (l : list A) (ys : list B) :
  (forall x y, f x = Ok y -> P y) -> map_result f l = Ok ys -> Forall P ys.
Proof.
  intros Hf. revert ys. induction l as [|x l IH]; intros ys; cbn [map_result].
  - intros H. inversion H. constructor.
  - destruct (f x) as [y|e] eqn:E; [|discriminate].
    destruct (map_result f l) as [ys'|e]; [|discriminate].
    intros H. inversion H; subst. constructor; [exact (Hf x y E) | now apply IH].
Qed.

Lemma instant_of_ns_is_datetime (n : Z) (w : value) :
  instant_of_ns n = Ok w -> is_datetime w.
Proof.
  unfold instant_of_ns. destruct (n =? int64_min)%Z.
  - intros H. inversion H. exact I.
  - destruct ((int64_min <? n)%Z && (n <=? int64_max)%Z); [|discriminate].
    intros H. inversion H. exact I.
Qed.

Lemma datetime_of_text_is_datetime (s : string) (read : option Z) (w : value) :
  datetime_of_text s read = Ok w -> is_datetime w.
Proof.
  unfold datetime_of_text. destruct (is_nat_text s).
  - intros H. inversion H. exact I.
  - destruct read; [|discriminate]. intros H. inversion H. exact I.
Qed.

Lemma to_datetime_value_is_datetime (rt : runtime) (v w : value) :
  to_datetime_value rt v = Ok w -> is_datetime w.
Proof.
  unfold to_datetime_value.
  destruct v as [m|flag|n|x|s|t|ty tag]; try discriminate.
  - intros H. inversion H. exact I.
  - apply instant_of_ns_is_datetime.
  - apply instant_of_ns_is_datetime.
  - apply datetime_of_text_is_datetime.
  - intros H. inversion H. exact I.
Qed.

Lemma strptime_value_is_datetime (rt : runtime) (fmt : string) (v w : value) :
  strptime_value rt fmt v = Ok w -> is_datetime w.
Proof.
  unfold strptime_value.
  destruct v as [m|flag|n|x|s|t|ty tag].
  - intros H. inversion H. exact I.
  - apply datetime_of_text_is_datetime.
  - destruct (n =? int64_min)%Z; [|apply datetime_of_text_is_datetime].
    intros H. inversion H. exact I.
  - destruct (Qeq_bool x (inject_Z int64_min)); [|apply datetime_of_text_is_datetime].
    intros H. inversion H. exact I.
  - apply datetime_of_text_is_datetime.
  - intros H. inversion H. exact I.
  - apply datetime_of_text_is_datetime.
Qed.

(** Whatever [pd.to_datetime] returns is a column of instants and [NaT]. *)
Lemma to_datetime_is_datetime (rt : runtime) (selected : selection)
      (converted : list value) :
  to_datetime rt selected = Ok converted -> Forall is_datetime converted.
Proof.
  destruct selected as [k|ks]; [|discriminate]. cbn [to_datetime].
  destruct (first_non_null (cells k)) as [[m|flag|n|x|s|t|ty tag]|];
    try apply (map_result_forall _ _ _ _ (to_datetime_value_is_datetime rt)).
  destruct (guess_datetime_format rt s) as [fmt|].
  - apply (map_result_forall _ _ _ _ (strptime_value_is_datetime rt fmt)).
  - apply (map_result_forall _ _ _ _ (to_datetime_value_is_datetime rt)).
Qed.

Lemma instant_of_ns_errors (n : Z) (e : exn) :
  instant_of_ns n = Err e -> e = ValueError.
Proof.
  unfold instant_of_ns. destruct (n =? int64_min)%Z; [discriminate|].
  destruct ((int64_min <? n)%Z && (n <=? int64_max)%Z); [discriminate|].
  intros H. now inversion H.
Qed.

Lemma datetime_of_text_errors (s : string) (read : option Z) (e : exn) :
  datetime_of_text s read = Err e -> e = ValueError.
Proof.
  unfold datetime_of_text. destruct (is_nat_text s); [discriminate|].
  destruct read; [discriminate|]. intros H. now inversion H.
Qed.

Lemma to_datetime_value_errors (rt : runtime) (v : value) (e : exn) :
  to_datetime_value rt v = Err e -> e = ValueError \/ e = TypeError.
Proof.
  unfold to_datetime_value.
  destruct v as [m|flag|n|x|s|t|ty tag]; try discriminate.
  - intros H. inversion H. now right.
  - intros H. left. exact (instant_of_ns_errors _ _ H).
  - intros H. left. exact (instant_of_ns_errors _ _ H).
  - intros H. left. exact (datetime_of_text_errors _ _ _ H).
  - intros H. inversion H. now right.
Qed.

Lemma strptime_value_errors (rt : runtime) (fmt : string) (v : value) (e : exn) :
  strptime_value rt fmt v = Err e -> e = ValueError.
Proof.
  unfold strptime_value.
  destruct v as [m|flag|n|x|s|t|ty tag]; try discriminate;
    try apply datetime_of_text_errors.
  - destruct (n =? int64_min)%Z; [discriminate | apply datetime_of_text_errors].
  - destruct (Qeq_bool x (inject_Z int64_min));
      [discriminate | apply datetime_of_text_errors].
Qed.

(** The conversion fails with [ValueError] or [TypeError] only. *)
Lemma to_datetime_errors (rt : runtime) (selected : selection) (e : exn) :
  to_datetime rt selected = Err e -> e = ValueError \/ e = TypeError.
Proof.
  assert (Hcell : forall l, map_result (to_datetime_value rt) l = Err e ->
                            e = ValueError \/ e = TypeError).
  { intros l H. apply map_result_err in H. destruct H as (v & _ & Hv).
    exact (to_datetime_value_errors _ _ _ Hv). }
  destruct selected as [k|ks]; cbn [to_datetime].
  - destruct (first_non_null (cells k)) as [[m|flag|n|x|s|t|ty tag]|];
      try apply Hcell.
    destruct (guess_datetime_format rt s) as [fmt|]; [|apply Hcell].
    intros H. apply map_result_err in H. destruct H as (v & _ & Hv).
    left. exact (strptime_value_errors _ _ _ _ Hv).
  - intros H. inversion H. now left.
Qed.

Lemma map_result_fixed (rt : runtime) (l : list value) :
  Forall is_datetime l -> map_result (to_datetime_value rt) l = Ok l.
Proof.
  induction 1 as [|v l Hv _ IH]; [reflexivity|]. cbn [map_result].
  rewrite IH. destruct v as [[]| | | | | |]; try destruct Hv; reflexivity.
Qed.

Lemma first_non_null_in (vs : list value) (v : value) :
  first_non_null vs = Some v -> In v vs.
Proof.
  unfold first_non_null. intros H.
  match type of H with head (List.filter ?keep vs) = _ =>
    destruct (List.filter keep vs) as [|x l] eqn:E; [discriminate|];
    assert (Hin : In x (List.filter keep vs)) by (rewrite E; now left)
  end.
  simpl in H. inversion H; subst. apply filter_In in Hin. tauto.
Qed.

(** A column of instants and [NaT] is converted to itself. *)
Lemma to_datetime_fixed (rt : runtime) (k : column) :
  Forall is_datetime (cells k) -> to_datetime rt (Series k) = Ok (cells k).
Proof.
  intros H. cbn [to_datetime].
  destruct (first_non_null (cells k)) as [v|] eqn:E;
    [|now apply map_result_fixed].
  apply first_non_null_in in E.
  pose proof (proj1 (List.Forall_forall _ _) H v E) as Hv.
  destruct v as [[]| | | | | |]; try destruct Hv; now apply map_result_fixed.
Qed.

(** A column of text in one format mixed with a number: every entry can be
    read on its own, the column cannot. *)
Example format_imposed_on_column :
  map_result (to_datetime_value Sample.rt) [VStr "1970-01-01"; VInt 5]
  = Ok [VTime 0; VTime 5] /\
  to_datetime Sample.rt
    (Series (Column "SCAN_DATE" object [VStr "1970-01-01"; VInt 5]))
  = Err ValueError /\
  to_datetime Sample.rt
    (Series (Column "SCAN_DATE" int64 [VInt 9223372036854775808]))
  = Err ValueError /\
  to_datetime Sample.rt
    (Series (Column "SCAN_DATE" float64 [VFloat (-3 # 2); VNull NaN]))
  = Ok [VTime (-1); VNull NaT].
Proof. repeat split; vm_compute; reflexivity. Qed.

(** ** The instants after the clock reading *)

Lemma later_instants_from_spec (seen : list Z) (now t : Z) (vs : list value) :
  In t (later_instants_from seen now vs)
  <-> In (VTime t) vs /\ (now < t)%Z /\ ~ In t seen.
Proof.
  revert seen. induction vs as [|v vs IH]; intros seen.
  - simpl. tauto.
  - assert (Hskip : v <> VTime t ->
              (In (VTime t) (v :: vs) <-> In (VTime t) vs)).
    { intros Hne. simpl. split; [intros [E|H]; [contradiction | exact H] | tauto]. }
    destruct v as [m|flag|n|x|s|u|ty tag]; cbn [later_instants_from];
      try (rewrite IH, Hskip by discriminate; reflexivity).
    destruct (now <? u)%Z eqn:Hlate.
    + apply Z.ltb_lt in Hlate.
      destruct (existsb (Z.eqb u) seen) eqn:Hseen.
      * apply existsb_exists in Hseen. destruct Hseen as (u' & Hu' & E).
        apply Z.eqb_eq in E. subst u'. rewrite IH. simpl. split.
        -- tauto.
        -- intros ([E|Hin] & Hlt & Hnew); [|tauto].
           inversion E; subst. contradiction.
      * assert (Hnew : ~ In u seen).
        { intros Hin. rewrite <- not_true_iff_false in Hseen. apply Hseen.
          apply existsb_exists. exists u. split; [exact Hin | apply Z.eqb_refl]. }
        simpl. rewrite IH, in_app_iff. simpl. split.
        -- intros [->|(Hin & Hlt & Hnot)]; [tauto|]. tauto.
        -- intros ([E|Hin] & Hlt & Hnot); [inversion E; tauto|].
           destruct (Z.eq_dec u t) as [->|Hne]; [tauto|]. right. tauto.
    + apply Z.ltb_ge in Hlate. rewrite IH. simpl. split; [tauto|].
      intros ([E|Hin] & Hlt & Hnew); [inversion E; subst; lia | tauto].
Qed.

Lemma later_instants_spec (now t : Z) (vs : list value) :
  In t (later_instants now vs) <-> In (VTime t) vs /\ (now < t)%Z.
Proof.
  unfold later_instants. rewrite later_instants_from_spec. simpl. tauto.
Qed.

Lemma later_instants_from_nodup (seen : list Z) (now : Z) (vs : list value) :
  List.NoDup (later_instants_from seen now vs).
Proof.
  revert seen. induction vs as [|v vs IH]; intros seen; [constructor|].
  destruct v as [m|flag|n|x|s|u|ty tag]; cbn [later_instants_from];
    try apply IH.
  destruct (now <? u)%Z; [|apply IH].
  destruct (existsb (Z.eqb u) seen); [apply IH|].
  constructor; [|apply IH].
  rewrite later_instants_from_spec, in_app_iff. simpl. tauto.
Qed.

Lemma existsb_series_eqb_instants (t : Z) (seen : list Z) :
  existsb (series_eqb (VTime t)) (map VTime seen) = existsb (Z.eqb t) seen.
Proof.
  induction seen as [|u seen IH]; [reflexivity|].
  cbn [map existsb]. rewrite IH. f_equal.
  unfold series_eqb, value_eqb. cbn [value_compare].
  symmetry. apply Z.eqb_compare.
Qed.

(** The distinct future dates the code prints are these instants. *)
Lemma unique_future_dates (seen : list Z) (now : Z) (vs : list value) :
  unique_from series_eqb (map VTime seen) (future_dates now vs)
  = map VTime (later_instants_from seen now vs).
Proof.
  unfold future_dates. revert seen.
  induction vs as [|v vs IH]; intros seen; [reflexivity|].
  destruct v as [m|flag|n|x|s|u|ty tag];
    cbn [List.filter later_than later_instants_from]; try apply IH.
  destruct (now <? u)%Z; [|apply IH].
  cbn [unique_from]. rewrite existsb_series_eqb_instants.
  destruct (existsb (Z.eqb u) seen); [apply IH|].
  cbn [map]. f_equal. rewrite <- IH. now rewrite map_app.
Qed.

Lemma finding_of_future_dates (rt : runtime) (col : string) (acc : list string)
      (converted : list value) :
  match future_dates (now_utc rt col) converted with
  | [] => acc
  | flagged =>
      acc ++ [col +:+ " has future dates: "
                  +:+ join ", " (map (str_value rt) (unique series_eqb flagged))
                  +:+ "."]
  end
  = acc ++ future_dates_finding rt col converted.
Proof.
  unfold future_dates_finding, later_instants.
  pose proof (unique_future_dates [] (now_utc rt col) converted) as H.
  cbn [map] in H. fold (unique series_eqb (future_dates (now_utc rt col) converted)) in H.
  destruct (future_dates (now_utc rt col) converted) as [|v flagged].
  - destruct (later_instants_from [] (now_utc rt col) converted);
      [now rewrite app_nil_r | discriminate].
  - rewrite H.
    destruct (later_instants_from [] (now_utc rt col) converted) as [|t ts];
      [discriminate|].
    now rewrite map_map.
Qed.

(** ** Checks that return and leave the frame as it is *)

Lemma extends_keys (ctx ctx' : gmap string string) (b a : string) :
  extends ctx ctx' ->
  ctx !! "body" = Some b ->
  ctx !! "action_items" = Some a ->
  exists b' a', ctx' !! "body" = Some b' /\ ctx' !! "action_items" = Some a'.
Proof.
  intros Hext Hb Ha.
  pose proof (Hext "body") as H1. rewrite Hb in H1. destruct H1 as (x & H1).
  pose proof (Hext "action_items") as H2. rewrite Ha in H2. destruct H2 as (y & H2).
  eauto.
Qed.

Lemma run_steps_in_place (steps : list (M unit)) (df : DataFrame) :
  Forall append_only steps ->
  Forall (fun m => runs_in_place m df) steps ->
  runs_in_place (run_steps steps) df.
Proof.
  induction steps as [|step steps IH]; intros Happ Hrun ctx b a Hb Ha.
  - exists ctx. reflexivity.
  - inversion Happ as [|? ? Happ1 Happ']; inversion Hrun as [|? ? Hrun1 Hrun']; subst.
    cbn [run_steps]. unfold bind.
    destruct (Hrun1 ctx b a Hb Ha) as (ctx1 & E).
    pose proof (Happ1 (State df ctx)) as Hext. rewrite E in *. simpl in Hext.
    destruct (extends_keys _ _ _ _ Hext Hb Ha) as (b1 & a1 & Hb1 & Ha1).
    exact (IH Happ' Hrun' ctx1 b1 a1 Hb1 Ha1).
Qed.

Lemma map_result_ok {A B : Type} (f : A -> result B) (l : list A) :
  (forall x, In x l -> exists y, f x = Ok y) -> exists ys, map_result f l = Ok ys.
Proof.
  induction l as [|x l IH]; intros H; [now exists []|].
  cbn [map_result]. destruct (H x (or_introl eq_refl)) as (y & ->).
  destruct IH as (ys & ->); [intros z Hz; apply H; now right|]. eauto.
Qed.

(** Under distinct labels every label present selects a Series. *)
Lemma labelled_nodup (l : list column) (c : string) :
  List.NoDup (map label l) ->
  length (List.filter (fun k => String.eqb (label k) c) l) <= 1.
Proof.
  induction l as [|k l IH]; simpl; [lia|]. intros Hnd.
  inversion Hnd as [|? ? Hk Hl]; subst.
  destruct (String.eqb (label k) c) eqn:E; [|now apply IH].
  apply String.eqb_eq in E. simpl.
  assert (Hnone : List.filter (fun k0 => String.eqb (label k0) c) l = []).
  { destruct (List.filter (fun k0 => String.eqb (label k0) c) l) as [|k' ks] eqn:F;
      [reflexivity|].
    assert (Hin : In k' (List.filter (fun k0 => String.eqb (label k0) c) l)).
    { rewrite F. now left. }
    apply filter_In in Hin. destruct Hin as [Hin Hlab].
    apply String.eqb_eq in Hlab. exfalso. apply Hk.
    rewrite E, <- Hlab. now apply in_map. }
  rewrite Hnone. simpl. lia.
Qed.

Lemma getitem_nodup (df : DataFrame) (c : string) :
  List.NoDup (columns df) -> has_column c df = true ->
  exists k, getitem df c = Ok (Series k).
Proof.
  intros Hnd Hc. apply has_column_In in Hc.
  pose proof (labelled_present df c Hc) as Hne.
  pose proof (labelled_nodup (cols df) c Hnd) as Hlen.
  unfold getitem. fold (labelled df c) in Hlen.
  destruct (labelled df c) as [|k [|k' ks]]; [contradiction | eauto | simpl in Hlen; lia].
Qed.

Lemma select_duplicated_nodup (l : list string) :
  List.NoDup l -> select l (duplicated String.eqb l) = [].
Proof.
  intros Hnd. destruct (select l (duplicated String.eqb l)) as [|c rest] eqn:E;
    [reflexivity|].
  assert (Hc : In c (select l (duplicated_from String.eqb [] l))).
  { unfold duplicated in E. rewrite E. now left. }
  apply select_duplicated_from_in in Hc.
  destruct Hc as (l1 & l2 & -> & [[]|Hl1]).
  apply NoDup_remove_2 in Hnd. exfalso. apply Hnd, in_or_app. now left.
Qed.

Section InPlace.
Variable rt : runtime.
Variable df : DataFrame.

Lemma get_dataframe_shape_in_place : runs_in_place get_dataframe_shape df.
Proof.
  intros ctx b a Hb Ha. unfold get_dataframe_shape, shape. run_monad.
  step_iadd. eauto.
Qed.

Lemma check_column_spaces_in_place : runs_in_place (check_column_spaces rt) df.
Proof.
  intros ctx b a Hb Ha. unfold check_column_spaces. run_monad.
  destruct (List.filter (contains_char " ") (columns df));
    repeat step_iadd; eauto.
Qed.

Lemma check_duplicate_columns_in_place :
  List.NoDup (columns df) -> runs_in_place (check_duplicate_columns rt) df.
Proof.
  intros Hnd ctx b a Hb Ha. unfold check_duplicate_columns. run_monad.
  rewrite (select_duplicated_nodup _ Hnd). step_iadd. eauto.
Qed.

Lemma get_column_data_types_in_place :
  runs_in_place (get_column_data_types rt) df.
Proof.
  intros ctx b a Hb Ha. unfold get_column_data_types. run_monad.
  step_iadd. eauto.
Qed.

Lemma identifier_issues_ok (table col : string) :
  List.NoDup (columns df) -> exists issues, identifier_issues df table col = Ok issues.
Proof.
  intros Hnd. unfold identifier_issues.
  destruct (has_column col df) eqn:Hc; [|eauto].
  destruct (getitem_nodup df col Hnd Hc) as (k & ->). eauto.
Qed.

Lemma find_potential_primary_key_in_place :
  List.NoDup (columns df) -> runs_in_place (find_potential_primary_key rt) df.
Proof.
  intros Hnd ctx b a Hb Ha.
  destruct (identifier_heuristic df) as [[ids table]|] eqn:Hpick.
  - rewrite (find_potential_primary_key_selected rt df ctx b a ids table Hb Ha Hpick).
    destruct (map_result_ok (identifier_issues df table) ids) as (issues & ->).
    { intros col _. now apply identifier_issues_ok. }
    destruct (unique_identifiers_ok df) as (listed & -> & _). eauto.
  - rewrite (find_potential_primary_key_none rt df ctx b Hb Hpick). eauto.
Qed.

Lemma check_null_columns_in_place : runs_in_place (check_null_columns rt) df.
Proof.
  intros ctx b a Hb Ha. unfold check_null_columns. run_monad.
  destruct (forallb _ _); [|destruct (existsb _ _)];
    repeat step_iadd; eauto.
Qed.

Lemma check_fully_duplicate_rows_in_place :
  sum_true (df_duplicated df) = 0
  \/ (exists shown, duplicate_examples df = Ok shown) ->
  runs_in_place (check_fully_duplicate_rows rt) df.
Proof.
  intros Hdup ctx b a Hb Ha.
  rewrite (check_fully_duplicate_rows_run rt df ctx b a Hb Ha).
  destruct Hdup as [->|(shown & ->)]; [eauto|].
  destruct (sum_true (df_duplicated df)); eauto.
Qed.

Lemma check_mixed_data_types_in_place :
  runs_in_place (check_mixed_data_types rt) df.
Proof.
  intros ctx b a Hb Ha.
  destruct (scan_mixed_flags rt df (columns df) [] ∅ (fun c H => H))
    as (types' & Hscan).
  unfold check_mixed_data_types. run_monad. rewrite Hscan. cbv beta iota.
  match goal with |- context [match ?l with [] => _ | _ :: _ => _ end] =>
    destruct l
  end; repeat step_iadd; eauto.
Qed.

Lemma check_transaction_date_order_in_place :
  (forall c, In c date_columns -> date_ready df c) ->
  runs_in_place check_transaction_date_order df.
Proof.
  intros Hready ctx b a Hb Ha.
  apply (check_transaction_date_order_returns df ctx b a Hb Ha);
    apply Hready; simpl; tauto.
Qed.

Lemma check_customer_date_order_in_place :
  (forall c, In c date_columns -> date_ready df c) ->
  runs_in_place check_customer_date_order df.
Proof.
  intros Hready ctx b a Hb Ha.
  apply (check_customer_date_order_returns df ctx b a Hb Ha);
    apply Hready; simpl; tauto.
Qed.

Lemma check_data_consistency_in_place :
  List.NoDup (columns df) -> runs_in_place (check_data_consistency rt) df.
Proof.
  intros Hnd ctx b a Hb Ha. unfold check_data_consistency. run_monad.
  destruct (has_column "STATE" df) eqn:Hs;
    [|cbv beta iota delta [andb]; step_iadd; eauto].
  destruct (has_column "LANGUAGE" df) eqn:Hl;
    [|cbv beta iota delta [andb]; step_iadd; eauto].
  destruct (has_column "GENDER" df) eqn:Hg;
    [|cbv beta iota delta [andb]; step_iadd; eauto].
  cbv beta iota delta [andb].
  destruct (getitem_nodup df _ Hnd Hs) as (ks & Hks).
  destruct (getitem_nodup df _ Hnd Hl) as (kl & Hkl).
  destruct (getitem_nodup df _ Hnd Hg) as (kg & Hkg).
  destruct (invalid_values_series rt df _ valid_states _ Hks) as (xs & -> & _).
  destruct (invalid_values_series rt df _ valid_languages _ Hkl) as (xl & -> & _).
  destruct (invalid_values_series rt df _ valid_genders _ Hkg) as (xg & -> & _).
  cbv beta iota.
  destruct (0 <? length xs)%nat, (0 <? length xl)%nat, (0 <? length xg)%nat;
    repeat step_iadd; eauto.
Qed.

Lemma describe_data_in_place : runs_in_place (describe_data rt) df.
Proof.
  intros ctx b a Hb Ha. unfold describe_data. run_monad.
  destruct (empty (select_number_dtypes df)); step_iadd; eauto.
Qed.
End InPlace.

(** ** The loop over the date columns *)

Lemma nodup_date_columns : List.NoDup date_columns.
Proof.
  unfold date_columns.
  repeat (apply List.NoDup_cons; [simpl; intuition discriminate|]).
  apply List.NoDup_nil.
Qed.

Lemma nodup_found_date_columns (df : DataFrame) :
  List.NoDup (List.filter (fun col => has_column col df) date_columns).
Proof. apply List.NoDup_filter, nodup_date_columns. Qed.

Lemma getitem_setitem_other (df : DataFrame) (c c' : string) (dt : dtype)
      (vs : list value) :
  c' <> c -> getitem (setitem df c dt vs) c' = getitem df c'.
Proof. intros H. unfold getitem. now rewrite labelled_setitem_other. Qed.

Lemma getitem_label (df : DataFrame) (c : string) (k : column) :
  getitem df c = Ok (Series k) -> label k = c.
Proof.
  unfold getitem. intros H.
  destruct (labelled df c) as [|k0 [|k1 ks]] eqn:E; try discriminate.
  inversion H; subst k0.
  assert (Hin : In k (labelled df c)) by (rewrite E; now left).
  apply filter_In in Hin. now apply String.eqb_eq.
Qed.

Lemma getitem_setitem_same (df : DataFrame) (c : string) (dt : dtype)
      (vs : list value) (k : column) :
  getitem df c = Ok (Series k) ->
  getitem (setitem df c dt vs) c = Ok (Series (Column c dt vs)).
Proof.
  intros Hsel. pose proof (getitem_label df c k Hsel) as Hlab.
  unfold getitem in *. rewrite labelled_setitem_same.
  destruct (labelled df c) as [|k0 [|k1 ks]]; try discriminate.
  inversion Hsel; subst k0. simpl. now rewrite Hlab.
Qed.

Lemma cells_at_series (df : DataFrame) (c : string) (k : column) :
  getitem df c = Ok (Series k) -> cells_at df c = cells k.
Proof. intros H. unfold cells_at. now rewrite H. Qed.

Lemma date_convertible_setitem (rt : runtime) (df : DataFrame) (c c' : string)
      (vs : list value) :
  c' <> c ->
  date_convertible rt (setitem df c datetime64_utc vs) c'
  <-> date_convertible rt df c'.
Proof.
  intros H. unfold date_convertible. now rewrite getitem_setitem_other.
Qed.

(** The loop returns when every column it goes through can be converted. *)
Lemma for_each_check_date_column_returns (rt : runtime) (found : list string)
      (acc : list string) (df : DataFrame) (ctx : gmap string string) :
  List.NoDup found ->
  (forall c, In c found -> date_convertible rt df c) ->
  exists acc' df',
    for_each (check_date_column rt) found acc (State df ctx)
    = Returns acc' (State df' ctx).
Proof.
  revert acc df. induction found as [|col found IH]; intros acc df Hnd Hconv.
  - exists acc, df. reflexivity.
  - cbn [for_each]. unfold bind. rewrite check_date_column_run.
    destruct (Hconv col (or_introl eq_refl)) as (k & ws & Hsel & Hws).
    rewrite Hsel, Hws.
    inversion Hnd as [|? ? Hcol Hnd']; subst.
    apply IH; [exact Hnd'|]. intros c Hc.
    apply date_convertible_setitem; [intros ->; contradiction|].
    apply Hconv. now right.
Qed.

(** What the loop has done when it returns: nothing to the dictionary; each
    column it went through now holds what [pd.to_datetime] made of it, the
    other columns are as they were; and one line has been added for each
    column with an instant after the clock reading. *)
Lemma for_each_check_date_column_trace (rt : runtime) (found : list string)
      (acc : list string) (df : DataFrame) (ctx : gmap string string)
      (acc' : list string) (s' : state) :
  List.NoDup found ->
  for_each (check_date_column rt) found acc (State df ctx) = Returns acc' s' ->
  context s' = ctx /\
  columns (frame s') = columns df /\
  (forall c, In c found ->
     exists k converted,
       getitem df c = Ok (Series k) /\
       to_datetime rt (Series k) = Ok converted /\
       getitem (frame s') c = Ok (Series (Column c datetime64_utc converted))) /\
  (forall c, ~ In c found -> getitem (frame s') c = getitem df c) /\
  acc' = acc ++ flat_map (fun c => future_dates_finding rt c (cells_at (frame s') c))
                         found.
Proof.
  revert acc df. induction found as [|col found IH]; intros acc df Hnd Hrun.
  - simpl in Hrun. inversion Hrun; subst. simpl.
    split; [reflexivity|]. split; [reflexivity|]. split; [intros c []|].
    split; [reflexivity | now rewrite app_nil_r].
  - cbn [for_each] in Hrun. unfold bind in Hrun.
    rewrite check_date_column_run in Hrun.
    destruct (getitem df col) as [selected|e] eqn:Hsel; [|discriminate].
    destruct (to_datetime rt selected) as [converted|e] eqn:Hconv; [|discriminate].
    destruct (to_datetime_series _ _ _ Hconv) as (k & ->).
    inversion Hnd as [|? ? Hcol Hnd']; subst.
    rewrite finding_of_future_dates in Hrun.
    destruct (IH _ _ Hnd' Hrun) as (Hctx & Hcols & Hdone & Hkept & Hacc).
    assert (Hcolumn : getitem (frame s') col
                      = Ok (Series (Column col datetime64_utc converted))).
    { rewrite (Hkept col Hcol). exact (getitem_setitem_same _ _ _ _ _ Hsel). }
    split; [exact Hctx|]. split; [now rewrite Hcols, columns_setitem|].
    split; [|split].
    + intros c [<-|Hin]; [exists k, converted; auto|].
      destruct (Hdone c Hin) as (k1 & ws & Hsel1 & Hws & Hnow).
      rewrite getitem_setitem_other in Hsel1 by (intros ->; contradiction).
      exists k1, ws. auto.
    + intros c Hc. rewrite Hkept by (intros Hin; apply Hc; now right).
      apply getitem_setitem_other. intros ->. apply Hc. now left.
    + rewrite Hacc. cbn [flat_map].
      rewrite (cells_at_series _ _ _ Hcolumn). cbn [cells].
      now rewrite app_assoc.
Qed.

(** What the loop has done when it raises: the exception is that of
    [pd.to_datetime] on one of the columns; the columns before that one hold
    their converted values, every other column is as it was. *)
Lemma for_each_check_date_column_raised (rt : runtime) (found : list string)
      (acc : list string) (df : DataFrame) (ctx : gmap string string)
      (e : exn) (s' : state) :
  List.NoDup found ->
  (forall c, In c found -> has_column c df = true) ->
  for_each (check_date_column rt) found acc (State df ctx) = Raises e s' ->
  context s' = ctx /\
  columns (frame s') = columns df /\
  exists before c after selected,
    found = before ++ c :: after /\
    getitem df c = Ok selected /\
    to_datetime rt selected = Err e /\
    (forall c', In c' before ->
       exists k converted,
         getitem df c' = Ok (Series k) /\
         to_datetime rt (Series k) = Ok converted /\
         getitem (frame s') c' = Ok (Series (Column c' datetime64_utc converted))) /\
    (forall c', ~ In c' before -> getitem (frame s') c' = getitem df c').
Proof.
  revert acc df. induction found as [|col found IH]; intros acc df Hnd Hhas Hrun.
  - discriminate.
  - cbn [for_each] in Hrun. unfold bind in Hrun.
    rewrite check_date_column_run in Hrun.
    inversion Hnd as [|? ? Hcol Hnd']; subst.
    destruct (getitem df col) as [selected|e0] eqn:Hsel.
    + destruct (to_datetime rt selected) as [converted|e0] eqn:Hconv.
      * destruct (to_datetime_series _ _ _ Hconv) as (k & ->).
        apply IH in Hrun; [|exact Hnd'|].
        2:{ intros c Hc.
            rewrite (has_column_same_labels df _ c (columns_setitem _ _ _ _)).
            apply Hhas. now right. }
        destruct Hrun as (Hctx & Hcols & before & c & after & selected & Hsplit
                          & Hsel1 & Herr & Hdone & Hkept).
        assert (Hc : In c found) by (rewrite Hsplit; apply in_or_app; right; now left).
        assert (Hbefore : forall c', In c' before -> In c' found).
        { intros c' Hin. rewrite Hsplit. apply in_or_app. now left. }
        split; [exact Hctx|]. split; [now rewrite Hcols, columns_setitem|].
        exists (col :: before), c, after, selected.
        split; [now rewrite Hsplit|].
        split; [now rewrite getitem_setitem_other in Hsel1
                  by (intros ->; contradiction)|].
        split; [exact Herr|]. split.
        -- intros c' [<-|Hin].
           ++ exists k, converted. split; [exact Hsel|]. split; [exact Hconv|].
              rewrite Hkept by (intros Hin; apply Hcol; now apply Hbefore).
              exact (getitem_setitem_same _ _ _ _ _ Hsel).
           ++ destruct (Hdone c' Hin) as (k1 & ws & Hsel' & Hws & Hnow).
              rewrite getitem_setitem_other in Hsel'
                by (intros ->; apply Hcol; now apply Hbefore).
              exists k1, ws. auto.
        -- intros c' Hc'. rewrite Hkept by (intros Hin; apply Hc'; now right).
           apply getitem_setitem_other. intros ->. apply Hc'. now left.
      * inversion Hrun; subst. simpl.
        split; [reflexivity|]. split; [reflexivity|].
        exists [], col, found, selected.
        split; [reflexivity|]. split; [exact Hsel|]. split; [exact Hconv|].
        split; [intros c' []|reflexivity].
    + pose proof (Hhas col (or_introl eq_refl)) as H. apply has_column_In in H.
      destruct (getitem_present df col H) as (selected & E). congruence.
Qed.

(** ** The runs of the date-validity check *)

(** When the check returns it has gone through the loop, if there was a date
    column, and written its finding. *)
Lemma check_date_validity_returned (rt : runtime) (df : DataFrame)
      (ctx : gmap string string) (b a : string) (u : unit) (s' : state) :
  ctx !! "body" = Some b ->
  ctx !! "action_items" = Some a ->
  check_date_validity rt (State df ctx) = Returns u s' ->
  let present := List.filter (fun col => has_column col df) date_columns in
  (present = [] /\ frame s' = df /\
   context s' = <["body" := b +:+ section8 "No date columns in this table."]> ctx)
  \/
  (present <> [] /\
   exists acc',
     for_each (check_date_column rt) present [] (State df ctx)
     = Returns acc' (State (frame s') ctx) /\
     context s'
     = match acc' with
       | [] => <["body" := b +:+ section8 "All date columns are valid."]> ctx
       | _ :: _ =>
           <["body" := b +:+ section8 (join (nl +:+ "       - ") acc')]>
             (<["action_items" :=
                  a +:+ correct_invalid_dates (join (nl +:+ "       - ") acc')]> ctx)
       end).
Proof.
  intros Hb Ha. destruct s' as [df' ctx']. cbn [frame context].
  unfold check_date_validity. run_monad.
  destruct (List.filter (fun col => has_column col df) date_columns)
    as [|c0 found].
  - step_iadd. intros E. inversion E; subst. left. auto.
  - destruct (for_each (check_date_column rt) (c0 :: found) [] (State df ctx))
      as [acc' [df1 ctx1]|e s1] eqn:Hloop; [|discriminate].
    destruct (for_each_check_date_column_ready _ _ _ _ _ _ _ Hloop) as (Hctx & _).
    simpl in Hctx. subst ctx1. cbv beta iota.
    destruct acc' as [|x acc']; repeat step_iadd; intros E; inversion E; subst;
      right; (split; [discriminate|]); eexists; (split; [reflexivity|]);
      unfold section8, correct_invalid_dates; rewrite ?append_assoc; reflexivity.
Qed.

Lemma check_date_validity_returns (rt : runtime) (df : DataFrame)
      (ctx : gmap string string) (b a : string) :
  ctx !! "body" = Some b ->
  ctx !! "action_items" = Some a ->
  (forall c, In c date_columns -> has_column c df = true ->
             date_convertible rt df c) ->
  exists df' ctx',
    check_date_validity rt (State df ctx) = Returns tt (State df' ctx').
Proof.
  intros Hb Ha Hconv. unfold check_date_validity. run_monad.
  pose proof (nodup_found_date_columns df) as Hnd.
  assert (Hfound : forall c,
            In c (List.filter (fun col => has_column col df) date_columns) ->
            date_convertible rt df c).
  { intros c Hc. apply filter_In in Hc. now apply Hconv. }
  destruct (List.filter (fun col => has_column col df) date_columns)
    as [|c0 found].
  - step_iadd. eauto.
  - destruct (for_each_check_date_column_returns rt (c0 :: found) [] df ctx Hnd Hfound)
      as (acc' & df' & ->).
    cbv beta iota. destruct acc'; repeat step_iadd; eauto.
Qed.

Lemma check_date_validity_converts (rt : runtime) (df : DataFrame)
      (ctx : gmap string string) (u : unit) (s' : state) :
  check_date_validity rt (State df ctx) = Returns u s' ->
  forall c, In c date_columns -> has_column c df = true ->
            date_convertible rt df c.
Proof.
  unfold check_date_validity. run_monad. intros Hrun c Hc Hhas.
  pose proof (nodup_found_date_columns df) as Hnd.
  assert (Hin : In c (List.filter (fun col => has_column col df) date_columns)).
  { apply filter_In. now split. }
  destruct (List.filter (fun col => has_column col df) date_columns)
    as [|c0 found]; [destruct Hin|].
  destruct (for_each (check_date_column rt) (c0 :: found) [] (State df ctx))
    as [acc' s1|e s1] eqn:Hloop; [|discriminate].
  destruct (for_each_check_date_column_trace rt _ _ _ _ _ _ Hnd Hloop)
    as (_ & _ & Hdone & _).
  destruct (Hdone c Hin) as (k & converted & Hsel & Hconv & _).
  now exists k, converted.
Qed.

(** C7. The boundary is strict.  When the date-validity check returns, each
    date column present holds what [pd.to_datetime] made of it, and the
    finding names, column by column, exactly the instants of that column
    strictly after the clock reading: an instant equal to the reading is not
    reported, one a second later is.  With no such instant in any column the
    finding is "All date columns are valid." and no action is asked for. *)
Theorem date_validity_strict_boundary (rt : runtime) (df : DataFrame)
        (ctx : gmap string string) (b a : string) (s' : state) :
  ctx !! "body" = Some b ->
  ctx !! "action_items" = Some a ->
  check_date_validity rt (State df ctx) = Returns tt s' ->
  let present := List.filter (fun col => has_column col df) date_columns in
  let findings :=
    flat_map (fun c => future_dates_finding rt c (cells_at (frame s') c)) present in
  (forall c, In c present ->
     exists k converted,
       getitem df c = Ok (Series k) /\
       to_datetime rt (Series k) = Ok converted /\
       cells_at (frame s') c = converted) /\
  context s'
  = match present, findings with
    | [], _ => <["body" := b +:+ section8 "No date columns in this table."]> ctx
    | _ :: _, [] => <["body" := b +:+ section8 "All date columns are valid."]> ctx
    | _ :: _, _ :: _ =>
        <["body" := b +:+ section8 (join (nl +:+ "       - ") findings)]>
          (<["action_items" :=
               a +:+ correct_invalid_dates (join (nl +:+ "       - ") findings)]> ctx)
    end /\
  (forall c, In c present ->
     (future_dates_finding rt c (cells_at (frame s') c) = []
      <-> forall t, In (VTime t) (cells_at (frame s') c) -> (t <= now_utc rt c)%Z)) /\
  (forall now vs t,
      In t (later_instants now vs) <-> In (VTime t) vs /\ (now < t)%Z) /\
  (forall now vs, List.NoDup (later_instants now vs)) /\
  (forall now vs, ~ In now (later_instants now vs)) /\
  (forall now vs, In (VTime (now + 1000000000)) vs ->
                  In (now + 1000000000)%Z (later_instants now vs)).
Proof.
  intros Hb Ha Hrun present findings.
  assert (Hempty : forall c,
            future_dates_finding rt c (cells_at (frame s') c) = []
            <-> forall t, In (VTime t) (cells_at (frame s') c) ->
                          (t <= now_utc rt c)%Z).
  { intros c. unfold future_dates_finding.
    pose proof (fun t => later_instants_spec (now_utc rt c) t
                           (cells_at (frame s') c)) as Hspec.
    destruct (later_instants (now_utc rt c) (cells_at (frame s') c)) as [|t ts].
    - split; [|reflexivity]. intros _ t Ht.
      destruct (Z.le_gt_cases t (now_utc rt c)) as [Hle|Hgt]; [exact Hle|].
      destruct (proj2 (Hspec t) (conj Ht Hgt)).
    - split; [discriminate|]. intros Hnone. exfalso.
      destruct (proj1 (Hspec t) (or_introl eq_refl)) as [Hin Hlt].
      specialize (Hnone t Hin). lia. }
  assert (Hrest :
    (forall c, In c present ->
       (future_dates_finding rt c (cells_at (frame s') c) = []
        <-> forall t, In (VTime t) (cells_at (frame s') c) -> (t <= now_utc rt c)%Z)) /\
    (forall now vs t,
        In t (later_instants now vs) <-> In (VTime t) vs /\ (now < t)%Z) /\
    (forall now vs, List.NoDup (later_instants now vs)) /\
    (forall now vs, ~ In now (later_instants now vs)) /\
    (forall now vs, In (VTime (now + 1000000000)) vs ->
                    In (now + 1000000000)%Z (later_instants now vs))).
  { split; [intros c _; apply Hempty|].
    split; [intros now vs t; apply later_instants_spec|].
    split; [intros now vs; apply later_instants_from_nodup|].
    split.
    - intros now vs Hin. apply later_instants_spec in Hin. lia.
    - intros now vs Hin. apply later_instants_spec. split; [exact Hin | lia]. }
  destruct (check_date_validity_returned rt df ctx b a tt s' Hb Ha Hrun)
    as [(Hnone & Hframe & Hctx)|(Hsome & acc' & Hloop & Hctx)];
    fold present in Hnone || fold present in Hsome, Hloop.
  - split; [rewrite Hnone; intros c []|]. split; [|exact Hrest].
    rewrite Hctx, Hnone. reflexivity.
  - destruct (for_each_check_date_column_trace rt present [] df ctx acc' _
                (nodup_found_date_columns df) Hloop)
      as (_ & _ & Hdone & _ & Hacc).
    cbn [frame app] in Hdone, Hacc. fold findings in Hacc. subst acc'.
    split; [|split; [|exact Hrest]].
    + intros c Hc. destruct (Hdone c Hc) as (k & converted & Hsel & Hconv & Hnow).
      exists k, converted. split; [exact Hsel|]. split; [exact Hconv|].
      now rewrite (cells_at_series _ _ _ Hnow).
    + rewrite Hctx. destruct present; [contradiction | reflexivity].
Qed.

Lemma date_validity_strict_boundary_witness :
  exists s',
    check_date_validity Sample.rt (State purchases (initial_context purchases))
    = Returns tt s' /\
    cells_at (frame s') "PURCHASE_DATE"
    = [VTime (now_utc Sample.rt "PURCHASE_DATE");
       VTime (now_utc Sample.rt "PURCHASE_DATE" + 1000000000)] /\
    later_instants (now_utc Sample.rt "PURCHASE_DATE")
      (cells_at (frame s') "PURCHASE_DATE")
    = [(now_utc Sample.rt "PURCHASE_DATE" + 1000000000)%Z] /\
    context s'
    = <["body" :=
          "Here is the result of the initial data check for of table 'purchases':"
            +:+ nl +:+ section8
              ("PURCHASE_DATE has future dates: "
                 +:+ str_value Sample.rt
                       (VTime (now_utc Sample.rt "PURCHASE_DATE" + 1000000000))
                 +:+ ".")]>
        (<["action_items" :=
             "Action required:" +:+ nl +:+
             correct_invalid_dates
               ("PURCHASE_DATE has future dates: "
                  +:+ str_value Sample.rt
                        (VTime (now_utc Sample.rt "PURCHASE_DATE" + 1000000000))
                  +:+ ".")]>
           (initial_context purchases)).
Proof.
  eexists.
  assert (Hrun : check_date_validity Sample.rt
                   (State purchases (initial_context purchases))
                 = Returns tt _) by (vm_compute; reflexivity).
  split; [exact Hrun|]. split; [reflexivity|]. split; [reflexivity|].
  rewrite (proj1 (proj2 (date_validity_strict_boundary Sample.rt purchases
                           (initial_context purchases) _ _ _
                           eq_refl eq_refl Hrun))).
  reflexivity.
Defined.

(** ** When the driver returns *)

Lemma run_steps_app (first rest : list (M unit)) (s : state) :
  run_steps (first ++ rest) s
  = match run_steps first s with
    | Returns _ s1 => run_steps rest s1
    | Raises e s1 => Raises e s1
    end.
Proof.
  revert s. induction first as [|step first IH]; intros s; [reflexivity|].
  cbn [app run_steps]. unfold bind.
  destruct (step s) as [u s1|e s1]; [apply IH | reflexivity].
Qed.

(** X12. The driver returns a report exactly when three things hold: the
    labels of the table are distinct; no row repeats an earlier one, or the
    rows identical to another can be sorted by all columns for the examples;
    and [pd.to_datetime] accepts every date column present, as a column.  No
    other feature of the table stops a run. *)
Theorem print_summary_returns_iff (rt : runtime) (df : DataFrame) :
  (exists report s, print_summary rt df = Returns report s)
  <-> List.NoDup (columns df) /\
      (sum_true (df_duplicated df) = 0
       \/ sort_keys_ok df (select (rows df) (df_duplicated_keep_false df)) = true) /\
      (forall c, In c date_columns -> In c (columns df) ->
         exists k converted,
           getitem df c = Ok (Series k) /\
           to_datetime rt (Series k) = Ok converted).
Proof.
  set (pre := [ get_dataframe_shape; check_column_spaces rt;
                check_duplicate_columns rt; get_column_data_types rt;
                find_potential_primary_key rt; check_null_columns rt ]).
  set (mid := [ check_fully_duplicate_rows rt; check_mixed_data_types rt ]).
  set (post := [ check_transaction_date_order; check_customer_date_order;
                 check_data_consistency rt; describe_data rt ]).
  assert (Hsteps : TABLE_CHECK_STEPS rt
                   = pre ++ mid ++ check_date_validity rt :: post)
    by reflexivity.
  pose proof (append_only_steps rt) as Happ. rewrite Hsteps in Happ.
  apply List.Forall_app in Happ. destruct Happ as [Hpre Hrest].
  apply List.Forall_app in Hrest. destruct Hrest as [Hmid Hrest].
  inversion Hrest as [|? ? Hcdv Hpost]; subst.
  assert (Hexamples : List.NoDup (columns df) ->
            ((exists shown, duplicate_examples df = Ok shown)
             <-> sort_keys_ok df (select (rows df) (df_duplicated_keep_false df))
                 = true)).
  { intros Hnd. unfold duplicate_examples. rewrite (distinct_nodup _ Hnd).
    destruct (sort_keys_ok df (select (rows df) (df_duplicated_keep_false df))).
    - split; [reflexivity | eauto].
    - split; [intros (shown & H); discriminate | discriminate]. }
  assert (Hfirst : List.NoDup (columns df) ->
            exists ctx1 b1 a1,
              run_steps pre (State df (initial_context df))
              = Returns tt (State df ctx1) /\
              ctx1 !! "body" = Some b1 /\ ctx1 !! "action_items" = Some a1).
  { intros Hnd.
    assert (Hin : Forall (fun m => runs_in_place m df) pre).
    { unfold pre.
      apply List.Forall_cons; [apply get_dataframe_shape_in_place|].
      apply List.Forall_cons; [apply check_column_spaces_in_place|].
      apply List.Forall_cons; [now apply check_duplicate_columns_in_place|].
      apply List.Forall_cons; [apply get_column_data_types_in_place|].
      apply List.Forall_cons; [now apply find_potential_primary_key_in_place|].
      apply List.Forall_cons; [apply check_null_columns_in_place|].
      apply List.Forall_nil. }
    destruct (run_steps_in_place pre df Hpre Hin (initial_context df) _ _
                (initial_context_body df) (initial_context_action_items df))
      as (ctx1 & E1).
    pose proof (append_only_run_steps pre Hpre (State df (initial_context df)))
      as Hext.
    rewrite E1 in Hext. simpl in Hext.
    destruct (extends_keys _ _ _ _ Hext (initial_context_body df)
                (initial_context_action_items df)) as (b1 & a1 & Hb1 & Ha1).
    exists ctx1, b1, a1. auto. }
  assert (Hsecond : forall ctx1 b1 a1,
            ctx1 !! "body" = Some b1 -> ctx1 !! "action_items" = Some a1 ->
            sum_true (df_duplicated df) = 0
            \/ (exists shown, duplicate_examples df = Ok shown) ->
            exists ctx2 b2 a2,
              run_steps mid (State df ctx1) = Returns tt (State df ctx2) /\
              ctx2 !! "body" = Some b2 /\ ctx2 !! "action_items" = Some a2).
  { intros ctx1 b1 a1 Hb1 Ha1 Hdup.
    assert (Hin : Forall (fun m => runs_in_place m df) mid).
    { unfold mid.
      apply List.Forall_cons; [now apply check_fully_duplicate_rows_in_place|].
      apply List.Forall_cons; [apply check_mixed_data_types_in_place|].
      apply List.Forall_nil. }
    destruct (run_steps_in_place mid df Hmid Hin ctx1 _ _ Hb1 Ha1) as (ctx2 & E2).
    pose proof (append_only_run_steps mid Hmid (State df ctx1)) as Hext.
    rewrite E2 in Hext. simpl in Hext.
    destruct (extends_keys _ _ _ _ Hext Hb1 Ha1) as (b2 & a2 & Hb2 & Ha2).
    exists ctx2, b2, a2. auto. }
  split.
  - intros (report & s & Hret).
    assert (Hnd : List.NoDup (columns df)).
    { destruct (distinct (columns df)) eqn:Hd; [now apply distinct_true|].
      assert (H : ~ List.NoDup (columns df)).
      { intros H. apply distinct_nodup in H. congruence. }
      destruct (repeated_labels_abort_the_run rt df H) as (s0 & E). congruence. }
    split; [exact Hnd|].
    destruct (Hfirst Hnd) as (ctx1 & b1 & a1 & E1 & Hb1 & Ha1).
    unfold print_summary in Hret. rewrite Hsteps in Hret. unfold bind in Hret.
    rewrite run_steps_app, E1 in Hret.
    assert (Hdup : sum_true (df_duplicated df) = 0
                   \/ (exists shown, duplicate_examples df = Ok shown)).
    { rewrite run_steps_app in Hret. unfold mid in Hret at 1.
      cbn [run_steps] in Hret. unfold bind in Hret at 1.
      rewrite (check_fully_duplicate_rows_run rt df ctx1 b1 a1 Hb1 Ha1) in Hret.
      destruct (sum_true (df_duplicated df)); [now left|].
      destruct (duplicate_examples df) as [shown|e]; [right; eauto | discriminate]. }
    split; [destruct Hdup as [H|H]; [now left | right; now apply Hexamples]|].
    intros c Hc Hin.
    destruct (Hsecond ctx1 b1 a1 Hb1 Ha1 Hdup) as (ctx2 & b2 & a2 & E2 & Hb2 & Ha2).
    rewrite run_steps_app, E2 in Hret. cbn [run_steps] in Hret.
    unfold bind in Hret.
    destruct (check_date_validity rt (State df ctx2)) as [u s8|e s8] eqn:E8;
      [|discriminate].
    apply (check_date_validity_converts rt df ctx2 u s8 E8 c Hc).
    now apply has_column_In.
  - intros (Hnd & Hdup & Hconv).
    assert (Hdup' : sum_true (df_duplicated df) = 0
                    \/ (exists shown, duplicate_examples df = Ok shown)).
    { destruct Hdup as [H|H]; [now left | right; now apply Hexamples]. }
    destruct (Hfirst Hnd) as (ctx1 & b1 & a1 & E1 & Hb1 & Ha1).
    destruct (Hsecond ctx1 b1 a1 Hb1 Ha1 Hdup') as (ctx2 & b2 & a2 & E2 & Hb2 & Ha2).
    destruct (check_date_validity_returns rt df ctx2 b2 a2 Hb2 Ha2)
      as (df8 & ctx8 & E8).
    { intros c Hc Hhas. apply Hconv; [exact Hc | now apply has_column_In]. }
    destruct (check_date_validity_ready rt df ctx2 b2 a2 tt _ Hb2 Ha2 E8)
      as (Hcols & _ & Hready).
    simpl in Hcols, Hready.
    pose proof (Hcdv (State df ctx2)) as Hext8. rewrite E8 in Hext8.
    simpl in Hext8.
    destruct (extends_keys _ _ _ _ Hext8 Hb2 Ha2) as (b8 & a8 & Hb8 & Ha8).
    assert (Hnd8 : List.NoDup (columns df8)) by now rewrite Hcols.
    assert (Hin : Forall (fun m => runs_in_place m df8) post).
    { unfold post.
      apply List.Forall_cons; [now apply check_transaction_date_order_in_place|].
      apply List.Forall_cons; [now apply check_customer_date_order_in_place|].
      apply List.Forall_cons; [now apply check_data_consistency_in_place|].
      apply List.Forall_cons; [apply describe_data_in_place|].
      apply List.Forall_nil. }
    destruct (run_steps_in_place post df8 Hpost Hin ctx8 b8 a8 Hb8 Ha8)
      as (ctx12 & E12).
    pose proof (append_only_run_steps post Hpost (State df8 ctx8)) as Hext12.
    rewrite E12 in Hext12. simpl in Hext12.
    destruct (extends_keys _ _ _ _ Hext12 Hb8 Ha8) as (b12 & a12 & Hb12 & Ha12).
    unfold print_summary. rewrite Hsteps. unfold bind.
    rewrite run_steps_app, E1, run_steps_app, E2. cbn [run_steps]. unfold bind.
    rewrite E8, E12.
    unfold lookup_context, ret. simpl context. rewrite Hb12. cbv beta iota.
    simpl context. rewrite Ha12. eauto.
Qed.

(** Three tables with distinct labels on which the driver raises, and one on
    which it returns. *)
Example print_summary_raises_and_returns :
  (exists s, print_summary Sample.rt unsortable = Raises TypeError s) /\
  (exists s, print_summary Sample.rt mixed_scans = Raises ValueError s) /\
  (exists s, print_summary Sample.rt unreadable_scans = Raises ValueError s) /\
  (exists report s, print_summary Sample.rt signups = Returns report s).
Proof.
  split; [eexists; vm_compute; reflexivity|].
  split; [eexists; vm_compute; reflexivity|].
  split; [eexists; vm_compute; reflexivity|].
  eexists. eexists. vm_compute. reflexivity.
Qed.

(** ** The date-validity check on its own *)

(** X13. With no date column in the table the date-validity check only
    notes "No date columns in this table." and leaves the frame alone.  When
    it raises, the exception is the [ValueError] or [TypeError] that
    [pd.to_datetime] raised on one of the date columns present; nothing has
    been written to the dictionary and the labels of the frame are unchanged;
    the date columns that come before the failing one hold their converted
    values, and every other column is as it was. *)
Theorem date_validity_edges (rt : runtime) (df : DataFrame)
        (ctx : gmap string string) (b a : string) :
  ctx !! "body" = Some b ->
  ctx !! "action_items" = Some a ->
  ((forall c, In c date_columns -> has_column c df = false) ->
   check_date_validity rt (State df ctx)
   = Returns tt
       (State df (<["body" := b +:+ section8 "No date columns in this table."]> ctx)))
  /\
  (forall e s',
      check_date_validity rt (State df ctx) = Raises e s' ->
      context s' = ctx /\ columns (frame s') = columns df /\
      (e = ValueError \/ e = TypeError) /\
      exists before c after selected,
        List.filter (fun col => has_column col df) date_columns
        = before ++ c :: after /\
        getitem df c = Ok selected /\
        to_datetime rt selected = Err e /\
        (forall c', In c' before ->
           exists k converted,
             getitem df c' = Ok (Series k) /\
             to_datetime rt (Series k) = Ok converted /\
             getitem (frame s') c'
             = Ok (Series (Column c' datetime64_utc converted))) /\
        (forall c', ~ In c' before -> getitem (frame s') c' = getitem df c')).
Proof.
  intros Hb Ha. split.
  - intros Hnone. unfold check_date_validity. run_monad.
    assert (Hfound : List.filter (fun col => has_column col df) date_columns = []).
    { destruct (List.filter (fun col => has_column col df) date_columns)
        as [|c rest] eqn:E; [reflexivity|].
      assert (Hin : In c (List.filter (fun col => has_column col df) date_columns)).
      { rewrite E. now left. }
      apply filter_In in Hin. destruct Hin as [Hc Hhas].
      rewrite (Hnone c Hc) in Hhas. discriminate. }
    rewrite Hfound. now rewrite (iadd_present _ _ b).
  - intros e s'. unfold check_date_validity. run_monad.
    pose proof (nodup_found_date_columns df) as Hnd.
    assert (Hhas : forall c,
              In c (List.filter (fun col => has_column col df) date_columns) ->
              has_column c df = true).
    { intros c Hc. apply filter_In in Hc. tauto. }
    destruct (List.filter (fun col => has_column col df) date_columns)
      as [|c0 found].
    + step_iadd. discriminate.
    + destruct (for_each (check_date_column rt) (c0 :: found) [] (State df ctx))
        as [acc' [df1 ctx1]|e1 s1] eqn:Hloop.
      * destruct (for_each_check_date_column_ready _ _ _ _ _ _ _ Hloop)
          as (Hctx & _). simpl in Hctx. subst ctx1. cbv beta iota.
        destruct acc'; repeat step_iadd; discriminate.
      * intros H. inversion H; subst.
        destruct (for_each_check_date_column_raised _ _ _ _ _ _ _ Hnd Hhas Hloop)
          as (Hctx & Hcols & before & c & after & selected & Hsplit & Hsel
              & Herr & Hdone & Hkept).
        split; [exact Hctx|]. split; [exact Hcols|].
        split; [exact (to_datetime_errors _ _ _ Herr)|].
        exists before, c, after, selected. auto.
Qed.

Lemma date_validity_edges_witness :
  exists s',
    check_date_validity Sample.rt
      (State unreadable_scans (initial_context unreadable_scans))
    = Raises ValueError s' /\
    context s' = initial_context unreadable_scans /\
    columns (frame s') = ["PURCHASE_DATE"; "SCAN_DATE"] /\
    frame s'
    = Frame "scans" 2
        [ Column "PURCHASE_DATE" datetime64_utc
            [VTime 0; VTime 4102444800000000000];
          Column "SCAN_DATE" object [VStr "1970-01-01"; VStr "yesterday"] ].
Proof.
  eexists.
  assert (Hrun : check_date_validity Sample.rt
                   (State unreadable_scans (initial_context unreadable_scans))
                 = Raises ValueError _) by (vm_compute; reflexivity).
  destruct (proj2 (date_validity_edges Sample.rt unreadable_scans
                     (initial_context unreadable_scans) _ _ eq_refl eq_refl)
              _ _ Hrun) as (Hctx & Hcols & _).
  split; [exact Hrun|]. split; [exact Hctx|]. split; [exact Hcols | reflexivity].
Defined.

(** ** Running the date-validity check again *)

(** Assigning to a column what it holds leaves the frame as it is. *)
Lemma setitem_same (df : DataFrame) (c : string) (k : column) :
  getitem df c = Ok (Series k) -> setitem df c (col_dtype k) (cells k) = df.
Proof.
  intros Hsel. unfold getitem in Hsel.
  destruct (labelled df c) as [|k0 [|k1 ks]] eqn:E; try discriminate.
  inversion Hsel; subst k0. clear Hsel.
  assert (Honly : forall k', In k' (cols df) -> String.eqb (label k') c = true ->
                             k' = k).
  { intros k' Hin Hlab.
    assert (H : In k' (labelled df c)) by (apply filter_In; now split).
    rewrite E in H. destruct H as [H|[]]. now symmetry. }
  unfold setitem. destruct df as [name n columns0]. simpl in *. f_equal.
  rewrite <- (map_id columns0) at 2. apply map_ext_in.
  intros k' Hin. destruct (String.eqb (label k') c) eqn:Hlab; [|reflexivity].
  rewrite (Honly k' Hin Hlab). now destruct k.
Qed.

Lemma normal_series_setitem (df : DataFrame) (c c' : string) (vs : list value)
      (k : column) :
  getitem df c' = Ok (Series k) ->
  Forall is_datetime vs ->
  (c' = c \/ normalised k) ->
  exists k', getitem (setitem df c datetime64_utc vs) c' = Ok (Series k') /\
             normalised k'.
Proof.
  intros Hsel Hvs Hor. unfold getitem in *.
  destruct (String.eqb c' c) eqn:E.
  - apply String.eqb_eq in E. subst c'. rewrite labelled_setitem_same.
    destruct (labelled df c) as [|k1 [|k2 ks]]; try discriminate.
    simpl. eexists. split; [reflexivity|]. now split.
  - apply String.eqb_neq in E. rewrite labelled_setitem_other by exact E.
    destruct Hor as [Heq|Hk]; [contradiction|].
    rewrite Hsel. eauto.
Qed.

(** When the loop returns, every column it went through is a column of
    datetimes, and so is every column that was one before. *)
Lemma for_each_check_date_column_normalises (rt : runtime) (found : list string)
      (acc : list string) (df : DataFrame) (ctx : gmap string string)
      (acc' : list string) (s' : state) :
  for_each (check_date_column rt) found acc (State df ctx) = Returns acc' s' ->
  (forall c, In c found ->
             exists k, getitem (frame s') c = Ok (Series k) /\ normalised k) /\
  (forall c k, getitem df c = Ok (Series k) -> normalised k ->
               exists k', getitem (frame s') c = Ok (Series k') /\ normalised k').
Proof.
  revert acc df. induction found as [|col found IH]; intros acc df Hrun.
  - simpl in Hrun. inversion Hrun; subst. simpl. split; [intros c []|]. eauto.
  - cbn [for_each] in Hrun. unfold bind in Hrun.
    rewrite check_date_column_run in Hrun.
    destruct (getitem df col) as [selected|e] eqn:Hsel; [|discriminate].
    destruct (to_datetime rt selected) as [converted|e] eqn:Hconv; [|discriminate].
    pose proof (to_datetime_is_datetime _ _ _ Hconv) as Hnormal.
    destruct (to_datetime_series _ _ _ Hconv) as (k & ->).
    destruct (IH _ _ Hrun) as (Hfound & Hkept). split.
    + intros c [<-|Hin]; [|now apply Hfound].
      destruct (normal_series_setitem df col col converted k Hsel Hnormal
                  (or_introl eq_refl)) as (k1 & Hsel1 & Hn1).
      exact (Hkept _ _ Hsel1 Hn1).
    + intros c k0 Hsel0 Hn0.
      destruct (normal_series_setitem df col c converted k0 Hsel0 Hnormal
                  (or_intror Hn0)) as (k1 & Hsel1 & Hn1).
      exact (Hkept _ _ Hsel1 Hn1).
Qed.

(** On columns of datetimes the loop changes nothing in the frame. *)
Lemma for_each_check_date_column_fixed (rt : runtime) (found : list string)
      (acc : list string) (df : DataFrame) (ctx : gmap string string) :
  (forall c, In c found ->
             exists k, getitem df c = Ok (Series k) /\ normalised k) ->
  exists acc',
    for_each (check_date_column rt) found acc (State df ctx)
    = Returns acc' (State df ctx).
Proof.
  revert acc. induction found as [|col found IH]; intros acc Hnormal.
  - exists acc. reflexivity.
  - cbn [for_each]. unfold bind. rewrite check_date_column_run.
    destruct (Hnormal col (or_introl eq_refl)) as (k & Hsel & Hdt & Hcells).
    rewrite Hsel, (to_datetime_fixed rt _ Hcells).
    rewrite <- Hdt, (setitem_same df col k Hsel).
    apply IH. intros c Hc. apply Hnormal. now right.
Qed.

Lemma iadd_returns_frame (key text : string) (s s' : state) (u : unit) :
  iadd key text s = Returns u s' -> frame s' = frame s.
Proof.
  unfold iadd. destruct (context s !! key); intros H; inversion H; reflexivity.
Qed.

(** The frame the check leaves when it returns. *)
Lemma check_date_validity_frame (rt : runtime) (df : DataFrame)
      (ctx : gmap string string) (u : unit) (s' : state) :
  check_date_validity rt (State df ctx) = Returns u s' ->
  columns (frame s') = columns df /\
  forall c, In c date_columns -> has_column c df = true ->
            exists k, getitem (frame s') c = Ok (Series k) /\ normalised k.
Proof.
  destruct s' as [df' ctx']. cbn [frame].
  unfold check_date_validity. run_monad.
  assert (Hfound : forall c, In c date_columns -> has_column c df = true ->
            In c (List.filter (fun col => has_column col df) date_columns)).
  { intros c Hin Hc. apply filter_In. now split. }
  destruct (List.filter (fun col => has_column col df) date_columns)
    as [|c0 found].
  - intros Hrun. apply iadd_returns_frame in Hrun. simpl in Hrun.
    rewrite Hrun. split; [reflexivity|].
    intros c Hc Hhas. destruct (Hfound c Hc Hhas).
  - destruct (for_each (check_date_column rt) (c0 :: found) [] (State df ctx))
      as [acc' [df1 ctx1]|e s1] eqn:Hloop; [|discriminate].
    destruct (for_each_check_date_column_normalises _ _ _ _ _ _ _ Hloop)
      as (Hdone & _).
    destruct (for_each_check_date_column_ready _ _ _ _ _ _ _ Hloop)
      as (_ & Hcols & _).
    simpl in Hdone, Hcols. cbv beta iota.
    assert (Hgoal : df' = df1 ->
              columns df' = columns df /\
              forall c, In c date_columns -> has_column c df = true ->
                exists k, getitem df' c = Ok (Series k) /\ normalised k).
    { intros ->. split; [exact Hcols|].
      intros c Hc Hhas. exact (Hdone c (Hfound c Hc Hhas)). }
    destruct acc' as [|x acc'].
    + intros Hrun. apply iadd_returns_frame in Hrun. exact (Hgoal Hrun).
    + cbv beta iota. match goal with |- context [iadd "action_items" ?t ?s] =>
        destruct (iadd "action_items" t s) as [u1 s1|e1 s1] eqn:E1
      end; [|discriminate].
      intros Hrun. apply iadd_returns_frame in Hrun, E1. simpl in Hrun, E1.
      apply Hgoal. congruence.
Qed.

(** X14. The date-validity check brings the date columns to a normal form
    and is idempotent on the frame.  When it returns, every date column
    present is a column of dtype datetime holding instants and [NaT] only;
    run again on the frame it left, with any dictionary holding both keys,
    it returns and leaves that frame exactly as it is. *)
Theorem date_validity_idempotent (rt : runtime) (df : DataFrame)
        (ctx : gmap string string) (s' : state) :
  check_date_validity rt (State df ctx) = Returns tt s' ->
  (forall c, In c date_columns -> has_column c df = true ->
             exists k, getitem (frame s') c = Ok (Series k) /\ normalised k) /\
  forall ctx2 b2 a2,
    ctx2 !! "body" = Some b2 ->
    ctx2 !! "action_items" = Some a2 ->
    exists ctx3,
      check_date_validity rt (State (frame s') ctx2)
      = Returns tt (State (frame s') ctx3).
Proof.
  intros Hrun.
  destruct (check_date_validity_frame rt df ctx tt s' Hrun) as (Hcols & Hnormal).
  split; [exact Hnormal|].
  destruct s' as [df' ctx']. cbn [frame] in *.
  intros ctx2 b2 a2 Hb2 Ha2. unfold check_date_validity. run_monad.
  assert (Hfound : forall c,
            In c (List.filter (fun col => has_column col df') date_columns) ->
            exists k, getitem df' c = Ok (Series k) /\ normalised k).
  { intros c Hc. apply filter_In in Hc. destruct Hc as [Hc Hhas].
    apply Hnormal; [exact Hc|].
    now rewrite <- (has_column_same_labels df df' c Hcols). }
  destruct (List.filter (fun col => has_column col df') date_columns)
    as [|c0 found].
  - step_iadd. eauto.
  - destruct (for_each_check_date_column_fixed rt (c0 :: found) [] df' ctx2 Hfound)
      as (acc' & ->).
    cbv beta iota. destruct acc'; repeat step_iadd; eauto.
Qed.

Lemma date_validity_idempotent_witness :
  exists s' ctx3,
    check_date_validity Sample.rt (State signups (initial_context signups))
    = Returns tt s' /\
    frame s'
    = Frame "signups" 2
        [ Column "ID" int64 [VInt 1; VInt 2];
          Column "CREATED_DATE" datetime64_utc [VTime 0; VNull NaT] ] /\
    check_date_validity Sample.rt (State (frame s') (initial_context signups))
    = Returns tt (State (frame s') ctx3).
Proof.
  eexists.
  assert (Hrun : check_date_validity Sample.rt (State signups (initial_context signups))
                 = Returns tt _) by (vm_compute; reflexivity).
  destruct (proj2 (date_validity_idempotent Sample.rt signups
                     (initial_context signups) _ Hrun)
              (initial_context signups) _ _ eq_refl eq_refl) as (ctx3 & Hagain).
  exists ctx3. split; [exact Hrun|]. split; [reflexivity | exact Hagain].
Defined.

(** ** The order of the partially null columns *)

Lemma strongly_sorted_filter {A : Type} (R : A -> A -> Prop) (keep : A -> bool)
      (l : list A) :
  StronglySorted R l -> StronglySorted R (List.filter keep l).
Proof.
  induction 1 as [|x l _ IH Hx]; simpl; [constructor|].
  destruct (keep x); [|exact IH]. constructor; [exact IH|].
  rewrite List.Forall_forall in *. intros y Hy. apply filter_In in Hy.
  now apply Hx.
Qed.

(** X15. When some but not all columns are missing throughout, the null
    analysis lists the columns with a missing value, each once, the column
    with the most missing values first, and writes for each its label, its
    count and its percentage as the code computes it on doubles.  A column
    missing in every row is listed here too, at 100 per cent; the "Fully
    NULL" finding is kept for tables in which every column is missing
    throughout. *)
Theorem partial_nulls_most_missing_first (rt : runtime) (df : DataFrame)
        (ctx : gmap string string) (b a : string) :
  ctx !! "body" = Some b ->
  ctx !! "action_items" = Some a ->
  ~ (forall k, In k (cols df) -> null_count (cells k) = nrows df) ->
  (exists k, In k (cols df) /\ 0 < null_count (cells k)) ->
  exists listed,
    StronglySorted (fun r r' => row_nulls r' <= row_nulls r) listed /\
    Permutation listed
      (List.filter (fun r => (0 <? row_nulls r)%nat) (map summary_row (cols df))) /\
    (forall r, In r listed
               <-> exists k, In k (cols df) /\ r = summary_row k /\
                             0 < null_count (cells k)) /\
    (let message :=
       nl +:+ "          - "
          +:+ join (nl +:+ "          - ")
                   (map (fun r =>
                           row_column r +:+ ": " +:+ pretty (row_nulls r)
                             +:+ " missing ("
                             +:+ str_float rt (null_percentage (row_nulls r) (nrows df))
                             +:+ "%)")
                        listed) in
     check_null_columns rt (State df ctx)
     = Returns tt
         (State df
            (<["body" := b +:+ section5 ("Partially NULL columns: " +:+ message)]>
               (<["action_items" :=
                    a +:+ "    - Handle missing data: The following columns contain missing values:"
                      +:+ message +:+ nl]>
                  ctx)))) /\
    forall n, 0 < n -> (null_percentage n n == 100)%Q.
Proof.
  intros Hb Ha Hnotall Hsome.
  pose proof (_get_column_data_types_perm df) as Hperm.
  assert (Hrow : forall k, In k (cols df) ->
                           In (summary_row k) (_get_column_data_types df)).
  { intros k Hk. apply (Permutation_in _ (Permutation_sym Hperm)).
    now apply in_map. }
  assert (Hcol : forall r, In r (_get_column_data_types df) ->
                           exists k, In k (cols df) /\ r = summary_row k).
  { intros r Hr. apply (Permutation_in _ Hperm) in Hr.
    apply in_map_iff in Hr. destruct Hr as (k & <- & Hk). eauto. }
  exists (List.filter (fun r => (0 <? row_nulls r)%nat) (_get_column_data_types df)).
  split; [|split; [|split; [|split; [|exact null_percentage_all]]]].
  - apply strongly_sorted_filter.
    apply (strongly_sorted_impl
             (fun r r' => (row_nulls r' <=? row_nulls r)%nat = true)).
    + intros r r' H. now apply Nat.leb_le.
    + unfold _get_column_data_types. apply sort_by_sorted.
      * intros x y H. apply Nat.leb_le. apply Nat.leb_gt in H. lia.
      * intros x y z H1 H2. apply Nat.leb_le in H1, H2. apply Nat.leb_le. lia.
  - now apply filter_perm.
  - intros r. rewrite filter_In. split.
    + intros [Hr Hpos]. destruct (Hcol r Hr) as (k & Hk & ->).
      exists k. split; [exact Hk|]. split; [reflexivity|].
      now apply Nat.ltb_lt in Hpos.
    + intros (k & Hk & -> & Hpos). split; [exact (Hrow k Hk)|].
      now apply Nat.ltb_lt.
  - unfold check_null_columns. run_monad. unfold shape, fst.
    assert (Eall : forallb (fun n => (n =? nrows df)%nat)
                     (map row_nulls (_get_column_data_types df)) = false).
    { apply not_true_iff_false. intros Eall. apply Hnotall.
      intros k Hk. rewrite forallb_forall in Eall. apply Nat.eqb_eq.
      apply Eall. apply in_map_iff. exists (summary_row k).
      split; [reflexivity | exact (Hrow k Hk)]. }
    assert (Esome : existsb (fun n => (0 <? n)%nat)
                      (map row_nulls (_get_column_data_types df)) = true).
    { destruct Hsome as (k & Hk & Hpos). apply existsb_exists.
      exists (null_count (cells k)). split; [|now apply Nat.ltb_lt].
      apply in_map_iff. exists (summary_row k).
      split; [reflexivity | exact (Hrow k Hk)]. }
    rewrite Eall, Esome. cbv zeta.
    rewrite (iadd_present _ _ a) by exact Ha.
    rewrite (iadd_present _ _ b); [reflexivity|].
    rewrite lookup_insert_ne; [exact Hb | discriminate].
Qed.

Lemma partial_nulls_most_missing_first_witness :
  exists ctx',
    check_null_columns Sample.rt (State gaps (initial_context gaps))
    = Returns tt (State gaps ctx') /\
    ctx' !! "action_items"
    = Some ("Action required:" +:+ nl +:+
            "    - Handle missing data: The following columns contain missing values:"
            +:+ nl +:+ "          - " +:+ "LEVEL: 3 missing (100.0%)"
            +:+ nl +:+ "          - " +:+ "DEPTH: 1 missing (33.33%)" +:+ nl).
Proof.
  destruct (partial_nulls_most_missing_first Sample.rt gaps
              (initial_context gaps) _ _ eq_refl eq_refl)
    as (listed & Hsorted & Hperm & _ & Hrun & _).
  - intros Hall.
    specialize (Hall (Column "STATION" int64 [VInt 7; VInt 7; VInt 8])).
    simpl in Hall. discriminate Hall. tauto.
  - exists (Column "LEVEL" float64 [VNull NaN; VNull NaN; VNull NaN]).
    split; [simpl; tauto | vm_compute; lia].
  - vm_compute in Hperm.
    apply Permutation_sym, Permutation_length_2_inv in Hperm.
    destruct Hperm as [->| ->].
    + exfalso. inversion Hsorted as [|? ? _ Hhead]; subst.
      inversion Hhead as [|? ? Hle _]; subst. simpl in Hle. lia.
    + eexists. split; [exact Hrun|]. vm_compute. reflexivity.
Defined.

(** ** Checks that never ask for an action *)

Lemma untouched_ret {A : Type} (key : string) (x : A) : untouched key (ret x).
Proof. intros s. reflexivity. Qed.

Lemma untouched_get_frame (key : string) : untouched key get_frame.
Proof. intros s. reflexivity. Qed.

Lemma untouched_iadd (key other text : string) :
  other <> key -> untouched key (iadd other text).
Proof.
  intros Hne s. unfold iadd. destruct (context s !! other); [|reflexivity].
  simpl. now rewrite lookup_insert_ne.
Qed.

Lemma untouched_bind {A B : Type} (key : string) (m : M A) (k : A -> M B) :
  untouched key m -> (forall x, untouched key (k x)) -> untouched key (bind m k).
Proof.
  intros Hm Hk s. unfold bind. specialize (Hm s).
  destruct (m s) as [x s1|e s1]; [|exact Hm].
  rewrite (Hk x s1). exact Hm.
Qed.

Ltac quiet_step :=
  lazymatch goal with
  | |- untouched _ (bind _ _) => apply untouched_bind; [|intros ?]
  | |- untouched _ (iadd _ _) => apply untouched_iadd; discriminate
  | |- untouched _ (ret _) => apply untouched_ret
  | |- untouched _ get_frame => apply untouched_get_frame
  | |- untouched _ (match ?x with _ => _ end) => destruct x
  | |- untouched _ (let _ := _ in _) => cbv zeta
  | |- untouched _ ((fun _ => _) _) => cbv beta
  end.

(** X16. Four of the checks never ask for an action: whatever the table and
    the dictionary, and however they end, the shape check, the
    duplicate-columns check, the data-type overview and the summary
    statistics leave the entry [action_items] as they found it.  Repeated
    column names in particular are never turned into an action item. *)
Theorem checks_without_actions (rt : runtime) :
  Forall (untouched "action_items")
         [ get_dataframe_shape; check_duplicate_columns rt;
           get_column_data_types rt; describe_data rt ].
Proof.
  repeat (apply List.Forall_cons; [|]); [..|apply List.Forall_nil].
  - unfold get_dataframe_shape. repeat quiet_step.
  - unfold check_duplicate_columns. repeat quiet_step.
  - unfold get_column_data_types. repeat quiet_step.
  - unfold describe_data. repeat quiet_step.
Qed.
